(** * mplWindow: a shallow embedding of the plot window and its dialogs

    The development follows [mplWindow.py]: the two modal dialogs
    ([textPrompt], [limitPrompt]) and the [Plot] window.  Python objects are
    records, methods are computations in a state-and-exception monad over the
    object, and calls into Tk and matplotlib are recorded in the object's
    state (the axes keep the artists drawn since the last [clear]). *)

From Stdlib Require Import ZArith List String Ascii Bool Floats Lia DecimalString.
From stdpp Require Import base list.
Import ListNotations.

Open Scope string_scope.

(** ** Python exceptions and the method monad *)

Inductive exn :=
| AssertionError
| IndexError
| TypeError
| ValueError
| AttributeError
| TclError
| RuntimeError.

Definition exn_eqb (a b : exn) : bool :=
  match a, b with
  | AssertionError, AssertionError | IndexError, IndexError
  | TypeError, TypeError | ValueError, ValueError
  | AttributeError, AttributeError | TclError, TclError
  | RuntimeError, RuntimeError => true
  | _, _ => false
  end.

(** The outcome of a call: an exception that propagates to the caller, or a
    value. *)
Definition res (A : Type) : Type := (exn + A)%type.

(** A method of an object of type [S]: it runs on the object's state and
    leaves a state behind also when it raises, as attribute writes made
    before a [raise] persist in Python. *)
Definition M (S A : Type) : Type := S -> res A * S.

Section Monad.
Context {S : Type}.

Definition ret {A} (a : A) : M S A := fun s => (inr a, s).

Definition bind {A B} (m : M S A) (k : A -> M S B) : M S B :=
  fun s =>
    match m s with
    | (inl e, s') => (inl e, s')
    | (inr a, s') => k a s'
    end.

Definition raise {A} (e : exn) : M S A := fun s => (inl e, s).

Definition gets {A} (f : S -> A) : M S A := fun s => (inr (f s), s).

Definition modify (f : S -> S) : M S unit := fun s => (inr tt, f s).

(** [assert c] *)
Definition assert (c : bool) : M S unit :=
  if c then ret tt else raise AssertionError.

(** [try: m  except: h] with a bare [except], which catches everything. *)
Definition try_except {A} (m : M S A) (h : M S A) : M S A :=
  fun s =>
    match m s with
    | (inl _, s') => h s'
    | r => r
    end.

(** [try: m  except E: h]: only exceptions of class [E] are handled. *)
Definition try_except_as {A} (m : M S A) (E : exn) (h : M S A) : M S A :=
  fun s =>
    match m s with
    | (inl e, s') => if exn_eqb e E then h s' else (inl e, s')
    | r => r
    end.

(** A value looked up outside the object ([None] is the failure). *)
Definition lift_opt {A} (e : exn) (o : option A) : M S A :=
  match o with
  | Some a => ret a
  | None => raise e
  end.

(** [for x in xs: body x] *)
Fixpoint for_each {A} (xs : list A) (body : A -> M S unit) : M S unit :=
  match xs with
  | [] => ret tt
  | x :: xs' => bind (body x) (fun _ => for_each xs' body)
  end.
End Monad.

Notation "'let*' x ':=' m 'in' k" := (bind m (fun x => k))
  (at level 10, x name, m at level 200, k at level 200).
Notation "m ';;' k" := (bind m (fun _ => k))
  (at level 100, k at level 200, right associativity).

(** [range(n)] *)
Definition range (n : nat) : list nat := seq 0 n.

(** [str(n)] for a non-negative [int]. *)
Definition str (n : nat) : string := NilZero.string_of_uint (Nat.to_uint n).

(** ** The builtin [float]

    [float(s)] is Python's, not this repository's: the dialogs take it as a
    parameter [py_float], with [None] standing for the [ValueError] it raises
    on a string that is no number.  Python floats are IEEE 754 doubles, here
    [PrimFloat.float]; [b > a] is [PrimFloat.ltb a b]. *)

Definition float_call {S} (py_float : string -> option float) (s : string)
  : M S float :=
  lift_opt ValueError (py_float s).

(** A sample of the builtin on plain decimal literals: an optional sign,
    digits, and an optional fraction, rounded to the nearest double (literals
    of up to fifteen significant digits, beyond which the numerator is
    already rounded).  It is only used to run the dialogs on concrete
    entries. *)
Module Literal.
Definition digit (c : ascii) : option Z :=
  let n := Z.of_nat (nat_of_ascii c) in
  if ((48 <=? n) && (n <=? 57))%Z then Some (n - 48)%Z else None.

(** Reads digits into [acc], counting them. *)
Fixpoint digits (s : string) (acc : Z) (count : nat) : option (Z * nat * string) :=
  match s with
  | String c s' =>
      match digit c with
      | Some d => digits s' (10 * acc + d)%Z (S count)
      | None => Some (acc, count, s)
      end
  | EmptyString => Some (acc, count, s)
  end.

(** [m / 10^k] as the nearest double. *)
Definition decimal (neg : bool) (m : Z) (k : nat) : float :=
  let num := binary_normalize prec emax (if neg then - m else m) 0 neg in
  let den := binary_normalize prec emax (10 ^ Z.of_nat k) 0 false in
  SF2Prim (SFdiv prec emax num den).

Definition unsigned (neg : bool) (s : string) : option float :=
  match digits s 0 0 with
  | Some (ip, n1, String "." rest) =>
      match digits rest ip 0 with
      | Some (m, n2, EmptyString) =>
          if (n1 + n2 =? 0)%nat then None else Some (decimal neg m n2)
      | _ => None
      end
  | Some (ip, S _, EmptyString) => Some (decimal neg ip 0)
  | _ => None
  end.

Definition parse (s : string) : option float :=
  match s with
  | String "-" s' => unsigned true s'
  | String "+" s' => unsigned false s'
  | _ => unsigned false s
  end.
End Literal.

(** ** The numeric-range dialog: [class limitPrompt] *)

Module limitPrompt.

(** The dialog object.  [var1] and [var2] are the two [StringVar]s behind
    the entries; [result] is [None] until [__apply__] stores a pair.  The
    Tk side of the window is kept as flags and the lines printed as a
    list. *)
Record t := mk {
  has_parent : bool;               (* [self.parent is not None] *)
  var1 : string;
  var2 : string;
  result : option (float * float);
  created : bool;                  (* [super().__init__(parent)] ran *)
  wm_title : option string;
  withdrawn : bool;                (* [self.withdraw()] ran *)
  destroyed : bool;                (* [self.destroy()] ran *)
  parent_focus : bool;             (* [self.parent.focus_set()] ran *)
  stdout : list string
}.

Definition set_vars (a b : string) (d : t) : t :=
  mk (has_parent d) a b (result d) (created d) (wm_title d) (withdrawn d)
     (destroyed d) (parent_focus d) (stdout d).
Definition set_var1 (a : string) (d : t) : t := set_vars a (var2 d) d.
Definition set_var2 (b : string) (d : t) : t := set_vars (var1 d) b d.
Definition set_result (r : option (float * float)) (d : t) : t :=
  mk (has_parent d) (var1 d) (var2 d) r (created d) (wm_title d)
     (withdrawn d) (destroyed d) (parent_focus d) (stdout d).
Definition set_title (s : string) (d : t) : t :=
  mk (has_parent d) (var1 d) (var2 d) (result d) (created d) (Some s)
     (withdrawn d) (destroyed d) (parent_focus d) (stdout d).
Definition withdraw (d : t) : t :=
  mk (has_parent d) (var1 d) (var2 d) (result d) (created d) (wm_title d)
     true (destroyed d) (parent_focus d) (stdout d).
Definition destroy (d : t) : t :=
  mk (has_parent d) (var1 d) (var2 d) (result d) (created d) (wm_title d)
     (withdrawn d) true (parent_focus d) (stdout d).
Definition focus_parent (d : t) : t :=
  mk (has_parent d) (var1 d) (var2 d) (result d) (created d) (wm_title d)
     (withdrawn d) (destroyed d) true (stdout d).
Definition print (line : string) (d : t) : t :=
  mk (has_parent d) (var1 d) (var2 d) (result d) (created d) (wm_title d)
     (withdrawn d) (destroyed d) (parent_focus d) (stdout d ++ [line]).

(** What the user does while the dialog waits.  Return and the OK button
    are both bound to [__ok__]; Escape, the Cancel button and the window
    manager's close are all bound to [__cancel__]. *)
Inductive event :=
| Type1 (s : string)
| Type2 (s : string)
| OK
| Cancel.

Section Methods.
Variable py_float : string -> option float.

(** [__validate__] *)
Definition __validate__ : M t bool :=
  try_except
    (let* v1 := gets var1 in
     let* temp1 := float_call py_float v1 in
     let* v2 := gets var2 in
     let* temp2 := float_call py_float v2 in
     ret (PrimFloat.ltb temp1 temp2))
    (ret false).

(** [__apply__] *)
Definition __apply__ : M t unit :=
  let* v1 := gets var1 in
  let* a := float_call py_float v1 in
  let* v2 := gets var2 in
  let* b := float_call py_float v2 in
  modify (set_result (Some (a, b))).

(** [__cancel__] *)
Definition __cancel__ : M t unit :=
  let* p := gets has_parent in
  (if p then modify focus_parent else ret tt) ;;
  modify destroy.

(** [__ok__]; [update_idletasks] changes nothing that is kept here. *)
Definition __ok__ : M t unit :=
  let* valid := __validate__ in
  if negb valid then modify (print "not valid")
  else (__apply__ ;; modify withdraw ;; __cancel__).

(** [wait_window]: Tk delivers the user's events to the bound methods
    until the window is destroyed.  An exception raised inside a
    callback is reported by Tk and does not leave the event loop.  The
    answer is [None] when the events run out with the window still
    there: the constructor has not returned. *)
Definition dispatch (ev : event) (d : t) : t :=
  match ev with
  | Type1 s => set_var1 s d
  | Type2 s => set_var2 s d
  | OK => snd (__ok__ d)
  | Cancel => snd (__cancel__ d)
  end.

Fixpoint wait_window (evs : list event) (d : t) : option t :=
  if destroyed d then Some d
  else match evs with
       | [] => None
       | ev :: evs' => wait_window evs' (dispatch ev d)
       end.

(** [__create_widgets__]; [initValue] holds [str(initValue[0])] and
    [str(initValue[1])] (and whatever else the caller's value had). *)
Definition __create_widgets__ (title : option string)
    (initValue : list string) : M t unit :=
  match title with
  | Some s => modify (set_title s)
  | None => ret tt
  end ;;
  let* s1 := lift_opt IndexError (initValue !! 0%nat) in
  let* s2 := lift_opt IndexError (initValue !! 1%nat) in
  modify (set_vars s1 s2).

(** [__init__]: the Tk window exists from [super().__init__(parent)]
    on, before the [assert]. *)
Definition __init__ (parent : bool) (title : option string)
    (initValue : list string) (evs : list event) : option (res unit * t) :=
  let d0 := mk parent "" "" None true None false false false [] in
  match (assert (length initValue =? 2)%nat ;;
         modify (set_result None) ;;
         __create_widgets__ title initValue) d0 with
  | (inl e, d) => Some (inl e, d)
  | (inr _, d) =>
      match wait_window evs d with
      | Some d' => Some (inr tt, d')
      | None => None
      end
  end.
End Methods.
End limitPrompt.

(** ** The text-and-font-size dialog: [class textPrompt] *)

Module textPrompt.

(** [fontVar] exists only when the dialog was built with [getFontSize];
    [None] is the missing attribute.  A result is the text with the font
    size, or with [None] when no font size was asked for. *)
Record t := mk {
  has_parent : bool;
  getFontSize : bool;
  var : string;
  fontVar : option string;
  result : option (string * option float);
  created : bool;
  wm_title : option string;
  prompt : option string;          (* the [text] label above the entries *)
  withdrawn : bool;
  destroyed : bool;
  parent_focus : bool;
  stdout : list string
}.

Definition set_var (s : string) (d : t) : t :=
  mk (has_parent d) (getFontSize d) s (fontVar d) (result d) (created d)
     (wm_title d) (prompt d) (withdrawn d) (destroyed d) (parent_focus d)
     (stdout d).
Definition set_fontVar (s : string) (d : t) : t :=
  mk (has_parent d) (getFontSize d) (var d) (Some s) (result d) (created d)
     (wm_title d) (prompt d) (withdrawn d) (destroyed d) (parent_focus d)
     (stdout d).
Definition set_result (r : option (string * option float)) (d : t) : t :=
  mk (has_parent d) (getFontSize d) (var d) (fontVar d) r (created d)
     (wm_title d) (prompt d) (withdrawn d) (destroyed d) (parent_focus d)
     (stdout d).
Definition set_title (s : string) (d : t) : t :=
  mk (has_parent d) (getFontSize d) (var d) (fontVar d) (result d)
     (created d) (Some s) (prompt d) (withdrawn d) (destroyed d)
     (parent_focus d) (stdout d).
Definition set_prompt (s : string) (d : t) : t :=
  mk (has_parent d) (getFontSize d) (var d) (fontVar d) (result d)
     (created d) (wm_title d) (Some s) (withdrawn d) (destroyed d)
     (parent_focus d) (stdout d).
Definition withdraw (d : t) : t :=
  mk (has_parent d) (getFontSize d) (var d) (fontVar d) (result d)
     (created d) (wm_title d) (prompt d) true (destroyed d)
     (parent_focus d) (stdout d).
Definition destroy (d : t) : t :=
  mk (has_parent d) (getFontSize d) (var d) (fontVar d) (result d)
     (created d) (wm_title d) (prompt d) (withdrawn d) true
     (parent_focus d) (stdout d).
Definition focus_parent (d : t) : t :=
  mk (has_parent d) (getFontSize d) (var d) (fontVar d) (result d)
     (created d) (wm_title d) (prompt d) (withdrawn d) (destroyed d)
     true (stdout d).
Definition print (line : string) (d : t) : t :=
  mk (has_parent d) (getFontSize d) (var d) (fontVar d) (result d)
     (created d) (wm_title d) (prompt d) (withdrawn d) (destroyed d)
     (parent_focus d) (stdout d ++ [line]).

(** The user's events.  The font-size entry exists only when the dialog
    asked for a font size, so [TypeFont] reaches no widget otherwise. *)
Inductive event :=
| TypeText (s : string)
| TypeFont (s : string)
| OK
| Cancel.

Section Methods.
Variable py_float : string -> option float.

(** [self.fontVar.get()] *)
Definition fontVar_get : M t string :=
  let* fv := gets fontVar in lift_opt AttributeError fv.

(** [__validate__] *)
Definition __validate__ : M t bool :=
  let* g := gets getFontSize in
  if negb g then ret true
  else
    try_except
      (let* s := fontVar_get in
       let* temp := float_call py_float s in
       ret true)
      (ret false).

(** [__apply__] *)
Definition __apply__ : M t unit :=
  let* g := gets getFontSize in
  if g then
    let* text := gets var in
    let* s := fontVar_get in
    let* size := float_call py_float s in
    modify (set_result (Some (text, Some size)))
  else
    let* text := gets var in
    modify (set_result (Some (text, None))).

(** [__cancel__] *)
Definition __cancel__ : M t unit :=
  let* p := gets has_parent in
  (if p then modify focus_parent else ret tt) ;;
  modify destroy.

(** [__ok__] *)
Definition __ok__ : M t unit :=
  let* valid := __validate__ in
  if negb valid then modify (print "not valid")
  else (__apply__ ;; modify withdraw ;; __cancel__).

Definition dispatch (ev : event) (d : t) : t :=
  match ev with
  | TypeText s => set_var s d
  | TypeFont s => if getFontSize d then set_fontVar s d else d
  | OK => snd (__ok__ d)
  | Cancel => snd (__cancel__ d)
  end.

(** [wait_window], as for the numeric-range dialog. *)
Fixpoint wait_window (evs : list event) (d : t) : option t :=
  if destroyed d then Some d
  else match evs with
       | [] => None
       | ev :: evs' => wait_window evs' (dispatch ev d)
       end.

(** [__create_widgets__]; [initValue] and [initFontSize] are given as
    the caller's values under [str], [None] where the caller passed
    [None]. *)
Definition __create_widgets__ (title text initValue initFontSize : option string)
    (getFontSize : bool) : M t unit :=
  match title with Some s => modify (set_title s) | None => ret tt end ;;
  match text with Some s => modify (set_prompt s) | None => ret tt end ;;
  let initValue := match initValue with Some s => s | None => "" end in
  let initFontSize := match initFontSize with Some s => s | None => str 10 end in
  modify (set_var initValue) ;;
  if getFontSize then modify (set_fontVar initFontSize) else ret tt.

(** [__init__] *)
Definition __init__ (parent : bool) (title text initValue initFontSize : option string)
    (getFontSize : bool) (evs : list event) : option (res unit * t) :=
  let d0 := mk parent getFontSize "" None None true None None false false false [] in
  match __create_widgets__ title text initValue initFontSize getFontSize d0 with
  | (inl e, d) => Some (inl e, d)
  | (inr _, d) =>
      match wait_window evs d with
      | Some d' => Some (inr tt, d')
      | None => None
      end
  end.
End Methods.
End textPrompt.

(** ** numpy arrays

    An [ndarray] is its shape and its elements in row-major order.  Only what
    the window does with its data is modelled: [shape], [len(shape)] and
    indexing by leading integers followed by a full slice. *)

Record ndarray := mk_ndarray {
  shape : list nat;
  flat : list float
}.

Definition rank (a : ndarray) : nat := length (shape a).

Definition size (sh : list nat) : nat := fold_right Nat.mul 1%nat sh.

(** [a.shape[k]] and [a.shape[-k]]; [None] is the [IndexError] of the tuple. *)
Definition shape_at (a : ndarray) (k : nat) : option nat := shape a !! k.

Definition shape_neg (a : ndarray) (k : nat) : option nat :=
  match k with
  | O => None
  | S k' => rev (shape a) !! k'
  end.

(** [a[i]]: the [i]-th block along the first axis. *)
Definition item (a : ndarray) (i : nat) : option ndarray :=
  match shape a with
  | [] => None
  | n :: sh =>
      if (i <? n)%nat
      then Some (mk_ndarray sh (take (size sh) (drop (i * size sh) (flat a))))
      else None
  end.

(** [a[i1, ..., ik, :]]: the integers select along the leading axes and the
    slice needs one more axis to range over; [None] is numpy's
    [IndexError]. *)
Fixpoint getitem (a : ndarray) (idx : list nat) : option ndarray :=
  match idx with
  | [] => match shape a with [] => None | _ :: _ => Some a end
  | i :: idx' =>
      match item a i with
      | Some b => getitem b idx'
      | None => None
      end
  end.

(** ** Python values

    A list or a tuple of strings, kept apart because only the list takes an
    item assignment. *)

Inductive pykind := PyList | PyTuple.

Record pyseq := mk_pyseq {
  kind : pykind;
  items : list string
}.

Definition pylist (l : list string) : pyseq := mk_pyseq PyList l.
Definition pytuple (l : list string) : pyseq := mk_pyseq PyTuple l.

(** [q[i]] *)
Definition seq_get (q : pyseq) (i : nat) : option string := items q !! i.

(** [q[i] = v]: a tuple refuses with [TypeError], a list checks the range. *)
Definition seq_set (q : pyseq) (i : nat) (v : string) : res pyseq :=
  match kind q with
  | PyTuple => inl TypeError
  | PyList =>
      if (i <? length (items q))%nat
      then inr (mk_pyseq PyList (<[i := v]> (items q)))
      else inl IndexError
  end.

(** What a caller may pass for [fmt] and [labels], whose items are taken to
    be strings, and for [data]. *)
Inductive pyarg :=
| PNone
| PStr (s : string)
| PSeq (q : pyseq)
| POther.

Inductive pyobj :=
| Ndarray (a : ndarray)
| NotNdarray.

(** ** The matplotlib axes

    A drawing call of the window: the method of the axes, its positional
    arrays, the format string when one is passed, the [label] keyword and
    the caller's keywords. *)

Inductive method := plot | errorbar | bar | hist.

Record draw_call := mk_call {
  call_method : method;
  call_arrays : list ndarray;
  call_fmt : option string;
  call_label : string;
  call_kwargs : list (string * string)
}.

(** The axes hold what was drawn and set since the last [clear()], which
    puts them back to empty, linear and unlabelled. *)
Module Axes.
Record t := mk {
  artists : list draw_call;
  xlim : option (float * float);
  ylim : option (float * float);
  xscale : string;
  yscale : string;
  xlabel : option (string * float);    (* text, [fontsize] *)
  ylabel : option (string * float);
  title : option (string * float);
  legend : option (Z * Z)              (* [loc], [fontsize] *)
}.

Definition cleared : t :=
  mk [] None None "linear" "linear" None None None None.

Definition add_artist (c : draw_call) (a : t) : t :=
  mk (artists a ++ [c]) (xlim a) (ylim a) (xscale a) (yscale a)
     (xlabel a) (ylabel a) (title a) (legend a).
Definition set_xlim (v : float * float) (a : t) : t :=
  mk (artists a) (Some v) (ylim a) (xscale a) (yscale a)
     (xlabel a) (ylabel a) (title a) (legend a).
Definition set_ylim (v : float * float) (a : t) : t :=
  mk (artists a) (xlim a) (Some v) (xscale a) (yscale a)
     (xlabel a) (ylabel a) (title a) (legend a).
Definition set_xscale (v : string) (a : t) : t :=
  mk (artists a) (xlim a) (ylim a) v (yscale a)
     (xlabel a) (ylabel a) (title a) (legend a).
Definition set_yscale (v : string) (a : t) : t :=
  mk (artists a) (xlim a) (ylim a) (xscale a) v
     (xlabel a) (ylabel a) (title a) (legend a).
Definition set_xlabel (text : string) (fontsize : float) (a : t) : t :=
  mk (artists a) (xlim a) (ylim a) (xscale a) (yscale a)
     (Some (text, fontsize)) (ylabel a) (title a) (legend a).
Definition set_ylabel (text : string) (fontsize : float) (a : t) : t :=
  mk (artists a) (xlim a) (ylim a) (xscale a) (yscale a)
     (xlabel a) (Some (text, fontsize)) (title a) (legend a).
Definition set_title (text : string) (fontsize : float) (a : t) : t :=
  mk (artists a) (xlim a) (ylim a) (xscale a) (yscale a)
     (xlabel a) (ylabel a) (Some (text, fontsize)) (legend a).
Definition show_legend (loc fontsize : Z) (a : t) : t :=
  mk (artists a) (xlim a) (ylim a) (xscale a) (yscale a)
     (xlabel a) (ylabel a) (title a) (Some (loc, fontsize)).
End Axes.

(** ** The plot window: [class Plot] *)

Module Plot.

Definition TYPE_PLOT : Z := 0.
Definition TYPE_ERRORBAR : Z := 1.
Definition TYPE_BAR : Z := 2.
Definition TYPE_HISTOGRAM : Z := 3.
Definition TYPE_2DHISTOGRAM : Z := 4.
Definition TYPE_CONTOUR : Z := 5.
Definition TYPE_IMAGE : Z := 6.
Definition TYPE_COLORMESH : Z := 7.
Definition TYPE_DATEPLOT : Z := 8.
Definition TYPE_VECTOR : Z := 9.

(** The window object.  The Tk variables ([BooleanVar], [IntVar]) are
    kept as their values; the menus that matter here as their entries,
    numbered from 0 in the order [add_command] and [add_radiobutton]
    appended them. *)
Record t := mk {
  created : bool;                        (* [super().__init__()] made the toplevel *)
  wm_title : option string;              (* [self.title(windowTitle)] *)
  kwargs : list (string * string);       (* passed on to each drawing call *)
  data : ndarray;                        (* [np.copy(data)] *)
  fmt : option pyseq;                    (* [None] is Python's [None] *)
  labels : option pyseq;                 (* [None]: attribute never assigned *)
  xlabel : option string;
  ylabel : option string;
  xlabelSize : float;
  ylabelSize : float;
  title : option string;                 (* the plot title *)
  titleSize : float;
  xlim : option (float * float);
  ylim : option (float * float);
  logX : bool;
  logY : bool;
  legend : bool;
  legendLoc : Z;
  legendFontSize : Z;
  plotTypeVar : Z;
  plotTypeMenu : list (string * Z * bool); (* label, value, enabled *)
  relabelMenu : list string;             (* labels of its command entries *)
  showToolbar : bool;
  ax : Axes.t;                             (* [self.ax] *)
  layouts : nat;                         (* [tight_layout] calls that returned *)
  toolbar : option bool;                 (* [Some false]: destroyed *)
  draws : nat;                           (* [self.canvas.draw()] calls *)
  reported : list exn                    (* reported by Tk from callbacks *)
}.

Definition set_created (v : bool) (w : t) : t :=
  mk v (wm_title w) (kwargs w) (data w) (fmt w) (labels w) (xlabel w)
     (ylabel w) (xlabelSize w) (ylabelSize w) (title w) (titleSize w)
     (xlim w) (ylim w) (logX w) (logY w) (legend w) (legendLoc w)
     (legendFontSize w) (plotTypeVar w) (plotTypeMenu w) (relabelMenu w)
     (showToolbar w) (ax w) (layouts w) (toolbar w) (draws w) (reported w).
Definition set_wm_title (v : option string) (w : t) : t :=
  mk (created w) v (kwargs w) (data w) (fmt w) (labels w) (xlabel w)
     (ylabel w) (xlabelSize w) (ylabelSize w) (title w) (titleSize w)
     (xlim w) (ylim w) (logX w) (logY w) (legend w) (legendLoc w)
     (legendFontSize w) (plotTypeVar w) (plotTypeMenu w) (relabelMenu w)
     (showToolbar w) (ax w) (layouts w) (toolbar w) (draws w) (reported w).
Definition set_kwargs (v : list (string * string)) (w : t) : t :=
  mk (created w) (wm_title w) v (data w) (fmt w) (labels w) (xlabel w)
     (ylabel w) (xlabelSize w) (ylabelSize w) (title w) (titleSize w)
     (xlim w) (ylim w) (logX w) (logY w) (legend w) (legendLoc w)
     (legendFontSize w) (plotTypeVar w) (plotTypeMenu w) (relabelMenu w)
     (showToolbar w) (ax w) (layouts w) (toolbar w) (draws w) (reported w).
Definition set_data (v : ndarray) (w : t) : t :=
  mk (created w) (wm_title w) (kwargs w) v (fmt w) (labels w) (xlabel w)
     (ylabel w) (xlabelSize w) (ylabelSize w) (title w) (titleSize w)
     (xlim w) (ylim w) (logX w) (logY w) (legend w) (legendLoc w)
     (legendFontSize w) (plotTypeVar w) (plotTypeMenu w) (relabelMenu w)
     (showToolbar w) (ax w) (layouts w) (toolbar w) (draws w) (reported w).
Definition set_fmt (v : option pyseq) (w : t) : t :=
  mk (created w) (wm_title w) (kwargs w) (data w) v (labels w) (xlabel w)
     (ylabel w) (xlabelSize w) (ylabelSize w) (title w) (titleSize w)
     (xlim w) (ylim w) (logX w) (logY w) (legend w) (legendLoc w)
     (legendFontSize w) (plotTypeVar w) (plotTypeMenu w) (relabelMenu w)
     (showToolbar w) (ax w) (layouts w) (toolbar w) (draws w) (reported w).
Definition set_labels (v : option pyseq) (w : t) : t :=
  mk (created w) (wm_title w) (kwargs w) (data w) (fmt w) v (xlabel w)
     (ylabel w) (xlabelSize w) (ylabelSize w) (title w) (titleSize w)
     (xlim w) (ylim w) (logX w) (logY w) (legend w) (legendLoc w)
     (legendFontSize w) (plotTypeVar w) (plotTypeMenu w) (relabelMenu w)
     (showToolbar w) (ax w) (layouts w) (toolbar w) (draws w) (reported w).
Definition set_xlabel (v : option string) (w : t) : t :=
  mk (created w) (wm_title w) (kwargs w) (data w) (fmt w) (labels w) v
     (ylabel w) (xlabelSize w) (ylabelSize w) (title w) (titleSize w)
     (xlim w) (ylim w) (logX w) (logY w) (legend w) (legendLoc w)
     (legendFontSize w) (plotTypeVar w) (plotTypeMenu w) (relabelMenu w)
     (showToolbar w) (ax w) (layouts w) (toolbar w) (draws w) (reported w).
Definition set_ylabel (v : option string) (w : t) : t :=
  mk (created w) (wm_title w) (kwargs w) (data w) (fmt w) (labels w)
     (xlabel w) v (xlabelSize w) (ylabelSize w) (title w) (titleSize w)
     (xlim w) (ylim w) (logX w) (logY w) (legend w) (legendLoc w)
     (legendFontSize w) (plotTypeVar w) (plotTypeMenu w) (relabelMenu w)
     (showToolbar w) (ax w) (layouts w) (toolbar w) (draws w) (reported w).
Definition set_xlabelSize (v : float) (w : t) : t :=
  mk (created w) (wm_title w) (kwargs w) (data w) (fmt w) (labels w)
     (xlabel w) (ylabel w) v (ylabelSize w) (title w) (titleSize w) (xlim w)
     (ylim w) (logX w) (logY w) (legend w) (legendLoc w) (legendFontSize w)
     (plotTypeVar w) (plotTypeMenu w) (relabelMenu w) (showToolbar w) (ax w)
     (layouts w) (toolbar w) (draws w) (reported w).
Definition set_ylabelSize (v : float) (w : t) : t :=
  mk (created w) (wm_title w) (kwargs w) (data w) (fmt w) (labels w)
     (xlabel w) (ylabel w) (xlabelSize w) v (title w) (titleSize w) (xlim w)
     (ylim w) (logX w) (logY w) (legend w) (legendLoc w) (legendFontSize w)
     (plotTypeVar w) (plotTypeMenu w) (relabelMenu w) (showToolbar w) (ax w)
     (layouts w) (toolbar w) (draws w) (reported w).
Definition set_title (v : option string) (w : t) : t :=
  mk (created w) (wm_title w) (kwargs w) (data w) (fmt w) (labels w)
     (xlabel w) (ylabel w) (xlabelSize w) (ylabelSize w) v (titleSize w)
     (xlim w) (ylim w) (logX w) (logY w) (legend w) (legendLoc w)
     (legendFontSize w) (plotTypeVar w) (plotTypeMenu w) (relabelMenu w)
     (showToolbar w) (ax w) (layouts w) (toolbar w) (draws w) (reported w).
Definition set_titleSize (v : float) (w : t) : t :=
  mk (created w) (wm_title w) (kwargs w) (data w) (fmt w) (labels w)
     (xlabel w) (ylabel w) (xlabelSize w) (ylabelSize w) (title w) v
     (xlim w) (ylim w) (logX w) (logY w) (legend w) (legendLoc w)
     (legendFontSize w) (plotTypeVar w) (plotTypeMenu w) (relabelMenu w)
     (showToolbar w) (ax w) (layouts w) (toolbar w) (draws w) (reported w).
Definition set_xlim (v : option (float * float)) (w : t) : t :=
  mk (created w) (wm_title w) (kwargs w) (data w) (fmt w) (labels w)
     (xlabel w) (ylabel w) (xlabelSize w) (ylabelSize w) (title w)
     (titleSize w) v (ylim w) (logX w) (logY w) (legend w) (legendLoc w)
     (legendFontSize w) (plotTypeVar w) (plotTypeMenu w) (relabelMenu w)
     (showToolbar w) (ax w) (layouts w) (toolbar w) (draws w) (reported w).
Definition set_ylim (v : option (float * float)) (w : t) : t :=
  mk (created w) (wm_title w) (kwargs w) (data w) (fmt w) (labels w)
     (xlabel w) (ylabel w) (xlabelSize w) (ylabelSize w) (title w)
     (titleSize w) (xlim w) v (logX w) (logY w) (legend w) (legendLoc w)
     (legendFontSize w) (plotTypeVar w) (plotTypeMenu w) (relabelMenu w)
     (showToolbar w) (ax w) (layouts w) (toolbar w) (draws w) (reported w).
Definition set_logX (v : bool) (w : t) : t :=
  mk (created w) (wm_title w) (kwargs w) (data w) (fmt w) (labels w)
     (xlabel w) (ylabel w) (xlabelSize w) (ylabelSize w) (title w)
     (titleSize w) (xlim w) (ylim w) v (logY w) (legend w) (legendLoc w)
     (legendFontSize w) (plotTypeVar w) (plotTypeMenu w) (relabelMenu w)
     (showToolbar w) (ax w) (layouts w) (toolbar w) (draws w) (reported w).
Definition set_logY (v : bool) (w : t) : t :=
  mk (created w) (wm_title w) (kwargs w) (data w) (fmt w) (labels w)
     (xlabel w) (ylabel w) (xlabelSize w) (ylabelSize w) (title w)
     (titleSize w) (xlim w) (ylim w) (logX w) v (legend w) (legendLoc w)
     (legendFontSize w) (plotTypeVar w) (plotTypeMenu w) (relabelMenu w)
     (showToolbar w) (ax w) (layouts w) (toolbar w) (draws w) (reported w).
Definition set_legend (v : bool) (w : t) : t :=
  mk (created w) (wm_title w) (kwargs w) (data w) (fmt w) (labels w)
     (xlabel w) (ylabel w) (xlabelSize w) (ylabelSize w) (title w)
     (titleSize w) (xlim w) (ylim w) (logX w) (logY w) v (legendLoc w)
     (legendFontSize w) (plotTypeVar w) (plotTypeMenu w) (relabelMenu w)
     (showToolbar w) (ax w) (layouts w) (toolbar w) (draws w) (reported w).
Definition set_legendLoc (v : Z) (w : t) : t :=
  mk (created w) (wm_title w) (kwargs w) (data w) (fmt w) (labels w)
     (xlabel w) (ylabel w) (xlabelSize w) (ylabelSize w) (title w)
     (titleSize w) (xlim w) (ylim w) (logX w) (logY w) (legend w) v
     (legendFontSize w) (plotTypeVar w) (plotTypeMenu w) (relabelMenu w)
     (showToolbar w) (ax w) (layouts w) (toolbar w) (draws w) (reported w).
Definition set_legendFontSize (v : Z) (w : t) : t :=
  mk (created w) (wm_title w) (kwargs w) (data w) (fmt w) (labels w)
     (xlabel w) (ylabel w) (xlabelSize w) (ylabelSize w) (title w)
     (titleSize w) (xlim w) (ylim w) (logX w) (logY w) (legend w)
     (legendLoc w) v (plotTypeVar w) (plotTypeMenu w) (relabelMenu w)
     (showToolbar w) (ax w) (layouts w) (toolbar w) (draws w) (reported w).
Definition set_plotTypeVar (v : Z) (w : t) : t :=
  mk (created w) (wm_title w) (kwargs w) (data w) (fmt w) (labels w)
     (xlabel w) (ylabel w) (xlabelSize w) (ylabelSize w) (title w)
     (titleSize w) (xlim w) (ylim w) (logX w) (logY w) (legend w)
     (legendLoc w) (legendFontSize w) v (plotTypeMenu w) (relabelMenu w)
     (showToolbar w) (ax w) (layouts w) (toolbar w) (draws w) (reported w).
Definition set_plotTypeMenu (v : list (string * Z * bool)) (w : t) : t :=
  mk (created w) (wm_title w) (kwargs w) (data w) (fmt w) (labels w)
     (xlabel w) (ylabel w) (xlabelSize w) (ylabelSize w) (title w)
     (titleSize w) (xlim w) (ylim w) (logX w) (logY w) (legend w)
     (legendLoc w) (legendFontSize w) (plotTypeVar w) v (relabelMenu w)
     (showToolbar w) (ax w) (layouts w) (toolbar w) (draws w) (reported w).
Definition set_relabelMenu (v : list string) (w : t) : t :=
  mk (created w) (wm_title w) (kwargs w) (data w) (fmt w) (labels w)
     (xlabel w) (ylabel w) (xlabelSize w) (ylabelSize w) (title w)
     (titleSize w) (xlim w) (ylim w) (logX w) (logY w) (legend w)
     (legendLoc w) (legendFontSize w) (plotTypeVar w) (plotTypeMenu w) v
     (showToolbar w) (ax w) (layouts w) (toolbar w) (draws w) (reported w).
Definition set_showToolbar (v : bool) (w : t) : t :=
  mk (created w) (wm_title w) (kwargs w) (data w) (fmt w) (labels w)
     (xlabel w) (ylabel w) (xlabelSize w) (ylabelSize w) (title w)
     (titleSize w) (xlim w) (ylim w) (logX w) (logY w) (legend w)
     (legendLoc w) (legendFontSize w) (plotTypeVar w) (plotTypeMenu w)
     (relabelMenu w) v (ax w) (layouts w) (toolbar w) (draws w) (reported w).
Definition set_ax (v : Axes.t) (w : t) : t :=
  mk (created w) (wm_title w) (kwargs w) (data w) (fmt w) (labels w)
     (xlabel w) (ylabel w) (xlabelSize w) (ylabelSize w) (title w)
     (titleSize w) (xlim w) (ylim w) (logX w) (logY w) (legend w)
     (legendLoc w) (legendFontSize w) (plotTypeVar w) (plotTypeMenu w)
     (relabelMenu w) (showToolbar w) v (layouts w) (toolbar w) (draws w)
     (reported w).
Definition set_layouts (v : nat) (w : t) : t :=
  mk (created w) (wm_title w) (kwargs w) (data w) (fmt w) (labels w)
     (xlabel w) (ylabel w) (xlabelSize w) (ylabelSize w) (title w)
     (titleSize w) (xlim w) (ylim w) (logX w) (logY w) (legend w)
     (legendLoc w) (legendFontSize w) (plotTypeVar w) (plotTypeMenu w)
     (relabelMenu w) (showToolbar w) (ax w) v (toolbar w) (draws w)
     (reported w).
Definition set_toolbar (v : option bool) (w : t) : t :=
  mk (created w) (wm_title w) (kwargs w) (data w) (fmt w) (labels w)
     (xlabel w) (ylabel w) (xlabelSize w) (ylabelSize w) (title w)
     (titleSize w) (xlim w) (ylim w) (logX w) (logY w) (legend w)
     (legendLoc w) (legendFontSize w) (plotTypeVar w) (plotTypeMenu w)
     (relabelMenu w) (showToolbar w) (ax w) (layouts w) v (draws w)
     (reported w).
Definition set_draws (v : nat) (w : t) : t :=
  mk (created w) (wm_title w) (kwargs w) (data w) (fmt w) (labels w)
     (xlabel w) (ylabel w) (xlabelSize w) (ylabelSize w) (title w)
     (titleSize w) (xlim w) (ylim w) (logX w) (logY w) (legend w)
     (legendLoc w) (legendFontSize w) (plotTypeVar w) (plotTypeMenu w)
     (relabelMenu w) (showToolbar w) (ax w) (layouts w) (toolbar w) v
     (reported w).
Definition set_reported (v : list exn) (w : t) : t :=
  mk (created w) (wm_title w) (kwargs w) (data w) (fmt w) (labels w)
     (xlabel w) (ylabel w) (xlabelSize w) (ylabelSize w) (title w)
     (titleSize w) (xlim w) (ylim w) (logX w) (logY w) (legend w)
     (legendLoc w) (legendFontSize w) (plotTypeVar w) (plotTypeMenu w)
     (relabelMenu w) (showToolbar w) (ax w) (layouts w) (toolbar w)
     (draws w) v.

(** The object before [__init__] ran. *)
Definition blank : t :=
  mk false None [] (mk_ndarray [] []) None None None None 0 0 None 0 None
     None false false false 0 0 0 [] [] false Axes.cleared 0 None 0 [].

(** The arguments of the constructor, and their defaults. *)
Record args := mk_args {
  a_data : pyobj;
  a_plotType : Z;
  a_fmt : pyarg;
  a_labels : pyarg;
  a_xlabel : option string;
  a_xlabelSize : float;
  a_ylabel : option string;
  a_ylabelSize : float;
  a_logX : bool;
  a_logY : bool;
  a_xlim : option (float * float);
  a_ylim : option (float * float);
  a_legend : bool;
  a_legendLoc : Z;
  a_legendFontSize : Z;
  a_title : option string;
  a_titleSize : float;
  a_windowTitle : string;
  a_kwargs : list (string * string)
}.

Definition defaults (data : pyobj) : args :=
  mk_args data TYPE_PLOT PNone PNone (Some "") 12 (Some "") 12 false false
    None None false 1 10 (Some "") 14 "mplWindow" [].

Section Methods.

(** [self.fig.tight_layout()] is matplotlib's and may raise, which
    [__resize__] provides for: [tight_layout w] is the exception it
    raises on the window as it stands, [None] when it returns. *)
Variable tight_layout : t -> option exn.

Variable py_float : string -> option float.

Definition fig_tight_layout : M t unit :=
  fun w =>
    match tight_layout w with
    | Some e => (inl e, w)
    | None => (inr tt, set_layouts (S (layouts w)) w)
    end.

(** [self.data.shape[k]], [self.data.shape[-k]], [self.data[i, ..., :]] *)
Definition data_shape (k : nat) : M t nat :=
  let* d := gets data in lift_opt IndexError (shape_at d k).

Definition data_shape_neg (k : nat) : M t nat :=
  let* d := gets data in lift_opt IndexError (shape_neg d k).

Definition data_get (idx : list nat) : M t ndarray :=
  let* d := gets data in lift_opt IndexError (getitem d idx).

(** [self.labels], [self.labels[i]], [self.labels[i] = v] *)
Definition labels_attr : M t pyseq :=
  let* l := gets labels in lift_opt AttributeError l.

Definition labels_get (i : nat) : M t string :=
  let* q := labels_attr in lift_opt IndexError (seq_get q i).

Definition labels_set (i : nat) (v : string) : M t unit :=
  let* q := labels_attr in
  match seq_set q i v with
  | inl e => raise e
  | inr q' => modify (set_labels (Some q'))
  end.

(** [self.fmt[i]] for a format that is not [None] *)
Definition fmt_get (f : pyseq) (i : nat) : M t string :=
  lift_opt IndexError (seq_get f i).

(** A drawing call on [self.ax] *)
Definition draw (c : draw_call) : M t unit :=
  modify (fun w => set_ax (Axes.add_artist c (ax w)) w).

Definition on_ax (f : Axes.t -> Axes.t) : M t unit :=
  modify (fun w => set_ax (f (ax w)) w).

(** The branch of [__plot__] for [TYPE_PLOT] *)
Definition plot_lines : M t unit :=
  let* s := data_shape_neg 2 in
  assert (s =? 2)%nat ;;
  let* d := gets data in
  if (rank d =? 2)%nat then
    let* f := gets fmt in
    match f with
    | Some f =>
        let* x := data_get [0%nat] in
        let* y := data_get [1%nat] in
        let* f0 := fmt_get f 0 in
        let* l0 := labels_get 0 in
        let* kw := gets kwargs in
        draw (mk_call plot [x; y] (Some f0) l0 kw)
    | None =>
        let* x := data_get [0%nat] in
        let* y := data_get [1%nat] in
        let* l0 := labels_get 0 in
        let* kw := gets kwargs in
        draw (mk_call plot [x; y] None l0 kw)
    end
  else
    let* n := data_shape 0 in
    for_each (range n) (fun i =>
      let* f := gets fmt in
      match f with
      | Some f =>
          let* x := data_get [i; 0%nat] in
          let* y := data_get [i; 1%nat] in
          let* fi := fmt_get f i in
          let* li := labels_get i in
          let* kw := gets kwargs in
          draw (mk_call plot [x; y] (Some fi) li kw)
      | None =>
          let* x := data_get [i; 0%nat] in
          let* y := data_get [i; 1%nat] in
          let* li := labels_get i in
          let* kw := gets kwargs in
          draw (mk_call plot [x; y] None li kw)
      end).

(** The branch for [TYPE_ERRORBAR].  With a format, the loop over the
    series passes [self.data[0,:]] and [self.data[1,:]]. *)
Definition plot_errorbars : M t unit :=
  let* s := data_shape_neg 2 in
  assert (s =? 2)%nat ;;
  let* d := gets data in
  if (rank d =? 2)%nat then
    let* f := gets fmt in
    match f with
    | Some f =>
        let* x := data_get [0%nat] in
        let* y := data_get [1%nat] in
        let* f0 := fmt_get f 0 in
        let* l0 := labels_get 0 in
        let* kw := gets kwargs in
        draw (mk_call errorbar [x; y] (Some f0) l0 kw)
    | None =>
        let* x := data_get [0%nat] in
        let* y := data_get [1%nat] in
        let* l0 := labels_get 0 in
        let* kw := gets kwargs in
        draw (mk_call errorbar [x; y] None l0 kw)
    end
  else
    let* n := data_shape 0 in
    for_each (range n) (fun i =>
      let* f := gets fmt in
      match f with
      | Some f =>
          let* x := data_get [0%nat] in
          let* y := data_get [1%nat] in
          let* fi := fmt_get f i in
          let* li := labels_get i in
          let* kw := gets kwargs in
          draw (mk_call errorbar [x; y] (Some fi) li kw)
      | None =>
          let* x := data_get [i; 0%nat] in
          let* y := data_get [i; 1%nat] in
          let* li := labels_get i in
          let* kw := gets kwargs in
          draw (mk_call errorbar [x; y] None li kw)
      end).

(** The branch for [TYPE_BAR] *)
Definition plot_bars : M t unit :=
  let* s := data_shape_neg 2 in
  assert (s =? 2)%nat ;;
  let* d := gets data in
  if (rank d =? 2)%nat then
    let* x := data_get [0%nat] in
    let* y := data_get [1%nat] in
    let* l0 := labels_get 0 in
    let* kw := gets kwargs in
    draw (mk_call bar [x; y] None l0 kw)
  else
    let* n := data_shape 0 in
    for_each (range n) (fun i =>
      let* x := data_get [i; 0%nat] in
      let* y := data_get [i; 1%nat] in
      let* li := labels_get i in
      let* kw := gets kwargs in
      draw (mk_call bar [x; y] None li kw)).

(** The branch for [TYPE_HISTOGRAM] *)
Definition plot_hists : M t unit :=
  let* d := gets data in
  if (rank d =? 1)%nat then
    let* l0 := labels_get 0 in
    let* kw := gets kwargs in
    draw (mk_call hist [d] None l0 kw)
  else
    assert (rank d =? 2)%nat ;;
    let* n := data_shape 0 in
    for_each (range n) (fun i =>
      let* x := data_get [i] in
      let* li := labels_get i in
      let* kw := gets kwargs in
      draw (mk_call hist [x] None li kw)).

(** The dispatch on the plot type; the other types have no branch. *)
Definition draw_series : M t unit :=
  let* plotType := gets plotTypeVar in
  if (plotType =? TYPE_PLOT)%Z then plot_lines
  else if (plotType =? TYPE_ERRORBAR)%Z then plot_errorbars
  else if (plotType =? TYPE_BAR)%Z then plot_bars
  else if (plotType =? TYPE_HISTOGRAM)%Z then plot_hists
  else ret tt.

(** Limits, scales, labels and legend *)
Definition configure_axes : M t unit :=
  let* xl := gets xlim in
  match xl with Some v => on_ax (Axes.set_xlim v) | None => ret tt end ;;
  let* yl := gets ylim in
  match yl with Some v => on_ax (Axes.set_ylim v) | None => ret tt end ;;
  let* lx := gets logX in
  (if lx then on_ax (Axes.set_xscale "log") else on_ax (Axes.set_xscale "linear")) ;;
  let* ly := gets logY in
  (if ly then on_ax (Axes.set_yscale "log") else on_ax (Axes.set_yscale "linear")) ;;
  let* xt := gets xlabel in
  let* xs := gets xlabelSize in
  match xt with
  | Some s => if negb (s =? "")%string then on_ax (Axes.set_xlabel s xs) else ret tt
  | None => ret tt
  end ;;
  let* yt := gets ylabel in
  let* ys := gets ylabelSize in
  match yt with
  | Some s => if negb (s =? "")%string then on_ax (Axes.set_ylabel s ys) else ret tt
  | None => ret tt
  end ;;
  let* tt_ := gets title in
  let* ts := gets titleSize in
  match tt_ with
  | Some s => if negb (s =? "")%string then on_ax (Axes.set_title s ts) else ret tt
  | None => ret tt
  end ;;
  let* lg := gets legend in
  if lg then
    let* loc := gets legendLoc in
    let* fs := gets legendFontSize in
    on_ax (Axes.show_legend loc fs)
  else ret tt.

(** The toolbar step *)
Definition update_toolbar : M t unit :=
  let* st := gets showToolbar in
  if st then modify (set_toolbar (Some true))
  else
    let* tb := gets toolbar in
    match tb with
    | Some _ => modify (set_toolbar (Some false))
    | None => ret tt
    end.

(** [__plot__] *)
Definition __plot__ : M t unit :=
  on_ax (fun _ => Axes.cleared) ;;
  draw_series ;;
  configure_axes ;;
  fig_tight_layout ;;
  update_toolbar ;;
  modify (fun w => set_draws (S (draws w)) w).

(** [__initPlot__]: the figure, its axes and the canvas *)
Definition __initPlot__ : M t unit :=
  modify (set_ax Axes.cleared).

(** [__menubar__]: the plot-type radio buttons with their states, the
    plot-type variable, the relabel menu and the toolbar variable. *)
Definition __menubar__ (plotType : Z) : M t unit :=
  let* d := gets data in
  let* shape := (if (2 <=? rank d)%nat then data_shape_neg 2 else ret 1%nat) in
  let* stateHist :=
    (if (shape =? 1)%nat then ret true
     else
       let* n := data_shape 0 in
       let* q := labels_attr in
       ret (n =? length (items q))%nat) in
  let state2 := (shape =? 2)%nat in
  let state3 := (shape =? 3)%nat in
  let state4 := (shape =? 4)%nat in
  modify (set_plotTypeMenu
    [ ("Plot", TYPE_PLOT, state2);
      ("Error Bar", TYPE_ERRORBAR, state2);
      ("Bar", TYPE_BAR, state2);
      ("Histogram", TYPE_HISTOGRAM, stateHist);
      ("2-D Histogram", TYPE_2DHISTOGRAM, state2);
      ("Contour", TYPE_CONTOUR, state3);
      ("Image", TYPE_IMAGE, true);
      ("Color Mesh", TYPE_COLORMESH, state3);
      ("Date Plot", TYPE_DATEPLOT, state2);
      ("Vector", TYPE_VECTOR, state4) ]) ;;
  modify (set_plotTypeVar plotType) ;;
  modify (set_relabelMenu []) ;;
  let* q := labels_attr in
  for_each (range (length (items q))) (fun i =>
    let* li := labels_get i in
    modify (fun w => set_relabelMenu (relabelMenu w ++ [li]) w)) ;;
  modify (set_showToolbar false).

(** The format for each series, lines 86 to 92 of [__init__] *)
Definition init_fmt (fmt : pyarg) : M t unit :=
  let fmt := match fmt with PStr s => PSeq (pylist [s]) | _ => fmt end in
  match fmt with
  | PSeq q =>
      let* keep :=
        match kind q with
        | PyList => ret true
        | PyTuple =>
            let* n := data_shape 0 in
            ret (length (items q) =? n)%nat
        end in
      if keep then modify (set_fmt (Some q)) else modify (set_fmt None)
  | _ => modify (set_fmt None)
  end.

(** The labels for each series, lines 94 to 105 of [__init__] *)
Definition init_labels (labels : pyarg) : M t unit :=
  let* labels :=
    match labels with
    | PNone =>
        let* d := gets data in
        if (rank d =? 2)%nat then ret (PStr "Series 1")
        else
          let* n := data_shape 0 in
          ret (PSeq (pylist (map (fun i => "Series " ++ str (i + 1)) (range n))))
    | _ => ret labels
    end in
  let labels := match labels with PStr s => PSeq (pylist [s]) | _ => labels end in
  match labels with
  | PSeq q => modify (set_labels (Some q))
  | _ => ret tt
  end.

(** [__init__] *)
Definition __init__ (a : args) : M t unit :=
  modify (set_created true) ;;
  modify (set_wm_title (Some (a_windowTitle a))) ;;
  let* d :=
    match a_data a with
    | Ndarray d => ret d
    | NotNdarray => raise AssertionError
    end in
  modify (set_kwargs (a_kwargs a)) ;;
  modify (set_data d) ;;
  init_fmt (a_fmt a) ;;
  init_labels (a_labels a) ;;
  modify (set_xlabel (a_xlabel a)) ;;
  modify (set_ylabel (a_ylabel a)) ;;
  modify (set_xlabelSize (a_xlabelSize a)) ;;
  modify (set_ylabelSize (a_ylabelSize a)) ;;
  modify (set_title (a_title a)) ;;
  modify (set_titleSize (a_titleSize a)) ;;
  modify (set_xlim (a_xlim a)) ;;
  modify (set_ylim (a_ylim a)) ;;
  modify (set_logX (a_logX a)) ;;
  modify (set_logY (a_logY a)) ;;
  modify (set_legend (a_legend a)) ;;
  modify (set_legendLoc (a_legendLoc a)) ;;
  modify (set_legendFontSize (a_legendFontSize a)) ;;
  modify (set_toolbar None) ;;
  __initPlot__ ;;
  __menubar__ (a_plotType a) ;;
  __plot__.

(** [Plot(...)]: the outcome of the call and the window left behind. *)
Definition new (a : args) : res unit * t := __init__ a blank.

(** A callback run from Tk's event loop: what it raises is reported by
    Tk and goes no further. *)
Definition callback (m : M t unit) (w : t) : t :=
  match m w with
  | (inl e, w') => set_reported (reported w' ++ [e]) w'
  | (inr _, w') => w'
  end.

(** The menu entries bound to variables: the entry writes the variable
    and the write trace runs [__plot__]. *)
Definition toggle_logX (w : t) : t :=
  callback __plot__ (set_logX (negb (logX w)) w).

Definition toggle_logY (w : t) : t :=
  callback __plot__ (set_logY (negb (logY w)) w).

Definition toggle_legend (w : t) : t :=
  callback __plot__ (set_legend (negb (legend w)) w).

Definition toggle_showToolbar (w : t) : t :=
  callback __plot__ (set_showToolbar (negb (showToolbar w)) w).

Definition select_plotType (v : Z) (w : t) : t :=
  callback __plot__ (set_plotTypeVar v w).

(** [__resize__] *)
Definition __resize__ : M t unit :=
  try_except_as fig_tight_layout ValueError (ret tt).

(** [self.relabelMenu.entryconfig(i, label=v)] *)
Definition relabelMenu_entryconfig (i : nat) (v : string) : M t unit :=
  let* m := gets relabelMenu in
  if (i <? length m)%nat then modify (set_relabelMenu (<[i := v]> m))
  else raise TclError.

(** [__relabel__]: [evs] is what the user does in the dialog, and the
    answer is [None] when that leaves the dialog open. *)
Definition __relabel__ (i : nat) (evs : list textPrompt.event) (w : t)
  : option (res unit * t) :=
  match labels_get i w with
  | (inl e, w') => Some (inl e, w')
  | (inr old, w') =>
      match textPrompt.__init__ py_float true (Some ("Relabel " ++ old))
              None (Some old) None false evs with
      | None => None
      | Some (inl e, _) => Some (inl e, w')
      | Some (inr _, p) =>
          match textPrompt.result p with
          | Some r =>
              Some ((labels_set i (fst r) ;;
                     __plot__ ;;
                     relabelMenu_entryconfig i (fst r)) w')
          | None => Some (inr tt, w')
          end
      end
  end.
(** [self.canvas.draw()] *)
Definition canvas_draw : M t unit :=
  modify (fun w => set_draws (S (draws w)) w).

(** [__setXLim__] and [__setYLim__].  [curr] holds [str] of the two ends
    of the data interval that matplotlib reports for the axis, which the
    dialog shows in its entries; [evs] is what the user does in the
    dialog, and the answer is [None] when that leaves the dialog open. *)
Definition __setXLim__ (curr : string * string)
    (evs : list limitPrompt.event) (w : t) : option (res unit * t) :=
  match limitPrompt.__init__ py_float true (Some "x axis limits")
          [fst curr; snd curr] evs with
  | None => None
  | Some (inl e, _) => Some (inl e, w)
  | Some (inr _, p) =>
      match limitPrompt.result p with
      | Some r =>
          Some ((modify (set_xlim (Some r)) ;;
                 on_ax (Axes.set_xlim r) ;;
                 canvas_draw) w)
      | None => Some (inr tt, w)
      end
  end.

Definition __setYLim__ (curr : string * string)
    (evs : list limitPrompt.event) (w : t) : option (res unit * t) :=
  match limitPrompt.__init__ py_float true (Some "y axis limits")
          [fst curr; snd curr] evs with
  | None => None
  | Some (inl e, _) => Some (inl e, w)
  | Some (inr _, p) =>
      match limitPrompt.result p with
      | Some r =>
          Some ((modify (set_ylim (Some r)) ;;
                 on_ax (Axes.set_ylim r) ;;
                 canvas_draw) w)
      | None => Some (inr tt, w)
      end
  end.
End Methods.
End Plot.

(** * Properties *)

(** ** Auxiliary definitions

    The states the statements below speak of. *)

(** [o is not None] *)
Definition is_some {A} (o : option A) : bool :=
  match o with Some _ => true | None => false end.

(** The numeric-range dialog after a confirmation that passed validation. *)
Definition limit_closed (d : limitPrompt.t) : limitPrompt.t :=
  limitPrompt.destroy
    ((if limitPrompt.has_parent d then limitPrompt.focus_parent else fun x => x)
       (limitPrompt.withdraw d)).

(** Both entries parse and the second number exceeds the first. *)
Definition limit_range (py_float : string -> option float) (d : limitPrompt.t)
  : option (float * float) :=
  match py_float (limitPrompt.var1 d), py_float (limitPrompt.var2 d) with
  | Some a, Some b => if PrimFloat.ltb a b then Some (a, b) else None
  | _, _ => None
  end.

(** The text dialog after a confirmation that passed validation. *)
Definition text_closed (d : textPrompt.t) : textPrompt.t :=
  textPrompt.destroy
    ((if textPrompt.has_parent d then textPrompt.focus_parent else fun x => x)
       (textPrompt.withdraw d)).

(** [mapM] on options: all the answers, or [None] when one is missing. *)
Fixpoint traverse {A B} (f : A -> option B) (xs : list A) : option (list B) :=
  match xs with
  | [] => Some []
  | x :: xs' =>
      match f x, traverse f xs' with
      | Some y, Some ys => Some (y :: ys)
      | _, _ => None
      end
  end.


(** *** The series of a window, in the words of the specification

    The drawing method of a plot type, for the four types with a rendering. *)
Definition method_of (plotType : Z) : option method :=
  if (plotType =? Plot.TYPE_PLOT)%Z then Some plot
  else if (plotType =? Plot.TYPE_ERRORBAR)%Z then Some errorbar
  else if (plotType =? Plot.TYPE_BAR)%Z then Some bar
  else if (plotType =? Plot.TYPE_HISTOGRAM)%Z then Some hist
  else None.

(** A series is a pair of rows (x over y) for the line, error-bar and bar
    plots and a single row of samples for the histogram. *)
Definition series_rank (m : method) : nat :=
  match m with hist => 1%nat | _ => 2%nat end.

(** Data of the rank of one series is one series; otherwise the first axis
    numbers the series. *)
Definition series_count (m : method) (d : ndarray) : option nat :=
  if (rank d =? series_rank m)%nat then Some 1%nat else shape_at d 0.

Definition series (m : method) (d : ndarray) (i : nat) : option ndarray :=
  if (rank d =? series_rank m)%nat
  then (if (i =? 0)%nat then Some d else None)
  else item d i.

(** The data slice of a series that its drawing call is given. *)
Definition series_arrays (m : method) (s : ndarray) : option (list ndarray) :=
  match m with
  | hist => match getitem s [] with Some x => Some [x] | None => None end
  | _ =>
      match getitem s [0%nat], getitem s [1%nat] with
      | Some x, Some y => Some [x; y]
      | _, _ => None
      end
  end.

(** The drawing call for series [i]: its own slice, its label, and its
    format string when the window has formats and [with_fmt] lets the
    method take one. *)
Definition series_call (with_fmt : method -> bool) (w : Plot.t) (m : method)
    (i : nat) : option draw_call :=
  match series m (Plot.data w) i with
  | Some s =>
      match series_arrays m s, Plot.labels w with
      | Some xs, Some q =>
          match seq_get q i with
          | Some l =>
              match Plot.fmt w with
              | Some f =>
                  if with_fmt m then
                    match seq_get f i with
                    | Some fi => Some (mk_call m xs (Some fi) l (Plot.kwargs w))
                    | None => None
                    end
                  else Some (mk_call m xs None l (Plot.kwargs w))
              | None => Some (mk_call m xs None l (Plot.kwargs w))
              end
          | None => None
          end
      | _, _ => None
      end
  | None => None
  end.

Definition series_calls (with_fmt : method -> bool) (w : Plot.t)
  : option (list draw_call) :=
  match method_of (Plot.plotTypeVar w) with
  | Some m =>
      match series_count m (Plot.data w) with
      | Some n => traverse (series_call with_fmt w m) (range n)
      | None => None
      end
  | None => None
  end.


(** The same, with the format string for the line and error-bar plots
    only. *)
Definition takes_fmt (m : method) : bool :=
  match m with plot | errorbar => true | bar | hist => false end.

Definition designed_calls : Plot.t -> option (list draw_call) :=
  series_calls takes_fmt.

(** A valid combination of plot type, data, labels and formats: data of
    shape (2, n) or (k, 2, n) for the paired plots and of rank 1 or 2 for
    the histogram, one label per series and, when formats are given, one
    format per series. *)
Definition shape_fits (m : method) (d : ndarray) : bool :=
  match m, shape d with
  | hist, [_] | hist, [_; _] => true
  | hist, _ => false
  | _, [a; _] => (a =? 2)%nat
  | _, [_; b; _] => (b =? 2)%nat
  | _, _ => false
  end.

Definition valid_series (w : Plot.t) : bool :=
  match method_of (Plot.plotTypeVar w), Plot.labels w with
  | Some m, Some q =>
      match series_count m (Plot.data w) with
      | Some n =>
          shape_fits m (Plot.data w)
          && (length (items q) =? n)%nat
          && match Plot.fmt w with
             | Some f => (length (items f) =? n)%nat
             | None => true
             end
      | None => false
      end
  | _, _ => false
  end.

(** The loop over several series of an error-bar plot with formats. *)
Definition errorbar_loop_with_fmt (w : Plot.t) : bool :=
  match method_of (Plot.plotTypeVar w), Plot.fmt w with
  | Some errorbar, Some _ => negb (rank (Plot.data w) =? 2)%nat
  | _, _ => false
  end.

(** *** The render step in parts

    What [configure_axes] makes of the axes. *)
Definition styled (w : Plot.t) (a : Axes.t) : Axes.t :=
  let a := match Plot.xlim w with Some v => Axes.set_xlim v a | None => a end in
  let a := match Plot.ylim w with Some v => Axes.set_ylim v a | None => a end in
  let a := (if Plot.logX w then Axes.set_xscale "log" else Axes.set_xscale "linear") a in
  let a := (if Plot.logY w then Axes.set_yscale "log" else Axes.set_yscale "linear") a in
  let a := match Plot.xlabel w with
           | Some s => if negb (s =? "")%string
                       then Axes.set_xlabel s (Plot.xlabelSize w) a else a
           | None => a
           end in
  let a := match Plot.ylabel w with
           | Some s => if negb (s =? "")%string
                       then Axes.set_ylabel s (Plot.ylabelSize w) a else a
           | None => a
           end in
  let a := match Plot.title w with
           | Some s => if negb (s =? "")%string
                       then Axes.set_title s (Plot.titleSize w) a else a
           | None => a
           end in
  if Plot.legend w
  then Axes.show_legend (Plot.legendLoc w) (Plot.legendFontSize w) a
  else a.

(** [__plot__] up to the layout pass: clearing, drawing and configuring. *)
Definition paint : M Plot.t unit :=
  Plot.on_ax (fun _ => Axes.cleared) ;; Plot.draw_series ;; Plot.configure_axes.

(** [__plot__] after a layout pass that returned: the toolbar and the
    canvas. *)
Definition finish (w : Plot.t) : Plot.t :=
  let w := Plot.set_layouts (S (Plot.layouts w)) w in
  let w :=
    if Plot.showToolbar w then Plot.set_toolbar (Some true) w
    else match Plot.toolbar w with
         | Some _ => Plot.set_toolbar (Some false) w
         | None => w
         end in
  Plot.set_draws (S (Plot.draws w)) w.

(** The window without what only Tk and the canvas keep count of. *)
Definition settings (w : Plot.t) : Plot.t :=
  Plot.set_layouts 0 (Plot.set_toolbar None (Plot.set_draws 0
    (Plot.set_reported [] w))).

(** The settings apart from the axes, which [__plot__] clears first. *)
Definition canon (w : Plot.t) : Plot.t :=
  Plot.set_ax Axes.cleared (settings w).

(** A method that touches the axes only, and that the counters of Tk and
    of the canvas do not influence. *)
Definition axes_only {A} (m : M Plot.t A) : Prop :=
  forall w,
    m w = (fst (m (settings w)),
           Plot.set_ax (Plot.ax (snd (m (settings w)))) w).

(** A plot type with no branch in [__plot__]. *)
Definition unimplemented (plotType : Z) : bool :=
  match method_of plotType with Some _ => false | None => true end.

(** What [configure_axes] shows of an axis label or the title. *)
Definition shown_text (text : option string) (fontsize : float)
  : option (string * float) :=
  match text with
  | Some s => if negb (s =? "")%string then Some (s, fontsize) else None
  | None => None
  end.

(** *** The constructor in parts

    The window when [__init__] asserts on its data. *)
Definition started (a : Plot.args) : Plot.t :=
  Plot.set_wm_title (Some (Plot.a_windowTitle a)) (Plot.set_created true Plot.blank).

(** The assignments of [__init__] between the labels and [__initPlot__]. *)
Definition configured (a : Plot.args) (w : Plot.t) : Plot.t :=
  Plot.set_ax Axes.cleared
    (Plot.set_toolbar None
    (Plot.set_legendFontSize (Plot.a_legendFontSize a)
    (Plot.set_legendLoc (Plot.a_legendLoc a)
    (Plot.set_legend (Plot.a_legend a)
    (Plot.set_logY (Plot.a_logY a)
    (Plot.set_logX (Plot.a_logX a)
    (Plot.set_ylim (Plot.a_ylim a)
    (Plot.set_xlim (Plot.a_xlim a)
    (Plot.set_titleSize (Plot.a_titleSize a)
    (Plot.set_title (Plot.a_title a)
    (Plot.set_ylabelSize (Plot.a_ylabelSize a)
    (Plot.set_xlabelSize (Plot.a_xlabelSize a)
    (Plot.set_ylabel (Plot.a_ylabel a)
    (Plot.set_xlabel (Plot.a_xlabel a) w)))))))))))))).

(** The default labels of [__init__], by the rank of the data. *)
Definition default_labels (d : ndarray) : option (list string) :=
  if (rank d =? 2)%nat then Some ["Series 1"]
  else match shape_at d 0 with
       | Some n => Some (map (fun i => "Series " ++ str (i + 1)) (range n))
       | None => None
       end.

(** The entries of the plot-type menu for data [d] with [nlabels] labels. *)
Definition type_menu (d : ndarray) (nlabels : nat) : list (string * Z * bool) :=
  let shape := if (2 <=? rank d)%nat
               then match shape_neg d 2 with Some s => s | None => 1%nat end
               else 1%nat in
  let stateHist :=
    if (shape =? 1)%nat then true
    else match shape_at d 0 with
         | Some n => (n =? nlabels)%nat
         | None => false
         end in
  [ ("Plot", Plot.TYPE_PLOT, (shape =? 2)%nat);
    ("Error Bar", Plot.TYPE_ERRORBAR, (shape =? 2)%nat);
    ("Bar", Plot.TYPE_BAR, (shape =? 2)%nat);
    ("Histogram", Plot.TYPE_HISTOGRAM, stateHist);
    ("2-D Histogram", Plot.TYPE_2DHISTOGRAM, (shape =? 2)%nat);
    ("Contour", Plot.TYPE_CONTOUR, (shape =? 3)%nat);
    ("Image", Plot.TYPE_IMAGE, true);
    ("Color Mesh", Plot.TYPE_COLORMESH, (shape =? 3)%nat);
    ("Date Plot", Plot.TYPE_DATEPLOT, (shape =? 2)%nat);
    ("Vector", Plot.TYPE_VECTOR, (shape =? 4)%nat) ].

(** The window [__menubar__] leaves. *)
Definition with_menus (plotType : Z) (q : pyseq) (w : Plot.t) : Plot.t :=
  Plot.set_showToolbar false
    (Plot.set_relabelMenu (items q)
    (Plot.set_plotTypeVar plotType
    (Plot.set_plotTypeMenu (type_menu (Plot.data w) (length (items q))) w))).

(** The dialog that [__relabel__] opens on the label [old]. *)
Definition relabel_dialog (py_float : string -> option float) (old : string)
    (evs : list textPrompt.event) : option (res unit * textPrompt.t) :=
  textPrompt.__init__ py_float true (Some ("Relabel " ++ old)) None (Some old)
    None false evs.

(** What the result of a closed text dialog may be: none, or the text of
    the entry with the font size the font entry parses to, if the dialog
    asked for one. *)
Definition text_result_ok (py_float : string -> option float)
    (d : textPrompt.t) : Prop :=
  textPrompt.result d = None \/
  exists size,
    textPrompt.result d = Some (textPrompt.var d, size) /\
    textPrompt.withdrawn d = true /\
    if textPrompt.getFontSize d
    then exists s f, textPrompt.fontVar d = Some s /\ py_float s = Some f /\
                     size = Some f
    else size = None.

(** The axes without their artists. *)
Definition undrawn (a : Axes.t) : Axes.t :=
  Axes.mk [] (Axes.xlim a) (Axes.ylim a) (Axes.xscale a) (Axes.yscale a)
    (Axes.xlabel a) (Axes.ylabel a) (Axes.title a) (Axes.legend a).

(** A method that does no more to the axes than add artists. *)
Definition draws_only {A} (m : M Plot.t A) : Prop :=
  forall w, undrawn (Plot.ax (snd (m w))) = undrawn (Plot.ax w).

(** The format and the labels [__init__] stores for its arguments, for
    data whose first dimension is [n]; no labels are stored for an argument
    that is no string, list or tuple. *)
Definition stored_fmt (fmt : pyarg) (n : nat) : option pyseq :=
  match fmt with
  | PStr s => Some (pylist [s])
  | PSeq q =>
      match kind q with
      | PyList => Some q
      | PyTuple => if (length (items q) =? n)%nat then Some q else None
      end
  | _ => None
  end.

Definition stored_labels (labels : pyarg) (d : ndarray) : option pyseq :=
  match labels with
  | PNone => option_map pylist (default_labels d)
  | PStr s => Some (pylist [s])
  | PSeq q => Some q
  | POther => None
  end.

(** The window on which [__init__] runs its first render. *)
Definition built (a : Plot.args) (d : ndarray) (n : nat) (q : pyseq) : Plot.t :=
  with_menus (Plot.a_plotType a) q
    (configured a
       (Plot.set_labels (Some q)
          (Plot.set_fmt (stored_fmt (Plot.a_fmt a) n)
             (Plot.set_data d
                (Plot.set_kwargs (Plot.a_kwargs a) (started a)))))).

(** The state of the radio button for a plot type in the plot-type menu. *)
Definition entry_state (menu : list (string * Z * bool)) (plotType : Z)
  : option bool :=
  option_map snd (find (fun e => (snd (fst e) =? plotType)%Z) menu).

(** *** Sample windows

    A layout pass that always returns, and one that raises [e]. *)
Definition layout_ok (_ : Plot.t) : option exn := None.
Definition layout_raises (e : exn) (_ : Plot.t) : option exn := Some e.

(** One series of three points, two series of three points, three series
    of two points, and four samples of a histogram. *)
Definition xy_data : ndarray :=
  mk_ndarray [2; 3]%nat [1; 2; 3; 4; 5; 6]%float.
Definition two_series : ndarray :=
  mk_ndarray [2; 2; 3]%nat [1; 2; 3; 4; 5; 6; 7; 8; 9; 10; 11; 12]%float.
Definition three_series : ndarray :=
  mk_ndarray [3; 2; 2]%nat [1; 2; 3; 4; 5; 6; 7; 8; 9; 10; 11; 12]%float.
Definition samples : ndarray :=
  mk_ndarray [4]%nat [1; 2; 3; 2]%float.


(** [Plot(data, plotType=ty, fmt=fmt, labels=labels)] *)
Definition plot_args (data : pyobj) (ty : Z) (fmt labels : pyarg) : Plot.args :=
  Plot.mk_args data ty fmt labels (Some "") 12 (Some "") 12 false false
    None None false 1 10 (Some "") 14 "mplWindow" [].

(** ** The numeric-range dialog *)

Section LimitPromptFacts.
Import limitPrompt.
Variable py_float : string -> option float.

Lemma limit_validate_spec (d : t) :
  __validate__ py_float d = (inr (is_some (limit_range py_float d)), d).
Proof.
  unfold __validate__, limit_range, try_except, bind, gets, float_call, lift_opt.
  destruct (py_float (var1 d)) as [a|]; simpl; [|reflexivity].
  destruct (py_float (var2 d)) as [b|]; simpl; [|reflexivity].
  destruct (PrimFloat.ltb a b); reflexivity.
Qed.

Lemma limit_ok_spec (d : t) :
  __ok__ py_float d =
  match limit_range py_float d with
  | Some r => (inr tt, limit_closed (set_result (Some r) d))
  | None => (inr tt, print "not valid" d)
  end.
Proof.
  unfold __ok__, bind. rewrite limit_validate_spec.
  unfold limit_range.
  destruct (py_float (var1 d)) as [a|] eqn:E1; simpl; [|reflexivity].
  destruct (py_float (var2 d)) as [b|] eqn:E2; simpl; [|reflexivity].
  destruct (PrimFloat.ltb a b); simpl; [|reflexivity].
  unfold __apply__, __cancel__, bind, gets, float_call, lift_opt, modify, ret.
  simpl. rewrite E1, E2. simpl.
  unfold limit_closed. simpl.
  destruct (has_parent d); reflexivity.
Qed.

Lemma limit_range_iff (d : t) (a b : float) :
  limit_range py_float d = Some (a, b) <->
  py_float (var1 d) = Some a /\ py_float (var2 d) = Some b /\
  PrimFloat.ltb a b = true.
Proof.
  unfold limit_range.
  destruct (py_float (var1 d)) as [x|], (py_float (var2 d)) as [y|].
  - destruct (PrimFloat.ltb x y) eqn:L; split.
    + intros [= <- <-]. auto.
    + intros ([= <-] & [= <-] & _). reflexivity.
    + discriminate.
    + intros ([= <-] & [= <-] & L'). congruence.
  - split; [discriminate | intros (_ & H & _); discriminate].
  - split; [discriminate | intros (H & _); discriminate].
  - split; [discriminate | intros (H & _); discriminate].
Qed.
End LimitPromptFacts.

(** C1.  Confirming the numeric-range dialog succeeds exactly when both
    entries parse as numbers and the second is strictly greater than the
    first.  On success the result is the pair of the two floats and the
    window is withdrawn and destroyed; otherwise the dialog prints its
    complaint and stays as it was, open and without a result.  With the
    entries "2" and "5" the result is (2.0, 5.0); with "5" and "2" the dialog
    is still waiting after OK, and cancelling it then leaves no result. *)
Theorem limitPrompt_confirm :
  (forall (py_float : string -> option float) (d : limitPrompt.t),
      limitPrompt.result d = None ->
      limitPrompt.destroyed d = false ->
      let out := limitPrompt.__ok__ py_float d in
      let valid :=
        exists a b, py_float (limitPrompt.var1 d) = Some a /\
                    py_float (limitPrompt.var2 d) = Some b /\
                    PrimFloat.ltb a b = true in
      fst out = inr tt /\
      (limitPrompt.destroyed (snd out) = true <-> valid) /\
      (limitPrompt.result (snd out) <> None <-> valid) /\
      (forall a b,
          py_float (limitPrompt.var1 d) = Some a ->
          py_float (limitPrompt.var2 d) = Some b ->
          PrimFloat.ltb a b = true ->
          snd out = limit_closed (limitPrompt.set_result (Some (a, b)) d) /\
          limitPrompt.result (snd out) = Some (a, b) /\
          limitPrompt.withdrawn (snd out) = true) /\
      (~ valid ->
       snd out = limitPrompt.print "not valid" d /\
       limitPrompt.destroyed (snd out) = false /\
       limitPrompt.result (snd out) = None)) /\
  (forall parent title i1 i2,
      exists d,
        limitPrompt.__init__ Literal.parse parent title [i1; i2]
          [limitPrompt.Type1 "2"; limitPrompt.Type2 "5"; limitPrompt.OK]
        = Some (inr tt, d) /\
        limitPrompt.result d = Some (2%float, 5%float) /\
        limitPrompt.destroyed d = true) /\
  (forall parent title i1 i2,
      limitPrompt.__init__ Literal.parse parent title [i1; i2]
        [limitPrompt.Type1 "5"; limitPrompt.Type2 "2"; limitPrompt.OK]
      = None /\
      exists d,
        limitPrompt.__init__ Literal.parse parent title [i1; i2]
          [limitPrompt.Type1 "5"; limitPrompt.Type2 "2"; limitPrompt.OK;
           limitPrompt.Cancel]
        = Some (inr tt, d) /\
        limitPrompt.result d = None).
Proof.
  split; [|split].
  - intros py_float d Hres Hopen out valid.
    assert (Hv : valid <-> exists r, limit_range py_float d = Some r).
    { split.
      - intros (a & b & H). exists (a, b). now apply limit_range_iff.
      - intros ([a b] & H). exists a, b. now apply limit_range_iff. }
    subst out. rewrite limit_ok_spec.
    destruct (limit_range py_float d) as [[a b]|] eqn:R; simpl.
    + split; [reflexivity|].
      split; [split; [intros _; apply Hv; eauto | destruct (limitPrompt.has_parent d); reflexivity]|].
      split; [split; [intros _; apply Hv; eauto | destruct (limitPrompt.has_parent d); discriminate]|].
      split.
      * intros a' b' Ha Hb Hlt.
        assert (R' : limit_range py_float d = Some (a', b')) by now apply limit_range_iff.
        rewrite R in R'. injection R' as <- <-.
        destruct (limitPrompt.has_parent d); repeat split; reflexivity.
      * intros Hn. exfalso. apply Hn, Hv. eauto.
    + assert (Hn : ~ valid) by (intros H; apply Hv in H as (r & H); discriminate).
      split; [reflexivity|].
      split; [split; [rewrite Hopen; discriminate | intros H; contradiction]|].
      split; [split; [intros H; now rewrite Hres in H | intros H; contradiction]|].
      split.
      * intros a b Ha Hb Hlt. exfalso. apply Hn. exists a, b. auto.
      * intros _. repeat split; assumption.
  - intros parent title i1 i2.
    destruct parent, title;
      (eexists; split; [vm_compute; reflexivity | split; reflexivity]).
  - intros parent title i1 i2. split.
    + destruct parent, title; vm_compute; reflexivity.
    + destruct parent, title;
        (eexists; split; [vm_compute; reflexivity | reflexivity]).
Qed.

Lemma limitPrompt_confirm_witness :
  let d := limitPrompt.mk true "2" "5" None true None false false false [] in
  limitPrompt.result d = None /\
  limitPrompt.destroyed d = false /\
  limitPrompt.result (snd (limitPrompt.__ok__ Literal.parse d))
  = Some (2%float, 5%float).
Proof.
  intros d. split; [reflexivity|]. split; [reflexivity|].
  destruct (proj1 limitPrompt_confirm Literal.parse d eq_refl eq_refl)
    as (_ & _ & _ & Hok & _).
  exact (proj1 (proj2 (Hok 2%float 5%float eq_refl eq_refl eq_refl))).
Defined.

(** ** The text-and-font-size dialog *)

Section TextPromptFacts.
Import textPrompt.
Variable py_float : string -> option float.

Lemma text_validate_spec (d : t) (s : string) :
  getFontSize d = true -> fontVar d = Some s ->
  __validate__ py_float d = (inr (is_some (py_float s)), d).
Proof.
  intros G F.
  unfold __validate__, fontVar_get, try_except, bind, gets, float_call, lift_opt.
  rewrite G. simpl. rewrite F. simpl.
  destruct (py_float s); reflexivity.
Qed.

Lemma text_ok_spec (d : t) (s : string) :
  getFontSize d = true -> fontVar d = Some s ->
  __ok__ py_float d =
  match py_float s with
  | Some size => (inr tt, text_closed (set_result (Some (var d, Some size)) d))
  | None => (inr tt, print "not valid" d)
  end.
Proof.
  intros G F. unfold __ok__, bind. rewrite (text_validate_spec d s G F).
  destruct (py_float s) as [size|] eqn:E; simpl; [|reflexivity].
  unfold __apply__, __cancel__, fontVar_get, bind, gets, float_call,
    lift_opt, modify, ret.
  rewrite G. simpl. rewrite F. simpl. rewrite E. simpl.
  unfold text_closed. simpl.
  destruct (has_parent d); reflexivity.
Qed.

(** Without a font-size field every confirmation is accepted. *)
Lemma text_ok_no_font (d : t) :
  getFontSize d = false ->
  __ok__ py_float d = (inr tt, text_closed (set_result (Some (var d, None)) d)).
Proof.
  intros G. unfold __ok__, __validate__, __apply__, __cancel__, bind, gets,
    modify, ret.
  rewrite G. simpl. rewrite G. simpl.
  unfold text_closed. simpl.
  destruct (has_parent d); reflexivity.
Qed.

Lemma text_cancel_spec (d : t) :
  __cancel__ d =
  (inr tt, destroy ((if has_parent d then focus_parent else fun x => x) d)).
Proof.
  unfold __cancel__, bind, gets, modify, ret.
  destruct (has_parent d); reflexivity.
Qed.

(** A dialog that asks for the font size has its font variable, from
    [__create_widgets__] on and through every event. *)
Lemma text_dispatch_fontVar (ev : event) (d : t) :
  getFontSize d = true -> is_some (fontVar d) = true ->
  getFontSize (dispatch py_float ev d) = true /\
  is_some (fontVar (dispatch py_float ev d)) = true.
Proof.
  intros G F. destruct (fontVar d) as [s|] eqn:E; [|discriminate].
  destruct ev; simpl.
  - rewrite E. auto.
  - rewrite G. simpl. auto.
  - rewrite (text_ok_spec d s G E).
    destruct (py_float s); simpl; rewrite ?E;
      destruct (has_parent d); simpl; rewrite ?E; auto.
  - rewrite text_cancel_spec. simpl.
    destruct (has_parent d); simpl; rewrite E; auto.
Qed.
End TextPromptFacts.

(** C2.  With the font-size field requested, confirming the text dialog
    succeeds exactly when the font-size entry parses as a number.  On
    success the result is the text with the font size as a float and the
    window is withdrawn and destroyed; otherwise the dialog stays as it was,
    open and without a result.  Cancelling (Escape, the Cancel button or the
    window manager's close) destroys the window and leaves the result as it
    was.  The text "Energy (keV)" with font size "12" yields
    ("Energy (keV)", 12.0); with font size "abc" the dialog is still waiting
    after OK, and cancelling it then leaves no result. *)
Theorem textPrompt_confirm :
  (forall (py_float : string -> option float) (d : textPrompt.t) (s : string),
      textPrompt.getFontSize d = true ->
      textPrompt.fontVar d = Some s ->
      textPrompt.result d = None ->
      textPrompt.destroyed d = false ->
      let out := textPrompt.__ok__ py_float d in
      fst out = inr tt /\
      (textPrompt.destroyed (snd out) = true <-> exists size, py_float s = Some size) /\
      (textPrompt.result (snd out) <> None <-> exists size, py_float s = Some size) /\
      (forall size,
          py_float s = Some size ->
          snd out = text_closed
                      (textPrompt.set_result (Some (textPrompt.var d, Some size)) d) /\
          textPrompt.result (snd out) = Some (textPrompt.var d, Some size) /\
          textPrompt.withdrawn (snd out) = true) /\
      (py_float s = None ->
       snd out = textPrompt.print "not valid" d /\
       textPrompt.destroyed (snd out) = false /\
       textPrompt.result (snd out) = None)) /\
  (forall (d : textPrompt.t),
      fst (textPrompt.__cancel__ d) = inr tt /\
      textPrompt.destroyed (snd (textPrompt.__cancel__ d)) = true /\
      textPrompt.result (snd (textPrompt.__cancel__ d)) = textPrompt.result d) /\
  (forall parent title text initValue initFontSize,
      exists d,
        textPrompt.__init__ Literal.parse parent title text initValue
          initFontSize true
          [textPrompt.TypeText "Energy (keV)"; textPrompt.TypeFont "12";
           textPrompt.OK]
        = Some (inr tt, d) /\
        textPrompt.result d = Some ("Energy (keV)", Some 12%float) /\
        textPrompt.destroyed d = true) /\
  (forall parent title text initValue initFontSize,
      textPrompt.__init__ Literal.parse parent title text initValue
        initFontSize true
        [textPrompt.TypeText "Energy (keV)"; textPrompt.TypeFont "abc";
         textPrompt.OK]
      = None /\
      exists d,
        textPrompt.__init__ Literal.parse parent title text initValue
          initFontSize true
          [textPrompt.TypeText "Energy (keV)"; textPrompt.TypeFont "abc";
           textPrompt.OK; textPrompt.Cancel]
        = Some (inr tt, d) /\
        textPrompt.result d = None).
Proof.
  split; [|split; [|split]].
  - intros py_float d s G F Hres Hopen out. subst out.
    rewrite (text_ok_spec py_float d s G F).
    destruct (py_float s) as [size|] eqn:E; simpl.
    + split; [reflexivity|].
      split; [split; [eauto | destruct (textPrompt.has_parent d); reflexivity]|].
      split; [split; [eauto | destruct (textPrompt.has_parent d); discriminate]|].
      split; [|discriminate].
      intros size' [= <-].
      destruct (textPrompt.has_parent d); repeat split; reflexivity.
    + split; [reflexivity|].
      split; [split; [rewrite Hopen; discriminate | intros (x & H); discriminate]|].
      split; [split; [intros H; now rewrite Hres in H | intros (x & H); discriminate]|].
      split; [discriminate|].
      intros _. repeat split; assumption.
  - intros d. rewrite text_cancel_spec. simpl.
    destruct (textPrompt.has_parent d); repeat split; reflexivity.
  - intros parent title text iv ifs.
    destruct parent, title, text;
      (eexists; split; [vm_compute; reflexivity | split; reflexivity]).
  - intros parent title text iv ifs. split.
    + destruct parent, title, text; vm_compute; reflexivity.
    + destruct parent, title, text;
        (eexists; split; [vm_compute; reflexivity | reflexivity]).
Qed.

Lemma textPrompt_confirm_witness :
  let d := textPrompt.mk true true "Energy (keV)" (Some "12") None true None
             None false false false [] in
  textPrompt.getFontSize d = true /\
  textPrompt.fontVar d = Some "12" /\
  textPrompt.result d = None /\
  textPrompt.destroyed d = false /\
  textPrompt.result (snd (textPrompt.__ok__ Literal.parse d))
  = Some ("Energy (keV)", Some 12%float).
Proof.
  intros d. repeat (split; [reflexivity|]).
  destruct (proj1 textPrompt_confirm Literal.parse d "12"
              eq_refl eq_refl eq_refl eq_refl) as (_ & _ & _ & Hok & _).
  exact (proj1 (proj2 (Hok 12%float eq_refl))).
Defined.

(** ** The plot window: the drawing step and the render step *)

Lemma bind_assoc {S A B C} (m : M S A) (k : A -> M S B) (h : B -> M S C) (s : S) :
  bind (bind m k) h s = bind m (fun a => bind (k a) h) s.
Proof. unfold bind. destruct (m s) as [[e|a] s']; reflexivity. Qed.

Section PlotFacts.
Import Plot.
Variable tight_layout : t -> option exn.

Lemma set_ax_ax (w : t) : set_ax (ax w) w = w.
Proof. destruct w; reflexivity. Qed.

Lemma ax_set_ax (a : Axes.t) (w : t) : ax (set_ax a w) = a.
Proof. reflexivity. Qed.

Lemma step_opt {X} (o : option X) (g : X -> Axes.t -> Axes.t) (k : M t unit)
    (a : Axes.t) (w : t) :
  (match o with Some v => on_ax (g v) | None => ret tt end ;; k) (set_ax a w)
  = k (set_ax (match o with Some v => g v a | None => a end) w).
Proof. destruct o; reflexivity. Qed.

Lemma step_bool (b : bool) (g1 g2 : Axes.t -> Axes.t) (k : M t unit)
    (a : Axes.t) (w : t) :
  ((if b then on_ax g1 else on_ax g2) ;; k) (set_ax a w)
  = k (set_ax ((if b then g1 else g2) a) w).
Proof. destruct b; reflexivity. Qed.

Lemma step_text (o : option string) (g : string -> Axes.t -> Axes.t)
    (k : M t unit) (a : Axes.t) (w : t) :
  (match o with
   | Some s => if negb (s =? "")%string then on_ax (g s) else ret tt
   | None => ret tt
   end ;; k) (set_ax a w)
  = k (set_ax (match o with
               | Some s => if negb (s =? "")%string then g s a else a
               | None => a
               end) w).
Proof. destruct o as [s|]; [destruct (negb (s =? ""))|]; reflexivity. Qed.

Lemma bind_gets {S A B} (f : S -> A) (k : A -> M S B) (s : S) :
  bind (gets f) k s = k (f s) s.
Proof. reflexivity. Qed.

Lemma configure_axes_at (w : t) (a : Axes.t) :
  configure_axes (set_ax a w) = (inr tt, set_ax (styled w a) w).
Proof.
  unfold configure_axes.
  rewrite bind_gets, step_opt.
  rewrite bind_gets, step_opt.
  rewrite bind_gets, step_bool.
  rewrite bind_gets, step_bool.
  rewrite !bind_gets, step_text.
  rewrite !bind_gets, step_text.
  rewrite !bind_gets, step_text.
  rewrite bind_gets.
  unfold styled.
  change (legend (set_ax _ w)) with (legend w).
  destruct (legend w); reflexivity.
Qed.

Lemma configure_axes_spec (w : t) :
  configure_axes w = (inr tt, set_ax (styled w (ax w)) w).
Proof. rewrite <- (set_ax_ax w) at 1. apply configure_axes_at. Qed.

(** Reading the window through a change of axes *)
Lemma bind_ret {S A B} (x : A) (k : A -> M S B) (s : S) :
  bind (ret x) k s = k x s.
Proof. reflexivity. Qed.












Local Arguments getitem : simpl never.
Local Arguments item : simpl never.
Local Arguments seq_get : simpl never.













Lemma draw_series_unimplemented (w : t) :
  unimplemented (plotTypeVar w) = true -> draw_series w = (inr tt, w).
Proof.
  unfold unimplemented, method_of, draw_series. rewrite bind_gets.
  destruct (plotTypeVar w =? TYPE_PLOT)%Z; [discriminate|].
  destruct (plotTypeVar w =? TYPE_ERRORBAR)%Z; [discriminate|].
  destruct (plotTypeVar w =? TYPE_BAR)%Z; [discriminate|].
  destruct (plotTypeVar w =? TYPE_HISTOGRAM)%Z; [discriminate|].
  reflexivity.
Qed.



Lemma proj_opt {X Y} (p : Axes.t -> Y) (o : option X)
    (g : X -> Axes.t -> Axes.t) (a : Axes.t) :
  (forall v b, p (g v b) = p b) ->
  p (match o with Some v => g v a | None => a end) = p a.
Proof. intros H. destruct o; [apply H | reflexivity]. Qed.

Lemma proj_text {Y} (p : Axes.t -> Y) (o : option string)
    (g : string -> Axes.t -> Axes.t) (a : Axes.t) :
  (forall v b, p (g v b) = p b) ->
  p (match o with
     | Some s => if negb (s =? "")%string then g s a else a
     | None => a
     end) = p a.
Proof.
  intros H. destruct o as [s|]; [|reflexivity].
  destruct (negb (s =? "")); [apply H | reflexivity].
Qed.

Lemma proj_bool {Y} (p : Axes.t -> Y) (c : bool) (g : Axes.t -> Axes.t)
    (a : Axes.t) :
  (forall b, p (g b) = p b) -> p (if c then g a else a) = p a.
Proof. intros H. destruct c; [apply H | reflexivity]. Qed.

Lemma artists_styled (w : t) (a : Axes.t) :
  Axes.artists (styled w a) = Axes.artists a.
Proof.
  unfold styled. cbv zeta.
  rewrite (proj_bool Axes.artists (legend w) (Axes.show_legend _ _)) by reflexivity.
  rewrite (proj_text Axes.artists (title w) (fun s => Axes.set_title s _)) by reflexivity.
  rewrite (proj_text Axes.artists (ylabel w) (fun s => Axes.set_ylabel s _)) by reflexivity.
  rewrite (proj_text Axes.artists (xlabel w) (fun s => Axes.set_xlabel s _)) by reflexivity.
  destruct (logY w), (logX w); simpl;
    rewrite (proj_opt Axes.artists (ylim w) Axes.set_ylim) by reflexivity;
    rewrite (proj_opt Axes.artists (xlim w) Axes.set_xlim) by reflexivity;
    reflexivity.
Qed.

Lemma xscale_styled (w : t) (a : Axes.t) :
  Axes.xscale (styled w a) = (if logX w then "log" else "linear").
Proof.
  unfold styled. cbv zeta.
  rewrite (proj_bool Axes.xscale (legend w) (Axes.show_legend _ _)) by reflexivity.
  rewrite (proj_text Axes.xscale (title w) (fun s => Axes.set_title s _)) by reflexivity.
  rewrite (proj_text Axes.xscale (ylabel w) (fun s => Axes.set_ylabel s _)) by reflexivity.
  rewrite (proj_text Axes.xscale (xlabel w) (fun s => Axes.set_xlabel s _)) by reflexivity.
  destruct (logY w), (logX w); reflexivity.
Qed.

Lemma yscale_styled (w : t) (a : Axes.t) :
  Axes.yscale (styled w a) = (if logY w then "log" else "linear").
Proof.
  unfold styled. cbv zeta.
  rewrite (proj_bool Axes.yscale (legend w) (Axes.show_legend _ _)) by reflexivity.
  rewrite (proj_text Axes.yscale (title w) (fun s => Axes.set_title s _)) by reflexivity.
  rewrite (proj_text Axes.yscale (ylabel w) (fun s => Axes.set_ylabel s _)) by reflexivity.
  rewrite (proj_text Axes.yscale (xlabel w) (fun s => Axes.set_xlabel s _)) by reflexivity.
  destruct (logY w), (logX w); reflexivity.
Qed.

(** [__plot__] is [paint], the layout pass and [finish]. *)
Lemma plot_unfold (w : t) :
  __plot__ tight_layout w =
  match paint w with
  | (inl e, w') => (inl e, w')
  | (inr _, w') =>
      match tight_layout w' with
      | Some e => (inl e, w')
      | None => (inr tt, finish w')
      end
  end.
Proof.
  unfold __plot__, paint, bind.
  destruct (on_ax (fun _ => Axes.cleared) w) as [[e|[]] w0]; [reflexivity|].
  destruct (draw_series w0) as [[e|[]] w1]; [reflexivity|].
  destruct (configure_axes w1) as [[e|[]] w2]; [reflexivity|].
  unfold fig_tight_layout.
  destruct (tight_layout w2) as [e|]; [reflexivity|].
  unfold update_toolbar, finish, bind, gets, modify.
  cbv beta iota zeta.
  set (w3 := set_layouts (S (layouts w2)) w2).
  destruct (showToolbar w3); [reflexivity|].
  destruct (toolbar w3); reflexivity.
Qed.

Lemma paint_spec (w : t) :
  paint w =
  match draw_series (set_ax Axes.cleared w) with
  | (inl e, w') => (inl e, w')
  | (inr _, w') => (inr tt, set_ax (styled w' (ax w')) w')
  end.
Proof.
  unfold paint. unfold bind at 1 2.
  change (on_ax (fun _ => Axes.cleared) w) with (@inr exn unit tt, set_ax Axes.cleared w).
  cbv iota.
  destruct (draw_series (set_ax Axes.cleared w)) as [[e|[]] w1]; [reflexivity|].
  apply configure_axes_spec.
Qed.
End PlotFacts.

(** ** The plot window: what a redraw depends on and what it changes *)

Section AxesOnly.
Import Plot.

Lemma axes_only_ret {A} (x : A) : axes_only (ret x).
Proof. intros w. unfold ret. simpl. now rewrite set_ax_ax. Qed.

Lemma axes_only_raise {A} (e : exn) : axes_only (@raise t A e).
Proof. intros w. unfold raise. simpl. now rewrite set_ax_ax. Qed.

Lemma axes_only_assert (c : bool) : axes_only (assert c).
Proof. destruct c; [apply axes_only_ret | apply axes_only_raise]. Qed.

Lemma axes_only_lift_opt {A} (e : exn) (o : option A) : axes_only (lift_opt e o).
Proof. destruct o; [apply axes_only_ret | apply axes_only_raise]. Qed.

Lemma axes_only_gets {A} (f : t -> A) :
  (forall w, f (settings w) = f w) -> axes_only (gets f).
Proof.
  intros H w. unfold gets. simpl. rewrite H.
  change (ax (settings w)) with (ax w). now rewrite set_ax_ax.
Qed.

Lemma axes_only_on_ax (g : Axes.t -> Axes.t) : axes_only (on_ax g).
Proof. intros w. reflexivity. Qed.

Lemma axes_only_bind {A B} (m : M t A) (k : A -> M t B) :
  axes_only m -> (forall x, axes_only (k x)) -> axes_only (bind m k).
Proof.
  intros Hm Hk w. unfold bind.
  rewrite (Hm w). pose proof (Hm (settings w)) as Hs.
  change (settings (settings w)) with (settings w) in Hs.
  destruct (m (settings w)) as [[e|x] s']; simpl in *.
  - reflexivity.
  - injection Hs as Hs. rewrite (Hk x (set_ax (ax s') w)).
    change (settings (set_ax (ax s') w)) with (set_ax (ax s') (settings w)).
    rewrite <- Hs. reflexivity.
Qed.

Lemma axes_only_for_each {A} (xs : list A) (body : A -> M t unit) :
  (forall x, axes_only (body x)) -> axes_only (for_each xs body).
Proof.
  intros H. induction xs as [|x xs IH]; simpl.
  - apply axes_only_ret.
  - apply axes_only_bind; [apply H | intros _; exact IH].
Qed.

Ltac axes_only_step :=
  match goal with
  | |- axes_only (bind _ _) => apply axes_only_bind; [|intros]
  | |- axes_only (ret _) => apply axes_only_ret
  | |- axes_only (raise _) => apply axes_only_raise
  | |- axes_only (assert _) => apply axes_only_assert
  | |- axes_only (lift_opt _ _) => apply axes_only_lift_opt
  | |- axes_only (gets _) => apply axes_only_gets; intros; reflexivity
  | |- axes_only (on_ax _) => apply axes_only_on_ax
  | |- axes_only (draw ?c) => exact (axes_only_on_ax (Axes.add_artist c))
  | |- axes_only (for_each _ _) => apply axes_only_for_each; intros
  | |- axes_only (match ?x with _ => _ end) => destruct x
  end.

Lemma axes_only_draw_series : axes_only draw_series.
Proof.
  unfold draw_series, plot_lines, plot_errorbars, plot_bars, plot_hists,
    data_shape_neg, data_shape, data_get, labels_get, labels_attr, fmt_get.
  repeat axes_only_step.
Qed.

Lemma axes_only_configure_axes : axes_only configure_axes.
Proof. intros w. rewrite !configure_axes_spec. reflexivity. Qed.

Lemma axes_only_paint : axes_only paint.
Proof.
  unfold paint. repeat axes_only_step.
  - apply axes_only_draw_series.
  - apply axes_only_configure_axes.
Qed.

(** [paint] starts from cleared axes. *)
Lemma paint_set_ax (a : Axes.t) (w : t) : paint (set_ax a w) = paint w.
Proof. rewrite !paint_spec. reflexivity. Qed.

(** The axes [paint] leaves depend on the settings alone. *)
Lemma paint_canon (w : t) :
  paint w = (fst (paint (canon w)), set_ax (ax (snd (paint (canon w)))) w).
Proof.
  unfold canon. rewrite paint_set_ax. apply axes_only_paint.
Qed.

Section Callback.
Variable tight_layout : t -> option exn.

Lemma canon_finish (w : t) : canon (finish w) = canon w /\ ax (finish w) = ax w.
Proof.
  unfold finish. cbv zeta.
  set (w1 := set_layouts _ w).
  change (canon w) with (canon w1). change (ax w) with (ax w1).
  destruct (showToolbar w1); [split; reflexivity|].
  destruct (toolbar w1); split; reflexivity.
Qed.

(** A redraw from the event loop changes no setting, and the axes it leaves
    are those of [paint]. *)
Lemma redraw_canon (w : t) :
  canon (callback (__plot__ tight_layout) w) = canon w /\
  ax (callback (__plot__ tight_layout) w) = ax (snd (paint w)).
Proof.
  unfold callback. rewrite plot_unfold, (paint_canon w).
  set (a := ax (snd (paint (canon w)))).
  destruct (fst (paint (canon w))) as [e|[]]; cbv beta iota.
  - split; reflexivity.
  - destruct (tight_layout (set_ax a w)) as [e|]; [split; reflexivity|].
    destruct (canon_finish (set_ax a w)) as [-> ->]. split; reflexivity.
Qed.

Lemma set_logX_logX (w : t) : set_logX (logX w) w = w.
Proof. destruct w; reflexivity. Qed.

Lemma toggle_logX_canon (w : t) :
  canon (toggle_logX tight_layout w) = set_logX (negb (logX w)) (canon w).
Proof. unfold toggle_logX. now rewrite (proj1 (redraw_canon _)). Qed.

Lemma toggle_logY_canon (w : t) :
  canon (toggle_logY tight_layout w) = set_logY (negb (logY w)) (canon w).
Proof. unfold toggle_logY. now rewrite (proj1 (redraw_canon _)). Qed.

Lemma set_logY_logY (w : t) : set_logY (logY w) w = w.
Proof. destruct w; reflexivity. Qed.

Lemma set_logX_twice (b c : bool) (w : t) :
  set_logX b (set_logX c w) = set_logX b w /\ logX (set_logX c w) = c.
Proof. split; reflexivity. Qed.

Lemma set_logY_twice (b c : bool) (w : t) :
  set_logY b (set_logY c w) = set_logY b w /\ logY (set_logY c w) = c.
Proof. split; reflexivity. Qed.

Lemma toggle_logX_twice (w : t) :
  canon (toggle_logX tight_layout (toggle_logX tight_layout w)) = canon w.
Proof.
  rewrite toggle_logX_canon.
  change (logX (toggle_logX tight_layout w))
    with (logX (canon (toggle_logX tight_layout w))).
  rewrite toggle_logX_canon.
  rewrite (proj2 (set_logX_twice true _ _)), (proj1 (set_logX_twice _ _ _)).
  rewrite negb_involutive.
  exact (set_logX_logX (canon w)).
Qed.

Lemma toggle_logY_twice (w : t) :
  canon (toggle_logY tight_layout (toggle_logY tight_layout w)) = canon w.
Proof.
  rewrite toggle_logY_canon.
  change (logY (toggle_logY tight_layout w))
    with (logY (canon (toggle_logY tight_layout w))).
  rewrite toggle_logY_canon.
  rewrite (proj2 (set_logY_twice true _ _)), (proj1 (set_logY_twice _ _ _)).
  rewrite negb_involutive.
  exact (set_logY_logY (canon w)).
Qed.

(** The axes after a redraw are a function of the settings. *)
Lemma redraw_ax_canon (w1 w2 : t) :
  canon w1 = canon w2 ->
  ax (callback (__plot__ tight_layout) w1) = ax (callback (__plot__ tight_layout) w2).
Proof.
  intros H. rewrite !(proj2 (redraw_canon _)).
  rewrite (paint_canon w1), (paint_canon w2), H.
  cbn [snd]. now rewrite !ax_set_ax.
Qed.
End Callback.
End AxesOnly.

(** ** The render step: scales, unimplemented plot types, layout errors *)

Section RenderFacts.
Import Plot.
Variable tight_layout : t -> option exn.

(** The axes [configure_axes] leaves when it starts from cleared ones. *)
Lemma styled_cleared (w : t) :
  styled w Axes.cleared =
  Axes.mk [] (xlim w) (ylim w)
    (if logX w then "log" else "linear")
    (if logY w then "log" else "linear")
    (shown_text (xlabel w) (xlabelSize w))
    (shown_text (ylabel w) (ylabelSize w))
    (shown_text (title w) (titleSize w))
    (if legend w then Some (legendLoc w, legendFontSize w) else None).
Proof.
  unfold styled, shown_text. cbv zeta.
  destruct (xlim w), (ylim w), (logX w), (logY w), (legend w);
    destruct (xlabel w) as [s1|]; try destruct (negb (s1 =? ""));
    destruct (ylabel w) as [s2|]; try destruct (negb (s2 =? ""));
    destruct (title w) as [s3|]; try destruct (negb (s3 =? ""));
    reflexivity.
Qed.

Lemma paint_unimplemented (w : t) :
  unimplemented (plotTypeVar w) = true ->
  paint w = (inr tt, set_ax (styled w Axes.cleared) w).
Proof.
  intros H. rewrite paint_spec.
  rewrite (draw_series_unimplemented (set_ax Axes.cleared w)) by exact H.
  reflexivity.
Qed.

(** When the render step returns, the scales are those of the flags. *)
Lemma plot_scales (w : t) :
  fst (__plot__ tight_layout w) = inr tt ->
  Axes.xscale (ax (snd (__plot__ tight_layout w)))
  = (if logX w then "log" else "linear") /\
  Axes.yscale (ax (snd (__plot__ tight_layout w)))
  = (if logY w then "log" else "linear").
Proof.
  rewrite plot_unfold, paint_spec.
  destruct (draw_series (set_ax Axes.cleared w)) as [[e|[]] w1] eqn:D;
    [discriminate|].
  pose proof (axes_only_draw_series (set_ax Axes.cleared w)) as Hd.
  rewrite D in Hd. injection Hd as _ Hw1.
  set (w2 := set_ax (styled w1 (ax w1)) w1).
  destruct (tight_layout w2) as [e|]; [discriminate|]. intros _.
  cbn [snd]. rewrite (proj2 (canon_finish w2)).
  unfold w2. rewrite ax_set_ax, xscale_styled, yscale_styled.
  rewrite Hw1. split; reflexivity.
Qed.
End RenderFacts.

(** A contour window whose layout pass raises: the render step raises, and
    selecting the type from the menu has Tk report the exception. *)
Lemma unimplemented_type_layout_raises :
  let w := Plot.set_plotTypeVar Plot.TYPE_CONTOUR
             (snd (Plot.new layout_ok (Plot.defaults (Ndarray xy_data)))) in
  unimplemented (Plot.plotTypeVar w) = true /\
  fst (Plot.__plot__ (layout_raises ValueError) w) = inl ValueError /\
  Plot.reported
    (Plot.select_plotType (layout_raises ValueError) Plot.TYPE_CONTOUR w)
  = [ValueError].
Proof.
  cbv zeta. split; [reflexivity|]. split; vm_compute; reflexivity.
Qed.

(** C6, as the code has it.  For a plot type without a rendering
    ([unimplemented]: the six declared types 2-D histogram, contour, image,
    color mesh, date plot and vector field, and any other tag outside the
    four drawn ones) the render step clears the axes, draws nothing and
    applies the limits, scales, labels, title and legend of the settings;
    none of this raises.  The layout pass follows, unguarded: whenever it
    returns, the render step returns too, after the toolbar step and the
    canvas redraw, and selecting such a type from the menu reports no
    exception; when it raises, the render step raises the same exception
    and nothing else, with the axes left cleared and configured, and Tk
    reports it when the render was started from the menu. *)
Theorem unimplemented_type_renders_empty :
  (unimplemented Plot.TYPE_2DHISTOGRAM = true /\
   unimplemented Plot.TYPE_CONTOUR = true /\
   unimplemented Plot.TYPE_IMAGE = true /\
   unimplemented Plot.TYPE_COLORMESH = true /\
   unimplemented Plot.TYPE_DATEPLOT = true /\
   unimplemented Plot.TYPE_VECTOR = true) /\
  (forall (tight_layout : Plot.t -> option exn) (w : Plot.t),
      unimplemented (Plot.plotTypeVar w) = true ->
      tight_layout (Plot.set_ax (styled w Axes.cleared) w) = None ->
      let w' := snd (Plot.__plot__ tight_layout w) in
      fst (Plot.__plot__ tight_layout w) = inr tt /\
      w' = finish (Plot.set_ax (styled w Axes.cleared) w) /\
      Plot.ax w' =
        Axes.mk [] (Plot.xlim w) (Plot.ylim w)
          (if Plot.logX w then "log" else "linear")
          (if Plot.logY w then "log" else "linear")
          (shown_text (Plot.xlabel w) (Plot.xlabelSize w))
          (shown_text (Plot.ylabel w) (Plot.ylabelSize w))
          (shown_text (Plot.title w) (Plot.titleSize w))
          (if Plot.legend w
           then Some (Plot.legendLoc w, Plot.legendFontSize w) else None) /\
      Plot.layouts w' = S (Plot.layouts w) /\
      Plot.draws w' = S (Plot.draws w)) /\
  (forall (tight_layout : Plot.t -> option exn) (w : Plot.t) (v : Z),
      unimplemented v = true ->
      (forall x, tight_layout x = None) ->
      Plot.plotTypeVar (Plot.select_plotType tight_layout v w) = v /\
      Axes.artists (Plot.ax (Plot.select_plotType tight_layout v w)) = [] /\
      Plot.reported (Plot.select_plotType tight_layout v w) = Plot.reported w) /\
  (forall (tight_layout : Plot.t -> option exn) (w : Plot.t) (e : exn),
      unimplemented (Plot.plotTypeVar w) = true ->
      let w1 := Plot.set_ax (styled w Axes.cleared) w in
      (fst (Plot.__plot__ tight_layout w) = inl e <-> tight_layout w1 = Some e) /\
      (tight_layout w1 = Some e ->
       snd (Plot.__plot__ tight_layout w) = w1 /\
       Plot.callback (Plot.__plot__ tight_layout) w
       = Plot.set_reported (Plot.reported w ++ [e]) w1)).
Proof.
  split; [repeat split|]. split; [|split].
  - intros tl w Hu Hl w'. subst w'.
    rewrite plot_unfold, (paint_unimplemented w Hu), Hl. cbn [fst snd].
    split; [reflexivity|]. split; [reflexivity|].
    set (w2 := Plot.set_ax (styled w Axes.cleared) w).
    rewrite (proj2 (canon_finish w2)). unfold w2.
    rewrite ax_set_ax, styled_cleared. split; [reflexivity|].
    unfold finish. cbv zeta.
    set (w3 := Plot.set_layouts _ _).
    destruct (Plot.showToolbar w3); [split; reflexivity|].
    destruct (Plot.toolbar w3); split; reflexivity.
  - intros tl w v Hu Hl. unfold Plot.select_plotType, Plot.callback.
    rewrite plot_unfold, paint_unimplemented by exact Hu.
    rewrite Hl.
    set (w2 := Plot.set_ax _ _).
    unfold finish. cbv zeta.
    set (w3 := Plot.set_layouts _ _).
    assert (Ha : Axes.artists (Plot.ax w3) = []).
    { unfold w3, w2. cbn [Plot.ax Plot.set_layouts Plot.set_ax].
      now rewrite artists_styled. }
    destruct (Plot.showToolbar w3); [split; [|split]; [reflexivity|exact Ha|reflexivity]|].
    destruct (Plot.toolbar w3); (split; [|split]; [reflexivity|exact Ha|reflexivity]).
  - intros tl w e Hu w1. unfold Plot.callback.
    rewrite plot_unfold, (paint_unimplemented w Hu). fold w1.
    destruct (tl w1) as [e'|]; cbn [fst snd].
    + split.
      * split; intros [= ->]; reflexivity.
      * intros [= ->]. split; reflexivity.
    + split; [split; discriminate|discriminate].
Qed.

Lemma unimplemented_type_renders_empty_witness :
  let w := Plot.set_plotTypeVar Plot.TYPE_CONTOUR
             (snd (Plot.new layout_ok (Plot.defaults (Ndarray xy_data)))) in
  unimplemented (Plot.plotTypeVar w) = true /\
  fst (Plot.__plot__ layout_ok w) = inr tt /\
  Axes.artists (Plot.ax (Plot.select_plotType layout_ok Plot.TYPE_CONTOUR w)) = [].
Proof.
  intros w. split; [reflexivity|]. split.
  - exact (proj1 (proj1 (proj2 unimplemented_type_renders_empty) layout_ok w
                    eq_refl eq_refl)).
  - exact (proj1 (proj2 (proj1 (proj2 (proj2 unimplemented_type_renders_empty))
                    layout_ok w Plot.TYPE_CONTOUR eq_refl (fun _ => eq_refl)))).
Defined.

(** C7.  The render step sets each scale by its flag: when it returns, the
    x scale is 'log' exactly when [logX] is set and 'linear' otherwise, and
    likewise for y.  Toggling a log flag twice from the menu gives back the
    flag and every other setting, and leaves the axes, hence the scale, of
    a plain redraw of the window. *)
Theorem log_toggle_twice :
  forall (tight_layout : Plot.t -> option exn) (w : Plot.t),
    (fst (Plot.__plot__ tight_layout w) = inr tt ->
     (Axes.xscale (Plot.ax (snd (Plot.__plot__ tight_layout w))) = "log"
      <-> Plot.logX w = true) /\
     (Axes.xscale (Plot.ax (snd (Plot.__plot__ tight_layout w))) = "linear"
      <-> Plot.logX w = false) /\
     (Axes.yscale (Plot.ax (snd (Plot.__plot__ tight_layout w))) = "log"
      <-> Plot.logY w = true) /\
     (Axes.yscale (Plot.ax (snd (Plot.__plot__ tight_layout w))) = "linear"
      <-> Plot.logY w = false)) /\
    Plot.logX (Plot.toggle_logX tight_layout w) = negb (Plot.logX w) /\
    Plot.logY (Plot.toggle_logY tight_layout w) = negb (Plot.logY w) /\
    (let w2 := Plot.toggle_logX tight_layout (Plot.toggle_logX tight_layout w) in
     Plot.logX w2 = Plot.logX w /\
     canon w2 = canon w /\
     Plot.ax w2 = Plot.ax (Plot.callback (Plot.__plot__ tight_layout) w) /\
     Axes.xscale (Plot.ax w2)
     = Axes.xscale (Plot.ax (Plot.callback (Plot.__plot__ tight_layout) w))) /\
    (let w2 := Plot.toggle_logY tight_layout (Plot.toggle_logY tight_layout w) in
     Plot.logY w2 = Plot.logY w /\
     canon w2 = canon w /\
     Plot.ax w2 = Plot.ax (Plot.callback (Plot.__plot__ tight_layout) w) /\
     Axes.yscale (Plot.ax w2)
     = Axes.yscale (Plot.ax (Plot.callback (Plot.__plot__ tight_layout) w))).
Proof.
  intros tl w. split; [|split; [|split; [|split]]].
  - intros Hr. destruct (plot_scales tl w Hr) as [-> ->].
    destruct (Plot.logX w), (Plot.logY w); repeat split; auto; discriminate.
  - change (Plot.logX (Plot.toggle_logX tl w))
      with (Plot.logX (canon (Plot.toggle_logX tl w))).
    now rewrite toggle_logX_canon.
  - change (Plot.logY (Plot.toggle_logY tl w))
      with (Plot.logY (canon (Plot.toggle_logY tl w))).
    now rewrite toggle_logY_canon.
  - intros w2. pose proof (toggle_logX_twice tl w) as Hc. fold w2 in Hc.
    assert (Ha : Plot.ax w2 = Plot.ax (Plot.callback (Plot.__plot__ tl) w)).
    { unfold w2. unfold Plot.toggle_logX at 1.
      apply redraw_ax_canon.
      rewrite <- Hc. symmetry.
      exact (proj1 (redraw_canon tl
               (Plot.set_logX (negb (Plot.logX (Plot.toggle_logX tl w)))
                  (Plot.toggle_logX tl w)))). }
    split; [|split; [exact Hc|split; [exact Ha|now rewrite Ha]]].
    change (Plot.logX w2) with (Plot.logX (canon w2)). now rewrite Hc.
  - intros w2. pose proof (toggle_logY_twice tl w) as Hc. fold w2 in Hc.
    assert (Ha : Plot.ax w2 = Plot.ax (Plot.callback (Plot.__plot__ tl) w)).
    { unfold w2. unfold Plot.toggle_logY at 1.
      apply redraw_ax_canon.
      rewrite <- Hc. symmetry.
      exact (proj1 (redraw_canon tl
               (Plot.set_logY (negb (Plot.logY (Plot.toggle_logY tl w)))
                  (Plot.toggle_logY tl w)))). }
    split; [|split; [exact Hc|split; [exact Ha|now rewrite Ha]]].
    change (Plot.logY w2) with (Plot.logY (canon w2)). now rewrite Hc.
Qed.

Lemma log_toggle_twice_witness :
  let w := snd (Plot.new layout_ok (Plot.defaults (Ndarray xy_data))) in
  fst (Plot.__plot__ layout_ok w) = inr tt /\
  (Axes.xscale (Plot.ax (snd (Plot.__plot__ layout_ok w))) = "linear"
   <-> Plot.logX w = false).
Proof.
  intros w.
  assert (H : fst (Plot.__plot__ layout_ok w) = inr tt) by (vm_compute; reflexivity).
  split; [exact H|].
  exact (proj1 (proj2 (proj1 (log_toggle_twice layout_ok w) H))).
Defined.

(** The layout pass raising [ValueError] makes the render step raise it,
    and a [RuntimeError] of the layout pass goes through [__resize__]. *)
Lemma layout_errors_surface :
  let w := snd (Plot.new layout_ok (Plot.defaults (Ndarray xy_data))) in
  fst (Plot.__plot__ (layout_raises ValueError) w) = inl ValueError /\
  fst (Plot.__resize__ (layout_raises RuntimeError) w) = inl RuntimeError.
Proof. split; vm_compute; reflexivity. Qed.

(** C9, as the code has it.  Only [__resize__] guards the layout pass, and
    only against [ValueError]: on a resize a [ValueError] of the layout pass
    is swallowed and the window is left as it was, any other exception goes
    through, and a layout pass that returns is counted.  The render step
    calls the layout pass unguarded: once its drawing and configuring have
    returned, whatever the layout pass raises is raised by [__plot__]. *)
Theorem layout_errors_handling :
  forall (tight_layout : Plot.t -> option exn) (w : Plot.t),
    (tight_layout w = Some ValueError ->
     Plot.__resize__ tight_layout w = (inr tt, w)) /\
    (forall e, tight_layout w = Some e -> e <> ValueError ->
               Plot.__resize__ tight_layout w = (inl e, w)) /\
    (tight_layout w = None ->
     Plot.__resize__ tight_layout w
     = (inr tt, Plot.set_layouts (S (Plot.layouts w)) w)) /\
    (forall e, fst (paint w) = inr tt ->
               tight_layout (snd (paint w)) = Some e ->
               Plot.__plot__ tight_layout w = (inl e, snd (paint w))).
Proof.
  intros tl w. unfold Plot.__resize__, try_except_as, Plot.fig_tight_layout.
  split; [|split; [|split]].
  - intros ->. reflexivity.
  - intros e -> He. destruct e; try reflexivity. contradiction.
  - intros ->. reflexivity.
  - intros e Hp Hl. rewrite plot_unfold.
    destruct (paint w) as [[e'|[]] w']; [discriminate|].
    cbn [snd] in Hl |- *. now rewrite Hl.
Qed.

Lemma layout_errors_handling_witness :
  let w := snd (Plot.new layout_ok (Plot.defaults (Ndarray xy_data))) in
  layout_raises ValueError w = Some ValueError /\
  Plot.__resize__ (layout_raises ValueError) w = (inr tt, w) /\
  Plot.__resize__ (layout_raises TypeError) w = (inl TypeError, w) /\
  fst (Plot.__plot__ (layout_raises ValueError) w) = inl ValueError.
Proof.
  intros w.
  destruct (layout_errors_handling (layout_raises ValueError) w) as (H1 & _ & _ & H4).
  destruct (layout_errors_handling (layout_raises TypeError) w) as (_ & H2 & _).
  assert (Hp : fst (paint w) = inr tt) by (vm_compute; reflexivity).
  split; [reflexivity|]. split; [exact (H1 eq_refl)|].
  split; [apply (H2 TypeError eq_refl); discriminate|].
  rewrite (H4 ValueError Hp eq_refl). reflexivity.
Defined.

(** ** The constructor *)

Section InitFacts.
Import Plot.
Variable tight_layout : t -> option exn.

Lemma bind_modify {S B} (f : S -> S) (k : unit -> M S B) (s : S) :
  bind (modify f) k s = k tt (f s).
Proof. reflexivity. Qed.

Lemma init_unfold (a : args) :
  new tight_layout a =
  match a_data a with
  | NotNdarray => (inl AssertionError, started a)
  | Ndarray d =>
      match init_fmt (a_fmt a) (set_data d (set_kwargs (a_kwargs a) (started a))) with
      | (inl e, w) => (inl e, w)
      | (inr _, w) =>
          match init_labels (a_labels a) w with
          | (inl e, w) => (inl e, w)
          | (inr _, w) =>
              match __menubar__ (a_plotType a) (configured a w) with
              | (inl e, w) => (inl e, w)
              | (inr _, w) => __plot__ tight_layout w
              end
          end
      end
  end.
Proof.
  unfold new, __init__.
  rewrite !bind_modify. fold (started a).
  unfold bind at 1.
  destruct (a_data a) as [d|]; [|reflexivity].
  unfold ret. rewrite !bind_modify.
  unfold bind at 1.
  destruct (init_fmt _ _) as [[e|[]] w1]; [reflexivity|].
  unfold bind at 1.
  destruct (init_labels _ _) as [[e|[]] w2]; [reflexivity|].
  rewrite !bind_modify. unfold __initPlot__. rewrite bind_modify.
  fold (configured a w2).
  unfold bind at 1. reflexivity.
Qed.

(** The format of [__init__]: a list is stored whatever its length, a tuple
    when its length is [data.shape[0]], a string as a list of one. *)
Lemma init_fmt_list (l : list string) (w : t) :
  init_fmt (PSeq (pylist l)) w = (inr tt, set_fmt (Some (pylist l)) w).
Proof. reflexivity. Qed.

Lemma init_fmt_str (s : string) (w : t) :
  init_fmt (PStr s) w = (inr tt, set_fmt (Some (pylist [s])) w).
Proof. reflexivity. Qed.


Lemma init_fmt_tuple (l : list string) (n : nat) (w : t) :
  shape_at (data w) 0 = Some n ->
  init_fmt (PSeq (pytuple l)) w
  = (inr tt, set_fmt (if (length l =? n)%nat then Some (pytuple l) else None) w).
Proof.
  intros H. unfold init_fmt, pytuple. cbn [kind items].
  unfold data_shape. unfold bind, gets, lift_opt. rewrite H. cbn.
  destruct (length l =? n)%nat; reflexivity.
Qed.

Lemma init_fmt_returns (fmt : pyarg) (n : nat) (w : t) :
  shape_at (data w) 0 = Some n ->
  exists f, init_fmt fmt w = (inr tt, set_fmt f w).
Proof.
  intros H. destruct fmt as [|s|[[] l]|]; try (eexists; reflexivity).
  eexists. exact (init_fmt_tuple l n w H).
Qed.

Lemma init_labels_default (l : list string) (w : t) :
  default_labels (data w) = Some l ->
  init_labels PNone w = (inr tt, set_labels (Some (pylist l)) w).
Proof.
  unfold default_labels, init_labels, data_shape, bind, gets, lift_opt.
  cbv beta iota.
  destruct (rank (data w) =? 2)%nat.
  - intros [= <-]. reflexivity.
  - destruct (shape_at (data w) 0); [|discriminate].
    intros [= <-]. reflexivity.
Qed.


Lemma shape_neg_2 (d : ndarray) :
  (2 <= rank d)%nat -> exists s, shape_neg d 2 = Some s.
Proof.
  unfold rank, shape_neg. intros H.
  apply lookup_lt_is_Some. rewrite length_rev. lia.
Qed.

Lemma shape_at_0 (d : ndarray) :
  (1 <= rank d)%nat -> exists n, shape_at d 0 = Some n.
Proof.
  unfold rank, shape_at. intros H. apply lookup_lt_is_Some. lia.
Qed.

Lemma set_relabelMenu_twice (x y : list string) (w : t) :
  set_relabelMenu x (set_relabelMenu y w) = set_relabelMenu x w.
Proof. reflexivity. Qed.

(** The loop of [__menubar__] over the labels. *)
Lemma relabel_entries (q : pyseq) (len : nat) :
  forall (start : nat) (w : t),
    labels w = Some q ->
    (start + len <= length (items q))%nat ->
    for_each (seq start len)
      (fun i => let* li := labels_get i in
                modify (fun w => set_relabelMenu (relabelMenu w ++ [li])%list w)) w
    = (inr tt,
       set_relabelMenu (relabelMenu w ++ take len (drop start (items q)))%list w).
Proof.
  induction len as [|len IH]; intros start w Hq Hlen.
  - simpl. rewrite app_nil_r. unfold ret. f_equal. destruct w; reflexivity.
  - destruct (lookup_lt_is_Some_2 (items q) start) as [l Hl]; [lia|].
    cbn [seq for_each]. unfold bind at 1. unfold bind at 1.
    unfold labels_get, labels_attr, bind, gets. rewrite Hq. cbn [lift_opt ret].
    unfold seq_get. rewrite Hl. cbn [lift_opt ret modify].
    rewrite IH; [|exact Hq|lia].
    rewrite set_relabelMenu_twice.
    rewrite (drop_S _ _ _ Hl). cbn [take].
    change (relabelMenu (set_relabelMenu ?x w)) with x.
    now rewrite <- app_assoc.
Qed.

Lemma bind_data_shape (j n : nat) {B} (k : nat -> M t B) (w : t) :
  shape_at (data w) j = Some n -> bind (data_shape j) k w = k n w.
Proof. intros H. unfold data_shape, bind, gets. rewrite H. reflexivity. Qed.

Lemma bind_data_shape_neg (j n : nat) {B} (k : nat -> M t B) (w : t) :
  shape_neg (data w) j = Some n -> bind (data_shape_neg j) k w = k n w.
Proof. intros H. unfold data_shape_neg, bind, gets. rewrite H. reflexivity. Qed.

Lemma bind_labels_attr (q : pyseq) {B} (k : pyseq -> M t B) (w : t) :
  labels w = Some q -> bind labels_attr k w = k q w.
Proof. intros H. unfold labels_attr, bind, gets. rewrite H. reflexivity. Qed.

Lemma menubar_spec (plotType : Z) (q : pyseq) (w : t) :
  labels w = Some q ->
  __menubar__ plotType w = (inr tt, with_menus plotType q w).
Proof.
  intros Hq. unfold __menubar__, with_menus, type_menu.
  rewrite bind_gets.
  assert (Hloop : forall menu,
    (let* q0 := labels_attr in
     for_each (range (length (items q0)))
       (fun i => let* li := labels_get i in
                 modify (fun w0 => set_relabelMenu (relabelMenu w0 ++ [li])%list w0));;
     modify (set_showToolbar false))
      (set_relabelMenu [] (set_plotTypeVar plotType (set_plotTypeMenu menu w)))
    = (inr tt, set_showToolbar false (set_relabelMenu (items q)
                 (set_plotTypeVar plotType (set_plotTypeMenu menu w))))).
  { intros menu. rewrite (bind_labels_attr q) by exact Hq.
    unfold bind at 1. unfold range.
    rewrite (relabel_entries q (length (items q)) 0); [|exact Hq|lia].
    rewrite set_relabelMenu_twice.
    change (relabelMenu (set_relabelMenu [] ?x)) with (@nil string).
    rewrite drop_0, firstn_all. reflexivity. }
  destruct (2 <=? rank (data w))%nat eqn:Hr.
  - apply Nat.leb_le in Hr.
    destruct (shape_neg_2 _ Hr) as [s Hs].
    destruct (shape_at_0 (data w)) as [n Hn]; [lia|].
    rewrite (bind_data_shape_neg 2 s) by exact Hs. rewrite Hs, Hn.
    destruct (s =? 1)%nat.
    + rewrite bind_ret, !bind_modify. apply Hloop.
    + rewrite bind_assoc, (bind_data_shape 0 n) by exact Hn.
      rewrite bind_assoc, (bind_labels_attr q) by exact Hq.
      rewrite bind_ret, !bind_modify. apply Hloop.
  - rewrite bind_ret. cbn [Nat.eqb]. rewrite bind_ret, !bind_modify.
    apply Hloop.
Qed.
End InitFacts.

Section ConstructorFacts.
Import Plot.
Variable tight_layout : t -> option exn.

(** The render step changes no setting. *)
Lemma plot_canon (w : t) : canon (snd (__plot__ tight_layout w)) = canon w.
Proof.
  rewrite plot_unfold, (paint_canon w).
  set (a := ax (snd (paint (canon w)))).
  destruct (fst (paint (canon w))) as [e|[]]; cbv beta iota.
  - reflexivity.
  - destruct (tight_layout (set_ax a w)) as [e|]; [reflexivity|].
    cbn [snd]. now rewrite (proj1 (canon_finish (set_ax a w))).
Qed.

(** The window that is rendered at the end of [__init__], for data of rank
    one or more and default labels. *)
Lemma new_default_labels (a : args) (d : ndarray) (l : list string) :
  a_data a = Ndarray d ->
  a_labels a = PNone ->
  default_labels d = Some l ->
  exists f w,
    w = with_menus (a_plotType a) (pylist l)
          (configured a (set_labels (Some (pylist l))
             (set_fmt f (set_data d (set_kwargs (a_kwargs a) (started a)))))) /\
    (a_fmt a = PNone -> f = None) /\
    new tight_layout a = __plot__ tight_layout w.
Proof.
  intros Hd Hl Hdef. rewrite init_unfold, Hd, Hl.
  assert (Hn : exists n, shape_at d 0 = Some n).
  { unfold default_labels in Hdef.
    destruct (rank d =? 2)%nat eqn:Hr.
    - apply Nat.eqb_eq in Hr. apply shape_at_0. lia.
    - destruct (shape_at d 0) as [n|]; [eauto|discriminate]. }
  destruct Hn as [n Hn].
  set (w0 := set_data d (set_kwargs (a_kwargs a) (started a))).
  destruct (init_fmt_returns (a_fmt a) n w0 Hn) as [f Hf].
  exists (match a_fmt a with PNone => None | _ => f end).
  assert (Hf' : init_fmt (a_fmt a) w0
                = (inr tt, set_fmt (match a_fmt a with PNone => None | _ => f end) w0)).
  { destruct (a_fmt a); try exact Hf. reflexivity. }
  rewrite Hf'. clear Hf Hf'.
  set (f' := match a_fmt a with PNone => None | _ => f end).
  rewrite (init_labels_default l (set_fmt f' w0)) by exact Hdef.
  rewrite (menubar_spec (a_plotType a) (pylist l)) by reflexivity.
  eexists. split; [reflexivity|]. split; [|reflexivity].
  intros E. unfold f'. now rewrite E.
Qed.
End ConstructorFacts.

(** C10.  Without a [labels] argument the default labels follow the rank of
    the data: data of rank 2 get the single label 'Series 1', while data of
    rank 1 with N samples get the N labels 'Series 1' to 'Series N', one per
    sample; the relabel menu has one entry per label, so N entries for the
    rank-1 data.  This is the state the constructor leaves, whether or not
    its first render returns. *)
Theorem default_labels_by_rank :
  forall (tight_layout : Plot.t -> option exn) (a : Plot.args) (d : ndarray),
    Plot.a_data a = Ndarray d ->
    Plot.a_labels a = PNone ->
    let w := snd (Plot.new tight_layout a) in
    (rank d = 2%nat ->
     Plot.labels w = Some (pylist ["Series 1"]) /\
     Plot.relabelMenu w = ["Series 1"]) /\
    (forall N : nat,
        shape d = [N] ->
        Plot.labels w
        = Some (pylist (map (fun i => "Series " ++ str (i + 1)) (range N))) /\
        Plot.relabelMenu w = map (fun i => "Series " ++ str (i + 1)) (range N) /\
        length (Plot.relabelMenu w) = N).
Proof.
  intros tl a d Hd Hl w.
  assert (H : forall l, default_labels d = Some l ->
                        Plot.labels w = Some (pylist l) /\ Plot.relabelMenu w = l).
  { intros l Hdef.
    destruct (new_default_labels tl a d l Hd Hl Hdef) as (f & w4 & Hw4 & _ & Hnew).
    unfold w. rewrite Hnew.
    change (Plot.labels (snd (Plot.__plot__ tl w4)))
      with (Plot.labels (canon (snd (Plot.__plot__ tl w4)))).
    change (Plot.relabelMenu (snd (Plot.__plot__ tl w4)))
      with (Plot.relabelMenu (canon (snd (Plot.__plot__ tl w4)))).
    rewrite plot_canon, Hw4. split; reflexivity. }
  split.
  - intros Hr. apply H. unfold default_labels. now rewrite Hr.
  - intros N Hs.
    destruct (H (map (fun i => "Series " ++ str (i + 1)) (range N))) as [H1 H2].
    { unfold default_labels, rank, shape_at. rewrite Hs. reflexivity. }
    split; [exact H1|]. split; [exact H2|].
    rewrite H2, length_map. unfold range. apply length_seq.
Qed.

Lemma default_labels_by_rank_witness :
  let a := plot_args (Ndarray samples) Plot.TYPE_HISTOGRAM PNone PNone in
  let w := snd (Plot.new layout_ok a) in
  Plot.a_data a = Ndarray samples /\
  Plot.a_labels a = PNone /\
  shape samples = [4%nat] /\
  Plot.relabelMenu w = ["Series 1"; "Series 2"; "Series 3"; "Series 4"] /\
  Plot.labels (snd (Plot.new layout_ok (Plot.defaults (Ndarray xy_data))))
  = Some (pylist ["Series 1"]).
Proof.
  intros a w. do 3 (split; [reflexivity|]). split.
  - exact (proj1 (proj2 (proj2 (default_labels_by_rank layout_ok a samples
                                  eq_refl eq_refl) 4%nat eq_refl))).
  - exact (proj1 (proj1 (default_labels_by_rank layout_ok
                           (Plot.defaults (Ndarray xy_data)) xy_data
                           eq_refl eq_refl) eq_refl)).
Defined.

(** C4, where the code departs from it.  [__init__] stores a format given
    as a list whatever its length: `isinstance(fmt, list) or isinstance(fmt,
    tuple) and len(fmt) == self.data.shape[0]` checks the length of a tuple
    only.  With two series and the one-element list ['r'] the stored format
    is ['r'], not [None], and the first render raises [IndexError] at
    [self.fmt[1]]. *)
Theorem fmt_list_kept_whatever_its_length :
  (forall (l : list string) (w : Plot.t),
      Plot.init_fmt (PSeq (pylist l)) w
      = (inr tt, Plot.set_fmt (Some (pylist l)) w)) /\
  (let r := Plot.new layout_ok
              (plot_args (Ndarray two_series) Plot.TYPE_PLOT
                 (PSeq (pylist ["r"])) PNone) in
   shape_at two_series 0 = Some 2%nat /\
   Plot.fmt (snd r) = Some (pylist ["r"]) /\
   fst r = inl IndexError) /\
  (let r := Plot.new layout_ok
              (plot_args (Ndarray two_series) Plot.TYPE_PLOT
                 (PSeq (pytuple ["r"])) PNone) in
   Plot.fmt (snd r) = None /\ fst r = inr tt).
Proof.
  split; [intros; reflexivity|].
  split; cbv zeta; repeat split; vm_compute; reflexivity.
Qed.

Section ConstructionOutcomes.
Import Plot.
Variable tight_layout : t -> option exn.

Lemma bind_raise {S A B} (e : exn) (k : A -> M S B) (s : S) :
  bind (raise e) k s = (inl e, s).
Proof. reflexivity. Qed.





End ConstructionOutcomes.






(** With formats, the loop of the error-bar plot hands every series the
    whole first and second series ([self.data[0,:]], [self.data[1,:]]) where
    the branch without formats hands it [self.data[i,0,:]] and
    [self.data[i,1,:]]. *)
Lemma errorbar_loop_draws_whole_series :
  let w := snd (Plot.new layout_ok
                  (plot_args (Ndarray two_series) Plot.TYPE_ERRORBAR
                     (PSeq (pylist ["r"; "b"])) PNone)) in
  let s0 := mk_ndarray [2; 3]%nat [1; 2; 3; 4; 5; 6]%float in
  let s1 := mk_ndarray [2; 3]%nat [7; 8; 9; 10; 11; 12]%float in
  let row (l : list float) := mk_ndarray [3%nat] l in
  valid_series w = true /\
  errorbar_loop_with_fmt w = true /\
  Axes.artists (Plot.ax w)
  = [mk_call errorbar [s0; s1] (Some "r") "Series 1" [];
     mk_call errorbar [s0; s1] (Some "b") "Series 2" []] /\
  designed_calls w
  = Some [mk_call errorbar [row [1; 2; 3]%float; row [4; 5; 6]%float]
            (Some "r") "Series 1" [];
          mk_call errorbar [row [7; 8; 9]%float; row [10; 11; 12]%float]
            (Some "b") "Series 2" []].
Proof. cbv zeta. repeat split; vm_compute; reflexivity. Qed.



(** ** Relabelling a series *)

Section RelabelFacts.
Import Plot.
Variable tight_layout : t -> option exn.
Variable py_float : string -> option float.

Lemma labels_get_list (l : list string) (k : pykind) (i : nat) (old : string)
    (w : t) :
  labels w = Some (mk_pyseq k l) -> l !! i = Some old ->
  labels_get i w = (inr old, w).
Proof.
  intros Hq Hl. unfold labels_get, labels_attr, bind, gets. rewrite Hq.
  cbn [lift_opt ret]. unfold seq_get. cbn [items]. rewrite Hl. reflexivity.
Qed.

(** With the labels in a list, a confirmed dialog replaces the label at
    [i] and no other, redraws, and then gives the [i]-th entry of the
    relabel menu the new label, provided the redraw returns. *)
Lemma relabel_confirmed (i : nat) (evs : list textPrompt.event) (w : t)
    (l : list string) (old s : string) (r : option float) (p : textPrompt.t) :
  labels w = Some (pylist l) ->
  l !! i = Some old ->
  (i < length (relabelMenu w))%nat ->
  relabel_dialog py_float old evs = Some (inr tt, p) ->
  textPrompt.result p = Some (s, r) ->
  fst (__plot__ tight_layout (set_labels (Some (pylist (<[i := s]> l))) w)) = inr tt ->
  let w1 := snd (__plot__ tight_layout (set_labels (Some (pylist (<[i := s]> l))) w)) in
  __relabel__ tight_layout py_float i evs w
  = Some (inr tt, set_relabelMenu (<[i := s]> (relabelMenu w)) w1) /\
  labels w1 = Some (pylist (<[i := s]> l)) /\
  (<[i := s]> l) !! i = Some s /\
  (forall j, j <> i -> (<[i := s]> l) !! j = l !! j) /\
  (forall j, j <> i ->
             (<[i := s]> (relabelMenu w)) !! j = relabelMenu w !! j).
Proof.
  intros Hq Hl Hi Hdlg Hres Hplot w1.
  assert (Hlen : (i < length l)%nat) by (apply lookup_lt_is_Some; eauto).
  assert (Hlab : labels w1 = Some (pylist (<[i := s]> l))).
  { unfold w1.
    change (labels (snd (__plot__ tight_layout ?x)))
      with (labels (canon (snd (__plot__ tight_layout x)))).
    rewrite plot_canon. reflexivity. }
  assert (Hmenu : relabelMenu w1 = relabelMenu w).
  { unfold w1.
    change (relabelMenu (snd (__plot__ tight_layout ?x)))
      with (relabelMenu (canon (snd (__plot__ tight_layout x)))).
    rewrite plot_canon. reflexivity. }
  split; [|split; [exact Hlab|split; [|split]]].
  - unfold __relabel__. rewrite (labels_get_list l PyList i old w Hq Hl).
    fold (relabel_dialog py_float old evs). rewrite Hdlg, Hres. cbn [fst].
    unfold labels_set. rewrite bind_assoc, (bind_labels_attr (pylist l)) by exact Hq.
    unfold seq_set, pylist. cbn [kind items].
    apply Nat.ltb_lt in Hlen. rewrite Hlen.
    rewrite bind_modify. unfold bind at 1.
    fold (pylist (<[i := s]> l)).
    destruct (__plot__ tight_layout (set_labels (Some (pylist (<[i := s]> l))) w))
      as [[e|[]] w2] eqn:E; [discriminate|].
    cbn [snd] in w1. subst w1.
    unfold relabelMenu_entryconfig. rewrite bind_gets, Hmenu.
    apply Nat.ltb_lt in Hi. rewrite Hi. reflexivity.
  - now apply list_lookup_insert_eq.
  - intros j Hj. now apply list_lookup_insert_ne.
  - intros j Hj. now apply list_lookup_insert_ne.
Qed.

(** A cancelled dialog changes nothing. *)
Lemma relabel_cancelled (i : nat) (evs : list textPrompt.event) (w : t)
    (l : list string) (k : pykind) (old : string) (p : textPrompt.t) :
  labels w = Some (mk_pyseq k l) ->
  l !! i = Some old ->
  relabel_dialog py_float old evs = Some (inr tt, p) ->
  textPrompt.result p = None ->
  __relabel__ tight_layout py_float i evs w = Some (inr tt, w).
Proof.
  intros Hq Hl Hdlg Hres. unfold __relabel__.
  rewrite (labels_get_list l k i old w Hq Hl).
  fold (relabel_dialog py_float old evs). now rewrite Hdlg, Hres.
Qed.

(** With the labels in a tuple, a confirmed dialog ends in [TypeError]:
    nothing is relabelled. *)
Lemma relabel_tuple (i : nat) (evs : list textPrompt.event) (w : t)
    (l : list string) (old s : string) (r : option float) (p : textPrompt.t) :
  labels w = Some (pytuple l) ->
  l !! i = Some old ->
  relabel_dialog py_float old evs = Some (inr tt, p) ->
  textPrompt.result p = Some (s, r) ->
  __relabel__ tight_layout py_float i evs w = Some (inl TypeError, w).
Proof.
  intros Hq Hl Hdlg Hres. unfold __relabel__.
  rewrite (labels_get_list l PyTuple i old w Hq Hl).
  fold (relabel_dialog py_float old evs). rewrite Hdlg, Hres. cbn [fst].
  unfold labels_set.
  rewrite bind_assoc, (bind_labels_attr (pytuple l)) by exact Hq. reflexivity.
Qed.
End RelabelFacts.

(** C8, where the code departs from it.  [__init__] keeps labels given as a
    tuple, and [self.labels[i] = ...] in [__relabel__] then raises
    [TypeError]: with the labels ('A', 'B', 'C') on three series, relabelling
    series 1 to "Shot A" and confirming leaves the labels, the axes and the
    menu as they were.  With the same labels in a list the label at index 1
    alone is replaced and the menu entry follows. *)
Theorem relabel_fails_on_tuple_labels :
  let evs := [textPrompt.TypeText "Shot A"; textPrompt.OK] in
  let tuple_args := plot_args (Ndarray three_series) Plot.TYPE_PLOT PNone
                      (PSeq (pytuple ["A"; "B"; "C"])) in
  let list_args := plot_args (Ndarray three_series) Plot.TYPE_PLOT PNone
                     (PSeq (pylist ["A"; "B"; "C"])) in
  let w := snd (Plot.new layout_ok tuple_args) in
  let v := snd (Plot.new layout_ok list_args) in
  (fst (Plot.new layout_ok tuple_args) = inr tt /\
   Plot.labels w = Some (pytuple ["A"; "B"; "C"]) /\
   Plot.relabelMenu w = ["A"; "B"; "C"] /\
   Plot.__relabel__ layout_ok Literal.parse 1 evs w = Some (inl TypeError, w)) /\
  (exists v',
      Plot.__relabel__ layout_ok Literal.parse 1 evs v = Some (inr tt, v') /\
      Plot.labels v' = Some (pylist ["A"; "Shot A"; "C"]) /\
      Plot.relabelMenu v' = ["A"; "Shot A"; "C"]).
Proof.
  cbv zeta. split.
  - split; [vm_compute; reflexivity|].
    split; [vm_compute; reflexivity|].
    split; vm_compute; reflexivity.
  - eexists. split; [vm_compute; reflexivity|]. split; reflexivity.
Qed.

(** * Further properties of the dialogs *)

Section DialogRuns.
Variable py_float : string -> option float.

Lemma limit_wait_destroyed (evs : list limitPrompt.event) (d : limitPrompt.t) :
  limitPrompt.destroyed d = true ->
  limitPrompt.wait_window py_float evs d = Some d.
Proof. intros H. destruct evs; simpl; now rewrite H. Qed.

Lemma limit_wait_step (ev : limitPrompt.event) (evs : list limitPrompt.event)
    (d : limitPrompt.t) :
  limitPrompt.destroyed d = false ->
  limitPrompt.wait_window py_float (ev :: evs) d
  = limitPrompt.wait_window py_float evs (limitPrompt.dispatch py_float ev d).
Proof. intros H. simpl. now rewrite H. Qed.

Lemma limit_cancel_spec (d : limitPrompt.t) :
  limitPrompt.__cancel__ d
  = (inr tt,
     limitPrompt.destroy
       ((if limitPrompt.has_parent d then limitPrompt.focus_parent
         else fun x => x) d)).
Proof.
  unfold limitPrompt.__cancel__, bind, gets, modify, ret.
  destruct (limitPrompt.has_parent d); reflexivity.
Qed.

Lemma limit_closed_fields (d : limitPrompt.t) :
  limitPrompt.destroyed (limit_closed d) = true /\
  limitPrompt.withdrawn (limit_closed d) = true /\
  limitPrompt.result (limit_closed d) = limitPrompt.result d /\
  limitPrompt.var1 (limit_closed d) = limitPrompt.var1 d /\
  limitPrompt.var2 (limit_closed d) = limitPrompt.var2 d.
Proof.
  unfold limit_closed. destruct (limitPrompt.has_parent d); repeat split.
Qed.

(** What a run of the numeric-range dialog can end in, from an open dialog
    without a result. *)
Lemma limit_wait_result (evs : list limitPrompt.event) :
  forall d d',
    limitPrompt.destroyed d = false ->
    limitPrompt.result d = None ->
    limitPrompt.wait_window py_float evs d = Some d' ->
    limitPrompt.destroyed d' = true /\
    (limitPrompt.result d' = None /\ limitPrompt.withdrawn d' = limitPrompt.withdrawn d
     \/ exists a b,
          limitPrompt.result d' = Some (a, b) /\
          PrimFloat.ltb a b = true /\
          py_float (limitPrompt.var1 d') = Some a /\
          py_float (limitPrompt.var2 d') = Some b /\
          limitPrompt.withdrawn d' = true).
Proof.
  induction evs as [|ev evs IH]; intros d d' Ho Hr Hw.
  - simpl in Hw. rewrite Ho in Hw. discriminate.
  - rewrite limit_wait_step in Hw by exact Ho.
    destruct ev as [s|s| |]; cbn [limitPrompt.dispatch] in Hw.
    + destruct (IH (limitPrompt.set_var1 s d) d' Ho Hr Hw) as [Hd H]. auto.
    + destruct (IH (limitPrompt.set_var2 s d) d' Ho Hr Hw) as [Hd H]. auto.
    + rewrite limit_ok_spec in Hw.
      destruct (limit_range py_float d) as [[a b]|] eqn:R; cbn [snd] in Hw.
      * apply limit_range_iff in R as (Ha & Hb & Hlt).
        destruct (limit_closed_fields (limitPrompt.set_result (Some (a, b)) d))
          as (F1 & F2 & F3 & F4 & F5).
        rewrite limit_wait_destroyed in Hw by exact F1.
        injection Hw as <-. split; [exact F1|].
        right. exists a, b. rewrite F3, F4, F5. auto.
      * destruct (IH (limitPrompt.print "not valid" d) d' Ho Hr Hw) as [Hd H].
        auto.
    + rewrite limit_cancel_spec in Hw. cbn [snd] in Hw.
      rewrite limit_wait_destroyed in Hw by reflexivity.
      injection Hw as <-. split; [reflexivity|]. left.
      destruct (limitPrompt.has_parent d); (split; [exact Hr|reflexivity]).
Qed.

Lemma text_wait_destroyed (evs : list textPrompt.event) (d : textPrompt.t) :
  textPrompt.destroyed d = true ->
  textPrompt.wait_window py_float evs d = Some d.
Proof. intros H. destruct evs; simpl; now rewrite H. Qed.

Lemma text_wait_step (ev : textPrompt.event) (evs : list textPrompt.event)
    (d : textPrompt.t) :
  textPrompt.destroyed d = false ->
  textPrompt.wait_window py_float (ev :: evs) d
  = textPrompt.wait_window py_float evs (textPrompt.dispatch py_float ev d).
Proof. intros H. simpl. now rewrite H. Qed.

Lemma text_closed_fields (d : textPrompt.t) :
  textPrompt.destroyed (text_closed d) = true /\
  textPrompt.withdrawn (text_closed d) = true /\
  textPrompt.result (text_closed d) = textPrompt.result d /\
  textPrompt.var (text_closed d) = textPrompt.var d /\
  textPrompt.fontVar (text_closed d) = textPrompt.fontVar d /\
  textPrompt.getFontSize (text_closed d) = textPrompt.getFontSize d.
Proof.
  unfold text_closed. destruct (textPrompt.has_parent d); repeat split.
Qed.

Lemma text_wait_result (evs : list textPrompt.event) :
  forall d d',
    textPrompt.destroyed d = false ->
    textPrompt.result d = None ->
    (textPrompt.getFontSize d = true -> is_some (textPrompt.fontVar d) = true) ->
    textPrompt.wait_window py_float evs d = Some d' ->
    textPrompt.destroyed d' = true /\
    textPrompt.getFontSize d' = textPrompt.getFontSize d /\
    text_result_ok py_float d'.
Proof.
  induction evs as [|ev evs IH]; intros d d' Ho Hr Hf Hw.
  - simpl in Hw. rewrite Ho in Hw. discriminate.
  - rewrite text_wait_step in Hw by exact Ho.
    destruct ev as [s|s| |]; cbn [textPrompt.dispatch] in Hw.
    + exact (IH (textPrompt.set_var s d) d' Ho Hr Hf Hw).
    + destruct (textPrompt.getFontSize d) eqn:G.
      * destruct (IH (textPrompt.set_fontVar s d) d' Ho Hr (fun _ => eq_refl) Hw)
          as (H1 & H2 & H3).
        cbn [textPrompt.getFontSize textPrompt.set_fontVar] in H2.
        rewrite G in H2. auto.
      * assert (Hf' : textPrompt.getFontSize d = true ->
                      is_some (textPrompt.fontVar d) = true)
          by (intros E; congruence).
        destruct (IH d d' Ho Hr Hf' Hw) as (H1 & H2 & H3).
        rewrite G in H2. auto.
    + destruct (textPrompt.getFontSize d) eqn:G.
      * destruct (textPrompt.fontVar d) as [s|] eqn:F;
          [|specialize (Hf eq_refl); discriminate].
        rewrite (text_ok_spec py_float d s G F) in Hw.
        destruct (py_float s) as [f|] eqn:P; cbn [snd] in Hw.
        -- destruct (text_closed_fields
                       (textPrompt.set_result (Some (textPrompt.var d, Some f)) d))
             as (F1 & F2 & F3 & F4 & F5 & F6).
           rewrite text_wait_destroyed in Hw by exact F1.
           injection Hw as <-. split; [exact F1|].
           split; [rewrite F6; exact G|].
           right. exists (Some f). rewrite F2, F3, F4, F5, F6.
           cbn [textPrompt.getFontSize textPrompt.result textPrompt.var
                  textPrompt.fontVar textPrompt.set_result].
           rewrite G. split; [reflexivity|]. split; [reflexivity|].
           exists s, f. auto.
        -- destruct (IH (textPrompt.print "not valid" d) d' Ho Hr) as (H1 & H2 & H3).
           { intros _. cbn [textPrompt.fontVar textPrompt.print]. now rewrite F. }
           { exact Hw. }
           cbn [textPrompt.getFontSize textPrompt.print] in H2. rewrite G in H2. auto.
      * rewrite (text_ok_no_font py_float d G) in Hw. cbn [snd] in Hw.
        destruct (text_closed_fields
                    (textPrompt.set_result (Some (textPrompt.var d, None)) d))
          as (F1 & F2 & F3 & F4 & F5 & F6).
        rewrite text_wait_destroyed in Hw by exact F1.
        injection Hw as <-. split; [exact F1|].
        split; [rewrite F6; exact G|].
        right. exists None. rewrite F2, F3, F4, F6.
        cbn [textPrompt.getFontSize textPrompt.result textPrompt.var
               textPrompt.set_result].
        rewrite G. repeat split.
    + rewrite text_cancel_spec in Hw. cbn [snd] in Hw.
      rewrite text_wait_destroyed in Hw by reflexivity.
      injection Hw as <-. split; [reflexivity|].
      split; [destruct (textPrompt.has_parent d); reflexivity|].
      left. destruct (textPrompt.has_parent d); exact Hr.
Qed.
End DialogRuns.

(** X1.  However the user drives the numeric-range dialog, once the
    constructor returns the window is destroyed and the result is either
    absent or a pair (a, b) with a < b, where a and b are the floats of the
    two entries as they stand.  So the dialog never hands out an inverted,
    empty or NaN range. *)
Theorem limitPrompt_result_increasing :
  forall (py_float : string -> option float) (parent : bool)
         (title : option string) (initValue : list string)
         (evs : list limitPrompt.event) (r : res unit) (d : limitPrompt.t),
    length initValue = 2%nat ->
    limitPrompt.__init__ py_float parent title initValue evs = Some (r, d) ->
    r = inr tt /\
    limitPrompt.destroyed d = true /\
    (limitPrompt.result d = None \/
     exists a b,
       limitPrompt.result d = Some (a, b) /\
       PrimFloat.ltb a b = true /\
       py_float (limitPrompt.var1 d) = Some a /\
       py_float (limitPrompt.var2 d) = Some b).
Proof.
  intros py parent title iv evs r d Hlen H.
  destruct iv as [|s1 [|s2 [|]]]; try discriminate.
  unfold limitPrompt.__init__ in H.
  set (d0 := limitPrompt.set_vars s1 s2
               (match title with
                | Some s => limitPrompt.set_title s
                | None => fun x => x
                end (limitPrompt.mk parent "" "" None true None false false false []))).
  assert (E : (assert (length [s1; s2] =? 2)%nat;;
               modify (limitPrompt.set_result None);;
               limitPrompt.__create_widgets__ title [s1; s2])
                (limitPrompt.mk parent "" "" None true None false false false [])
              = (inr tt, d0)).
  { destruct title; reflexivity. }
  rewrite E in H.
  destruct (limitPrompt.wait_window py evs d0) as [d'|] eqn:W; [|discriminate].
  injection H as <- <-.
  destruct (limit_wait_result py evs d0 d') as [Hd Hres].
  - destruct title; reflexivity.
  - destruct title; reflexivity.
  - exact W.
  - split; [reflexivity|]. split; [exact Hd|].
    destruct Hres as [[Hn _]|(a & b & H1 & H2 & H3 & H4 & _)]; [now left|].
    right. exists a, b. auto.
Qed.

Lemma limitPrompt_result_increasing_witness :
  exists d,
    limitPrompt.__init__ Literal.parse true (Some "x axis limits") ["0"; "1"]
      [limitPrompt.Type2 "-3"; limitPrompt.OK; limitPrompt.Type2 "7.5";
       limitPrompt.OK] = Some (inr tt, d) /\
    limitPrompt.destroyed d = true /\
    limitPrompt.result d = Some (0%float, 7.5%float).
Proof.
  eexists. split; [vm_compute; reflexivity|].
  destruct (limitPrompt_result_increasing Literal.parse true
              (Some "x axis limits") ["0"; "1"]
              [limitPrompt.Type2 "-3"; limitPrompt.OK; limitPrompt.Type2 "7.5";
               limitPrompt.OK] (inr tt) _ eq_refl
              ltac:(vm_compute; reflexivity)) as (_ & Hd & _).
  split; [exact Hd|reflexivity].
Defined.

(** X2.  An initial value that is not of length 2 makes the constructor of
    the numeric-range dialog raise [AssertionError] before any event is
    handled; the Tk window was created by then and is not destroyed. *)
Theorem limitPrompt_bad_initValue :
  forall (py_float : string -> option float) (parent : bool)
         (title : option string) (initValue : list string)
         (evs : list limitPrompt.event),
    length initValue <> 2%nat ->
    exists d,
      limitPrompt.__init__ py_float parent title initValue evs
      = Some (inl AssertionError, d) /\
      limitPrompt.created d = true /\
      limitPrompt.destroyed d = false /\
      limitPrompt.wm_title d = None.
Proof.
  intros py parent title iv evs Hlen.
  unfold limitPrompt.__init__.
  apply Nat.eqb_neq in Hlen. unfold bind at 1. rewrite Hlen.
  eexists. split; [reflexivity|]. repeat split.
Qed.

Lemma limitPrompt_bad_initValue_witness :
  exists d,
    limitPrompt.__init__ Literal.parse true None ["0"] [limitPrompt.Cancel]
    = Some (inl AssertionError, d) /\
    limitPrompt.destroyed d = false.
Proof.
  destruct (limitPrompt_bad_initValue Literal.parse true None ["0"]
              [limitPrompt.Cancel]) as (d & H & _ & Hd & _).
  - simpl. lia.
  - exists d. auto.
Defined.

(** X3.  However the user drives the text dialog, once the constructor
    returns the window is destroyed and the result is either absent or the
    text of the entry paired with a font size: the float of the font entry
    when the dialog asked for the font size, and [None] when it did not. *)
Theorem textPrompt_result_shape :
  forall (py_float : string -> option float) (parent : bool)
         (title text initValue initFontSize : option string)
         (getFontSize : bool) (evs : list textPrompt.event)
         (r : res unit) (d : textPrompt.t),
    textPrompt.__init__ py_float parent title text initValue initFontSize
      getFontSize evs = Some (r, d) ->
    r = inr tt /\
    textPrompt.destroyed d = true /\
    textPrompt.getFontSize d = getFontSize /\
    (textPrompt.result d = None \/
     exists size,
       textPrompt.result d = Some (textPrompt.var d, size) /\
       if getFontSize
       then exists s f, textPrompt.fontVar d = Some s /\
                        py_float s = Some f /\ size = Some f
       else size = None).
Proof.
  intros py parent title text iv ifs g evs r d H.
  unfold textPrompt.__init__ in H.
  destruct (textPrompt.__create_widgets__ title text iv ifs g
              (textPrompt.mk parent g "" None None true None None false false
                 false [])) as [[e|[]] d0] eqn:E.
  { exfalso. revert E. unfold textPrompt.__create_widgets__.
    destruct title, text, g; discriminate. }
  assert (H0 : textPrompt.destroyed d0 = false /\ textPrompt.result d0 = None /\
               textPrompt.getFontSize d0 = g /\
               (g = true -> is_some (textPrompt.fontVar d0) = true)).
  { revert E. unfold textPrompt.__create_widgets__.
    destruct title, text, g; intros [= <-]; repeat split; discriminate. }
  destruct H0 as (Ho & Hr & Hg & Hf).
  destruct (textPrompt.wait_window py evs d0) as [d'|] eqn:W; [|discriminate].
  injection H as <- <-.
  destruct (text_wait_result py evs d0 d' Ho Hr) as (H1 & H2 & H3).
  - rewrite Hg. exact Hf.
  - exact W.
  - rewrite Hg in H2. split; [reflexivity|]. split; [exact H1|].
    split; [exact H2|].
    destruct H3 as [Hn|(size & Hs & _ & Hsz)]; [now left|].
    right. exists size. rewrite H2 in Hsz. auto.
Qed.

Lemma textPrompt_result_shape_witness :
  exists d,
    textPrompt.__init__ Literal.parse true (Some "Set title") None (Some "")
      (Some "14.0") true
      [textPrompt.TypeText "Yield"; textPrompt.TypeFont "big"; textPrompt.OK;
       textPrompt.TypeFont "16"; textPrompt.OK] = Some (inr tt, d) /\
    textPrompt.destroyed d = true /\
    textPrompt.result d = Some ("Yield", Some 16%float).
Proof.
  eexists. split; [vm_compute; reflexivity|].
  destruct (textPrompt_result_shape Literal.parse true (Some "Set title") None
              (Some "") (Some "14.0") true
              [textPrompt.TypeText "Yield"; textPrompt.TypeFont "big";
               textPrompt.OK; textPrompt.TypeFont "16"; textPrompt.OK]
              (inr tt) _ ltac:(vm_compute; reflexivity)) as (_ & Hd & _).
  split; [exact Hd|reflexivity].
Defined.

(** X4.  A rejected confirmation leaves the numeric-range dialog usable:
    after OK on entries that do not validate, the user can correct both
    entries and confirm again, and the dialog then closes with the corrected
    pair; the only trace of the rejection is one line 'not valid' on the
    standard output. *)
Theorem limitPrompt_retry :
  forall (py_float : string -> option float) (d : limitPrompt.t)
         (s1 s2 : string) (a b : float) (evs : list limitPrompt.event),
    limitPrompt.destroyed d = false ->
    limit_range py_float d = None ->
    py_float s1 = Some a ->
    py_float s2 = Some b ->
    PrimFloat.ltb a b = true ->
    exists d',
      limitPrompt.wait_window py_float
        (limitPrompt.OK :: limitPrompt.Type1 s1 :: limitPrompt.Type2 s2
           :: limitPrompt.OK :: evs) d = Some d' /\
      limitPrompt.result d' = Some (a, b) /\
      limitPrompt.destroyed d' = true /\
      limitPrompt.stdout d' = (limitPrompt.stdout d ++ ["not valid"])%list.
Proof.
  intros py d s1 s2 a b evs Ho Hbad Ha Hb Hlt.
  rewrite limit_wait_step by exact Ho.
  cbn [limitPrompt.dispatch]. rewrite limit_ok_spec, Hbad. cbn [snd].
  rewrite !limit_wait_step by exact Ho.
  cbn [limitPrompt.dispatch]. rewrite limit_ok_spec.
  set (d2 := limitPrompt.set_var2 s2 _).
  assert (R : limit_range py d2 = Some (a, b)).
  { apply limit_range_iff. repeat split; assumption. }
  rewrite R. cbn [snd].
  destruct (limit_closed_fields (limitPrompt.set_result (Some (a, b)) d2))
    as (F1 & F2 & F3 & F4 & F5).
  rewrite limit_wait_destroyed by exact F1.
  eexists. split; [reflexivity|]. split; [exact F3|]. split; [exact F1|].
  unfold limit_closed. destruct (limitPrompt.has_parent _); reflexivity.
Qed.

Lemma limitPrompt_retry_witness :
  let d := limitPrompt.mk true "5" "2" None true None false false false [] in
  exists d',
    limitPrompt.wait_window Literal.parse
      [limitPrompt.OK; limitPrompt.Type1 "2"; limitPrompt.Type2 "5";
       limitPrompt.OK] d = Some d' /\
    limitPrompt.result d' = Some (2%float, 5%float) /\
    limitPrompt.destroyed d' = true /\
    limitPrompt.stdout d' = ["not valid"].
Proof.
  intros d.
  exact (limitPrompt_retry Literal.parse d "2" "5" 2%float 5%float []
           eq_refl ltac:(vm_compute; reflexivity) ltac:(vm_compute; reflexivity)
           ltac:(vm_compute; reflexivity) eq_refl).
Defined.

(** X5.  A text dialog that does not ask for the font size cannot refuse a
    confirmation: whatever text is typed, the empty one included, OK closes
    it with that text and no font size, and nothing is printed. *)
Theorem textPrompt_without_font_size_accepts :
  forall (py_float : string -> option float) (parent : bool)
         (title text initValue initFontSize : option string) (s : string)
         (evs : list textPrompt.event),
    exists d,
      textPrompt.__init__ py_float parent title text initValue initFontSize
        false (textPrompt.TypeText s :: textPrompt.OK :: evs)
      = Some (inr tt, d) /\
      textPrompt.result d = Some (s, None) /\
      textPrompt.destroyed d = true /\
      textPrompt.stdout d = [].
Proof.
  intros py parent title text iv ifs s evs.
  unfold textPrompt.__init__.
  set (d0 := textPrompt.mk parent false "" None None true None None false false
               false []).
  assert (E : exists d1,
             textPrompt.__create_widgets__ title text iv ifs false d0 = (inr tt, d1) /\
             textPrompt.destroyed d1 = false /\
             textPrompt.getFontSize d1 = false /\
             textPrompt.stdout d1 = []).
  { destruct title, text;
      (eexists; split;
       [cbv beta iota zeta delta [textPrompt.__create_widgets__ bind modify ret];
        reflexivity|];
       repeat split). }
  destruct E as (d1 & -> & Ho & G & Hout).
  rewrite !text_wait_step by exact Ho.
  cbn [textPrompt.dispatch].
  rewrite (text_ok_no_font py (textPrompt.set_var s d1) G). cbn [snd].
  destruct (text_closed_fields
              (textPrompt.set_result
                 (Some (textPrompt.var (textPrompt.set_var s d1), None))
                 (textPrompt.set_var s d1))) as (F1 & F2 & F3 & F4 & F5 & F6).
  rewrite text_wait_destroyed by exact F1.
  eexists. split; [reflexivity|]. split; [exact F3|]. split; [exact F1|].
  unfold text_closed. destruct (textPrompt.has_parent _); exact Hout.
Qed.

(** * Further properties of the plot window *)

(** X6.  The render step, whether it returns or raises, leaves the data,
    the formats, the labels, the keywords, every display setting and both
    menus as they were: it writes the axes, the layout and canvas counters
    and the toolbar only. *)
Theorem render_keeps_settings :
  forall (tight_layout : Plot.t -> option exn) (w : Plot.t),
    let w' := snd (Plot.__plot__ tight_layout w) in
    canon w' = canon w /\
    Plot.data w' = Plot.data w /\
    Plot.fmt w' = Plot.fmt w /\
    Plot.labels w' = Plot.labels w /\
    Plot.kwargs w' = Plot.kwargs w /\
    Plot.plotTypeVar w' = Plot.plotTypeVar w /\
    Plot.relabelMenu w' = Plot.relabelMenu w /\
    Plot.plotTypeMenu w' = Plot.plotTypeMenu w /\
    Plot.xlim w' = Plot.xlim w /\ Plot.ylim w' = Plot.ylim w /\
    Plot.logX w' = Plot.logX w /\ Plot.logY w' = Plot.logY w /\
    Plot.xlabel w' = Plot.xlabel w /\ Plot.ylabel w' = Plot.ylabel w /\
    Plot.title w' = Plot.title w /\
    Plot.legend w' = Plot.legend w /\
    Plot.showToolbar w' = Plot.showToolbar w /\
    Plot.created w' = Plot.created w.
Proof.
  intros tl w w'. pose proof (plot_canon tl w) as H. fold w' in H.
  split; [exact H|].
  repeat split;
    match goal with
    | |- ?f w' = ?f w => change (f (canon w') = f (canon w)); now rewrite H
    end.
Qed.

(** X7.  Redrawing is idempotent on the axes: a second redraw from the
    event loop leaves the axes of the first, so artists never pile up and a
    redraw can be repeated at will. *)
Theorem redraw_idempotent :
  forall (tight_layout : Plot.t -> option exn) (w : Plot.t),
    let once := Plot.callback (Plot.__plot__ tight_layout) w in
    let twice := Plot.callback (Plot.__plot__ tight_layout) once in
    Plot.ax twice = Plot.ax once /\
    Axes.artists (Plot.ax twice) = Axes.artists (Plot.ax once) /\
    canon twice = canon w.
Proof.
  intros tl w once twice.
  assert (H : Plot.ax twice = Plot.ax once).
  { unfold twice. apply redraw_ax_canon.
    unfold once. apply redraw_canon. }
  split; [exact H|]. split; [now rewrite H|].
  unfold twice. rewrite (proj1 (redraw_canon tl once)).
  unfold once. apply redraw_canon.
Qed.

Section DrawsOnly.
Import Plot.

Lemma draws_only_ret {A} (x : A) : draws_only (ret x).
Proof. intros w. reflexivity. Qed.

Lemma draws_only_raise {A} (e : exn) : draws_only (@raise t A e).
Proof. intros w. reflexivity. Qed.

Lemma draws_only_gets {A} (f : t -> A) : draws_only (gets f).
Proof. intros w. reflexivity. Qed.

Lemma draws_only_assert (c : bool) : draws_only (assert c).
Proof. destruct c; intros w; reflexivity. Qed.

Lemma draws_only_lift_opt {A} (e : exn) (o : option A) : draws_only (lift_opt e o).
Proof. destruct o; intros w; reflexivity. Qed.

Lemma draws_only_draw (c : draw_call) : draws_only (draw c).
Proof. intros w. reflexivity. Qed.

Lemma draws_only_bind {A B} (m : M t A) (k : A -> M t B) :
  draws_only m -> (forall x, draws_only (k x)) -> draws_only (bind m k).
Proof.
  intros Hm Hk w. unfold bind. specialize (Hm w).
  destruct (m w) as [[e|x] w1]; [exact Hm|].
  cbn [snd] in Hm. rewrite <- Hm. apply Hk.
Qed.

Lemma draws_only_for_each {A} (xs : list A) (body : A -> M t unit) :
  (forall x, draws_only (body x)) -> draws_only (for_each xs body).
Proof.
  intros H. induction xs as [|x xs IH]; simpl.
  - apply draws_only_ret.
  - apply draws_only_bind; [apply H | intros _; exact IH].
Qed.

Ltac draws_only_step :=
  match goal with
  | |- draws_only (bind _ _) => apply draws_only_bind; [|intros]
  | |- draws_only (ret _) => apply draws_only_ret
  | |- draws_only (raise _) => apply draws_only_raise
  | |- draws_only (assert _) => apply draws_only_assert
  | |- draws_only (lift_opt _ _) => apply draws_only_lift_opt
  | |- draws_only (gets _) => apply draws_only_gets
  | |- draws_only (draw _) => apply draws_only_draw
  | |- draws_only (for_each _ _) => apply draws_only_for_each; intros
  | |- draws_only (match ?x with _ => _ end) => destruct x
  end.

Lemma draws_only_draw_series : draws_only draw_series.
Proof.
  unfold draw_series, plot_lines, plot_errorbars, plot_bars, plot_hists,
    data_shape_neg, data_shape, data_get, labels_get, labels_attr, fmt_get.
  repeat draws_only_step.
Qed.

Lemma undrawn_opt {X} (o : option X) (g : X -> Axes.t -> Axes.t) (a : Axes.t) :
  (forall v b, undrawn (g v b) = g v (undrawn b)) ->
  undrawn (match o with Some v => g v a | None => a end)
  = match o with Some v => g v (undrawn a) | None => undrawn a end.
Proof. intros H. destruct o; [apply H | reflexivity]. Qed.

Lemma undrawn_text (o : option string) (g : string -> Axes.t -> Axes.t)
    (a : Axes.t) :
  (forall v b, undrawn (g v b) = g v (undrawn b)) ->
  undrawn (match o with
           | Some s => if negb (s =? "")%string then g s a else a
           | None => a
           end)
  = match o with
    | Some s => if negb (s =? "")%string then g s (undrawn a) else undrawn a
    | None => undrawn a
    end.
Proof.
  intros H. destruct o as [s|]; [|reflexivity].
  destruct (negb (s =? "")); [apply H | reflexivity].
Qed.

(** [configure_axes] does not look at the artists. *)
Lemma undrawn_styled (w : t) (a : Axes.t) :
  undrawn (styled w a) = styled w (undrawn a).
Proof.
  unfold styled. cbv zeta.
  assert (E : forall b,
             undrawn (if legend w
                      then Axes.show_legend (legendLoc w) (legendFontSize w) b
                      else b)
             = if legend w
               then Axes.show_legend (legendLoc w) (legendFontSize w) (undrawn b)
               else undrawn b).
  { intros b. destruct (legend w); reflexivity. }
  rewrite E.
  rewrite (undrawn_text (title w) (fun s => Axes.set_title s (titleSize w)))
    by reflexivity.
  rewrite (undrawn_text (ylabel w) (fun s => Axes.set_ylabel s (ylabelSize w)))
    by reflexivity.
  rewrite (undrawn_text (xlabel w) (fun s => Axes.set_xlabel s (xlabelSize w)))
    by reflexivity.
  assert (Ey : forall b,
             undrawn ((if logY w then Axes.set_yscale "log"
                       else Axes.set_yscale "linear") b)
             = (if logY w then Axes.set_yscale "log"
                else Axes.set_yscale "linear") (undrawn b)).
  { intros b. destruct (logY w); reflexivity. }
  assert (Ex : forall b,
             undrawn ((if logX w then Axes.set_xscale "log"
                       else Axes.set_xscale "linear") b)
             = (if logX w then Axes.set_xscale "log"
                else Axes.set_xscale "linear") (undrawn b)).
  { intros b. destruct (logX w); reflexivity. }
  rewrite Ey, Ex.
  rewrite (undrawn_opt (ylim w) Axes.set_ylim) by reflexivity.
  rewrite (undrawn_opt (xlim w) Axes.set_xlim) by reflexivity.
  reflexivity.
Qed.
End DrawsOnly.

(** When the render step returns, the axes carry the settings. *)
Lemma plot_applies_settings :
  forall (tight_layout : Plot.t -> option exn) (w : Plot.t),
    fst (Plot.__plot__ tight_layout w) = inr tt ->
    undrawn (Plot.ax (snd (Plot.__plot__ tight_layout w)))
    = Axes.mk [] (Plot.xlim w) (Plot.ylim w)
        (if Plot.logX w then "log" else "linear")
        (if Plot.logY w then "log" else "linear")
        (shown_text (Plot.xlabel w) (Plot.xlabelSize w))
        (shown_text (Plot.ylabel w) (Plot.ylabelSize w))
        (shown_text (Plot.title w) (Plot.titleSize w))
        (if Plot.legend w
         then Some (Plot.legendLoc w, Plot.legendFontSize w) else None).
Proof.
  intros tl w. rewrite plot_unfold, paint_spec.
  pose proof (draws_only_draw_series (Plot.set_ax Axes.cleared w)) as Hu.
  pose proof (axes_only_draw_series (Plot.set_ax Axes.cleared w)) as Hd.
  destruct (Plot.draw_series (Plot.set_ax Axes.cleared w)) as [[e|[]] w1];
    [discriminate|].
  cbn [snd] in Hu. injection Hd as _ Hw1.
  set (w2 := Plot.set_ax (styled w1 (Plot.ax w1)) w1).
  destruct (tl w2) as [e|]; [discriminate|]. intros _.
  cbn [snd]. rewrite (proj2 (canon_finish w2)).
  unfold w2. rewrite ax_set_ax, undrawn_styled, Hu.
  change (undrawn (Plot.ax (Plot.set_ax Axes.cleared w))) with Axes.cleared.
  rewrite styled_cleared, Hw1. reflexivity.
Qed.

(** X8.  Whatever the plot type and the data, a render step that returns
    has put the settings on the axes: the limits that are set, 'log' or
    'linear' scales by the flags, the axis labels and the title that are
    not empty with their font sizes, and the legend with its location and
    font size when it is switched on.  Nothing of an earlier render
    survives. *)
Theorem render_applies_settings :
  forall (tight_layout : Plot.t -> option exn) (w : Plot.t),
    fst (Plot.__plot__ tight_layout w) = inr tt ->
    undrawn (Plot.ax (snd (Plot.__plot__ tight_layout w)))
    = Axes.mk [] (Plot.xlim w) (Plot.ylim w)
        (if Plot.logX w then "log" else "linear")
        (if Plot.logY w then "log" else "linear")
        (shown_text (Plot.xlabel w) (Plot.xlabelSize w))
        (shown_text (Plot.ylabel w) (Plot.ylabelSize w))
        (shown_text (Plot.title w) (Plot.titleSize w))
        (if Plot.legend w
         then Some (Plot.legendLoc w, Plot.legendFontSize w) else None).
Proof. exact plot_applies_settings. Qed.

Lemma render_applies_settings_witness :
  let w := Plot.set_legend true
             (Plot.set_logY true
                (snd (Plot.new layout_ok
                        (plot_args (Ndarray two_series) Plot.TYPE_BAR PNone PNone)))) in
  fst (Plot.__plot__ layout_ok w) = inr tt /\
  undrawn (Plot.ax (snd (Plot.__plot__ layout_ok w)))
  = Axes.mk [] None None "linear" "log" None None None (Some (1%Z, 10%Z)).
Proof.
  intros w.
  assert (H : fst (Plot.__plot__ layout_ok w) = inr tt) by (vm_compute; reflexivity).
  split; [exact H|].
  rewrite (render_applies_settings layout_ok w H). vm_compute. reflexivity.
Defined.

(** ** The constructor, for any format and labels *)

Section Built.
Import Plot.
Variable tight_layout : t -> option exn.

Lemma init_fmt_spec (fmt : pyarg) (n : nat) (w : t) :
  shape_at (data w) 0 = Some n ->
  init_fmt fmt w = (inr tt, set_fmt (stored_fmt fmt n) w).
Proof.
  intros H. destruct fmt as [|s|[[] l]|]; try reflexivity.
  exact (init_fmt_tuple l n w H).
Qed.

Lemma init_labels_spec (labels : pyarg) (n : nat) (w : t) :
  shape_at (data w) 0 = Some n ->
  init_labels labels w
  = (inr tt,
     match stored_labels labels (data w) with
     | Some q => set_labels (Some q) w
     | None => w
     end).
Proof.
  intros H. destruct labels as [|s|q|]; try reflexivity.
  unfold stored_labels.
  assert (E : exists l, default_labels (data w) = Some l).
  { unfold default_labels. rewrite H.
    destruct (rank (data w) =? 2)%nat; eauto. }
  destruct E as [l E]. rewrite E. exact (init_labels_default l w E).
Qed.

(** With labels stored, [__init__] comes to its first render. *)
Lemma new_built (a : args) (d : ndarray) (n : nat) (q : pyseq) :
  a_data a = Ndarray d ->
  shape_at d 0 = Some n ->
  stored_labels (a_labels a) d = Some q ->
  new tight_layout a = __plot__ tight_layout (built a d n q).
Proof.
  intros Hd Hn Hq. rewrite init_unfold, Hd.
  rewrite (init_fmt_spec (a_fmt a) n) by exact Hn.
  rewrite (init_labels_spec (a_labels a) n) by exact Hn.
  cbn [data set_fmt]. change (data (set_data d ?x)) with d. rewrite Hq.
  rewrite (menubar_spec (a_plotType a) q) by reflexivity.
  reflexivity.
Qed.

Lemma bind_labels_attr_none {B} (k : pyseq -> M t B) (w : t) :
  labels w = None -> bind labels_attr k w = (inl AttributeError, w).
Proof. intros H. unfold labels_attr, bind, gets. rewrite H. reflexivity. Qed.

(** Without labels [__menubar__] raises [AttributeError]. *)
Lemma menubar_unlabelled (plotType : Z) (w : t) :
  labels w = None ->
  (1 <= rank (data w))%nat ->
  fst (__menubar__ plotType w) = inl AttributeError /\
  labels (snd (__menubar__ plotType w)) = None /\
  created (snd (__menubar__ plotType w)) = created w /\
  draws (snd (__menubar__ plotType w)) = draws w.
Proof.
  intros Hq Hr. unfold __menubar__. rewrite bind_gets.
  destruct (shape_at_0 (data w) Hr) as [n Hn].
  assert (Hrest : forall menu,
    let w1 := set_relabelMenu []
                (set_plotTypeVar plotType (set_plotTypeMenu menu w)) in
    forall k : pyseq -> M t unit,
      bind labels_attr k w1 = (inl AttributeError, w1)).
  { intros menu w1 k. now apply bind_labels_attr_none. }
  destruct (2 <=? rank (data w))%nat eqn:E.
  - apply Nat.leb_le in E. destruct (shape_neg_2 _ E) as [s Hs].
    rewrite (bind_data_shape_neg 2 s) by exact Hs.
    destruct (s =? 1)%nat.
    + rewrite bind_ret, !bind_modify, Hrest.
      split; [reflexivity|cbn [snd]; split; [exact Hq|split; reflexivity]].
    + rewrite bind_assoc, (bind_data_shape 0 n) by exact Hn.
      rewrite bind_assoc, bind_labels_attr_none by exact Hq.
      split; [reflexivity|split; [exact Hq|split; reflexivity]].
  - rewrite bind_ret. cbn [Nat.eqb]. rewrite bind_ret, !bind_modify, Hrest.
    split; [reflexivity|cbn [snd]; split; [exact Hq|split; reflexivity]].
Qed.
End Built.

(** ** What the constructor leaves in the window *)

Section BuiltFacts.
Import Plot.
Variable tight_layout : t -> option exn.

Lemma built_fields (a : args) (d : ndarray) (n : nat) (q : pyseq) :
  fmt (built a d n q) = stored_fmt (a_fmt a) n /\
  labels (built a d n q) = Some q /\
  data (built a d n q) = d /\
  plotTypeVar (built a d n q) = a_plotType a /\
  plotTypeMenu (built a d n q) = type_menu d (length (items q)) /\
  relabelMenu (built a d n q) = items q.
Proof. do 5 (split; [reflexivity|]). reflexivity. Qed.

Lemma canon_fields (w1 w2 : t) :
  canon w1 = canon w2 ->
  fmt w1 = fmt w2 /\ labels w1 = labels w2 /\ data w1 = data w2 /\
  plotTypeVar w1 = plotTypeVar w2 /\ plotTypeMenu w1 = plotTypeMenu w2 /\
  relabelMenu w1 = relabelMenu w2.
Proof.
  intros H.
  split; [exact (f_equal fmt H)|].
  split; [exact (f_equal labels H)|].
  split; [exact (f_equal data H)|].
  split; [exact (f_equal plotTypeVar H)|].
  split; [exact (f_equal plotTypeMenu H)|].
  exact (f_equal relabelMenu H).
Qed.

(** The fields of the window that [__init__] returns, or leaves behind
    when its first render raises. *)
Lemma new_fields (a : args) (d : ndarray) (n : nat) (q : pyseq) :
  a_data a = Ndarray d ->
  shape_at d 0 = Some n ->
  stored_labels (a_labels a) d = Some q ->
  let w := snd (new tight_layout a) in
  fmt w = stored_fmt (a_fmt a) n /\
  labels w = Some q /\
  data w = d /\
  plotTypeVar w = a_plotType a /\
  plotTypeMenu w = type_menu d (length (items q)) /\
  relabelMenu w = items q.
Proof.
  intros Hd Hn Hq w. unfold w.
  rewrite (new_built tight_layout a d n q Hd Hn Hq).
  destruct (canon_fields _ _ (plot_canon tight_layout (built a d n q)))
    as (-> & -> & -> & -> & -> & ->).
  apply built_fields.
Qed.

Lemma shape_neg_short (d : ndarray) :
  (rank d < 2)%nat -> shape_neg d 2 = None.
Proof.
  intros H. unfold shape_neg. apply lookup_ge_None.
  rewrite length_rev. unfold rank in H. lia.
Qed.

Lemma type_menu_states (d : ndarray) (k : nat) :
  let s := if (2 <=? rank d)%nat
           then match shape_neg d 2 with Some s => s | None => 1%nat end
           else 1%nat in
  let h := if (s =? 1)%nat then true
           else match shape_at d 0 with
                | Some n => (n =? k)%nat
                | None => false
                end in
  let menu := type_menu d k in
  entry_state menu TYPE_PLOT = Some (s =? 2)%nat /\
  entry_state menu TYPE_ERRORBAR = Some (s =? 2)%nat /\
  entry_state menu TYPE_BAR = Some (s =? 2)%nat /\
  entry_state menu TYPE_HISTOGRAM = Some h /\
  entry_state menu TYPE_2DHISTOGRAM = Some (s =? 2)%nat /\
  entry_state menu TYPE_CONTOUR = Some (s =? 3)%nat /\
  entry_state menu TYPE_IMAGE = Some true /\
  entry_state menu TYPE_COLORMESH = Some (s =? 3)%nat /\
  entry_state menu TYPE_DATEPLOT = Some (s =? 2)%nat /\
  entry_state menu TYPE_VECTOR = Some (s =? 4)%nat.
Proof. do 9 (split; [reflexivity|]). reflexivity. Qed.

(** The second-to-last dimension that gates the entries. *)
Lemma gate_eq (d : ndarray) (v : nat) :
  v <> 1%nat ->
  ((if (2 <=? rank d)%nat
    then match shape_neg d 2 with Some s => s | None => 1%nat end
    else 1%nat) =? v)%nat = true
  <-> shape_neg d 2 = Some v.
Proof.
  intros Hv. destruct (2 <=? rank d)%nat eqn:E.
  - apply Nat.leb_le in E. destruct (shape_neg_2 _ E) as [s ->].
    rewrite Nat.eqb_eq. split; congruence.
  - apply Nat.leb_gt in E. rewrite (shape_neg_short d E).
    split; [|discriminate]. intros H. apply Nat.eqb_eq in H. congruence.
Qed.
End BuiltFacts.

(** X9.  The format that the constructor stores: a string becomes a list
    of one, a tuple is kept when its length is [data.shape[0]] and dropped
    otherwise, and no format is stored for [None] or a value of another
    type.  This is the format of the window whether the first render
    returns or raises. *)
Theorem constructor_stores_format :
  forall (tight_layout : Plot.t -> option exn) (a : Plot.args) (d : ndarray)
         (n : nat) (q : pyseq),
    Plot.a_data a = Ndarray d ->
    shape_at d 0 = Some n ->
    stored_labels (Plot.a_labels a) d = Some q ->
    let w := snd (Plot.new tight_layout a) in
    (forall s, Plot.a_fmt a = PStr s -> Plot.fmt w = Some (pylist [s])) /\
    (forall l, Plot.a_fmt a = PSeq (pytuple l) ->
               Plot.fmt w = if (length l =? n)%nat then Some (pytuple l) else None) /\
    (Plot.a_fmt a = PNone \/ Plot.a_fmt a = POther -> Plot.fmt w = None).
Proof.
  intros tl a d n q Hd Hn Hq w.
  destruct (new_fields tl a d n q Hd Hn Hq) as (Hf & _). fold w in Hf.
  rewrite Hf. split; [|split].
  - intros s ->. reflexivity.
  - intros l ->. reflexivity.
  - intros [-> | ->]; reflexivity.
Qed.

Lemma constructor_stores_format_witness :
  let w := snd (Plot.new layout_ok
                  (plot_args (Ndarray xy_data) Plot.TYPE_PLOT
                     (PSeq (pytuple ["r"])) PNone)) in
  Plot.fmt w = None.
Proof.
  intros w.
  exact (proj1 (proj2 (constructor_stores_format layout_ok
                         (plot_args (Ndarray xy_data) Plot.TYPE_PLOT
                            (PSeq (pytuple ["r"])) PNone)
                         xy_data 2 (pylist ["Series 1"])
                         eq_refl eq_refl eq_refl)) ["r"] eq_refl).
Defined.

(** X10.  The plot-type menu that the constructor builds has the ten types
    in the order of their values; the entries of the paired types (Plot,
    Error Bar, Bar, 2-D Histogram, Date Plot) are enabled exactly when
    [data.shape[-2]] exists and is 2, Contour and Color Mesh when it is 3,
    Vector when it is 4, Image always, and Histogram when the data has
    fewer than two dimensions, or [data.shape[-2]] is 1, or there are as
    many labels as [data.shape[0]].  The selected type is the [plotType]
    argument and the relabel menu has one command per label, in order. *)
Theorem plot_type_menu_states :
  forall (tight_layout : Plot.t -> option exn) (a : Plot.args) (d : ndarray)
         (n : nat) (q : pyseq),
    Plot.a_data a = Ndarray d ->
    shape_at d 0 = Some n ->
    stored_labels (Plot.a_labels a) d = Some q ->
    let w := snd (Plot.new tight_layout a) in
    let menu := Plot.plotTypeMenu w in
    map (fun e => snd (fst e)) menu = [0; 1; 2; 3; 4; 5; 6; 7; 8; 9]%Z /\
    (forall ty,
        In ty [Plot.TYPE_PLOT; Plot.TYPE_ERRORBAR; Plot.TYPE_BAR;
               Plot.TYPE_2DHISTOGRAM; Plot.TYPE_DATEPLOT] ->
        exists b, entry_state menu ty = Some b /\
                  (b = true <-> shape_neg d 2 = Some 2%nat)) /\
    (forall ty,
        In ty [Plot.TYPE_CONTOUR; Plot.TYPE_COLORMESH] ->
        exists b, entry_state menu ty = Some b /\
                  (b = true <-> shape_neg d 2 = Some 3%nat)) /\
    (exists b, entry_state menu Plot.TYPE_VECTOR = Some b /\
               (b = true <-> shape_neg d 2 = Some 4%nat)) /\
    entry_state menu Plot.TYPE_IMAGE = Some true /\
    (exists b, entry_state menu Plot.TYPE_HISTOGRAM = Some b /\
               (b = true <-> (rank d < 2)%nat \/ shape_neg d 2 = Some 1%nat \/
                             n = length (items q))) /\
    Plot.plotTypeVar w = Plot.a_plotType a /\
    Plot.relabelMenu w = items q.
Proof.
  intros tl a d n q Hd Hn Hq w menu.
  destruct (new_fields tl a d n q Hd Hn Hq) as (_ & _ & _ & Hv & Hm & Hr).
  fold w in Hv, Hm, Hr. unfold menu. rewrite Hm.
  destruct (type_menu_states d (length (items q)))
    as (H0 & H1 & H2 & H3 & H4 & H5 & H6 & H7 & H8 & H9).
  split; [reflexivity|].
  split.
  { intros ty Hty. eexists. split.
    - destruct Hty as [<-|[<-|[<-|[<-|[<-|[]]]]]]; eassumption.
    - apply gate_eq. discriminate. }
  split.
  { intros ty Hty. eexists. split.
    - destruct Hty as [<-|[<-|[]]]; eassumption.
    - apply gate_eq. discriminate. }
  split.
  { eexists. split; [exact H9|]. apply gate_eq. discriminate. }
  split; [exact H6|].
  split; [|split; assumption].
  eexists. split; [exact H3|].
  rewrite Hn.
  destruct (2 <=? rank d)%nat eqn:E.
  - apply Nat.leb_le in E. destruct (shape_neg_2 _ E) as [s Hs]. rewrite Hs.
    destruct (s =? 1)%nat eqn:E1.
    + apply Nat.eqb_eq in E1. subst s. split; auto.
    + apply Nat.eqb_neq in E1. rewrite Nat.eqb_eq. split.
      * auto.
      * intros [H|[H|H]]; [lia|congruence|exact H].
  - apply Nat.leb_gt in E. cbn [Nat.eqb]. split; auto.
Qed.

Lemma plot_type_menu_states_witness :
  let w := snd (Plot.new layout_ok (Plot.defaults (Ndarray two_series))) in
  entry_state (Plot.plotTypeMenu w) Plot.TYPE_IMAGE = Some true /\
  Plot.relabelMenu w = ["Series 1"; "Series 2"].
Proof.
  intros w.
  pose proof (plot_type_menu_states layout_ok (Plot.defaults (Ndarray two_series))
                two_series 2 (pylist ["Series 1"; "Series 2"])
                eq_refl eq_refl eq_refl) as H.
  split; [exact (proj1 (proj2 (proj2 (proj2 (proj2 H)))))|].
  exact (proj2 (proj2 (proj2 (proj2 (proj2 (proj2 (proj2 H))))))).
Defined.

(** ** Renders that raise *)

Section RenderRaises.
Import Plot.
Variable tight_layout : t -> option exn.

Lemma draw_series_hists (w : t) :
  plotTypeVar w = TYPE_HISTOGRAM -> draw_series w = plot_hists w.
Proof. intros H. unfold draw_series. rewrite bind_gets, H. reflexivity. Qed.

(** The histogram branch asserts on data of rank 3 or more (and of rank 0). *)
Lemma plot_hists_rejects (w : t) :
  rank (data w) <> 1%nat -> rank (data w) <> 2%nat ->
  plot_hists w = (inl AssertionError, w).
Proof.
  intros H1 H2. unfold plot_hists. rewrite bind_gets.
  apply Nat.eqb_neq in H1, H2. rewrite H1, H2. reflexivity.
Qed.

(** What the drawing step raises, the render step raises, with the axes as
    the drawing step left them. *)
Lemma plot_draw_raises_at (w w' : t) (e : exn) :
  draw_series (set_ax Axes.cleared w) = (inl e, w') ->
  __plot__ tight_layout w = (inl e, w').
Proof. intros H. rewrite plot_unfold, paint_spec, H. reflexivity. Qed.






End RenderRaises.

(** X11.  For data of three or more dimensions with one label for each
    [data[i]], the constructor enables the Histogram entry of the plot-type
    menu, but the histogram branch of the render step asserts that the data
    has two dimensions: selecting the entry ends in [AssertionError], which
    Tk reports, and leaves the axes cleared with nothing drawn. *)
Theorem histogram_entry_enabled_on_rejected_data :
  forall (tight_layout : Plot.t -> option exn) (a : Plot.args) (d : ndarray)
         (n : nat) (q : pyseq),
    Plot.a_data a = Ndarray d ->
    shape_at d 0 = Some n ->
    stored_labels (Plot.a_labels a) d = Some q ->
    (3 <= rank d)%nat ->
    n = length (items q) ->
    let w := snd (Plot.new tight_layout a) in
    let w' := Plot.select_plotType tight_layout Plot.TYPE_HISTOGRAM w in
    entry_state (Plot.plotTypeMenu w) Plot.TYPE_HISTOGRAM = Some true /\
    Plot.reported w' = (Plot.reported w ++ [AssertionError])%list /\
    Plot.ax w' = Axes.cleared /\
    Plot.plotTypeVar w' = Plot.TYPE_HISTOGRAM.
Proof.
  intros tl a d n q Hd Hn Hq Hr Hlen w w'.
  destruct (new_fields tl a d n q Hd Hn Hq) as (_ & _ & Hdata & _ & Hm & _).
  fold w in Hdata, Hm. split.
  - rewrite Hm.
    destruct (type_menu_states d (length (items q))) as (_ & _ & _ & -> & _).
    f_equal. rewrite Hn, Hlen, Nat.eqb_refl.
    now destruct (_ =? 1)%nat.
  - unfold w', Plot.select_plotType, Plot.callback.
    set (w0 := Plot.set_plotTypeVar Plot.TYPE_HISTOGRAM w).
    assert (Hdraw : Plot.draw_series (Plot.set_ax Axes.cleared w0)
                    = (inl AssertionError, Plot.set_ax Axes.cleared w0)).
    { rewrite draw_series_hists by reflexivity.
      apply plot_hists_rejects;
        change (Plot.data (Plot.set_ax Axes.cleared w0)) with (Plot.data w);
        rewrite Hdata; lia. }
    rewrite (plot_draw_raises_at tl _ _ _ Hdraw).
    split; [reflexivity|]. split; reflexivity.
Qed.

Lemma histogram_entry_enabled_on_rejected_data_witness :
  let w := snd (Plot.new layout_ok (Plot.defaults (Ndarray three_series))) in
  entry_state (Plot.plotTypeMenu w) Plot.TYPE_HISTOGRAM = Some true /\
  Plot.reported (Plot.select_plotType layout_ok Plot.TYPE_HISTOGRAM w)
  = [AssertionError].
Proof.
  intros w.
  assert (Hl : (3 <= rank three_series)%nat) by (vm_compute; lia).
  pose proof (histogram_entry_enabled_on_rejected_data layout_ok
                (Plot.defaults (Ndarray three_series)) three_series 3
                (pylist ["Series 1"; "Series 2"; "Series 3"])
                eq_refl eq_refl eq_refl Hl eq_refl) as H.
  split; [exact (proj1 H)|].
  exact (proj1 (proj2 H)).
Defined.

(** X12.  Labels that are no string, list or tuple are not stored, and the
    constructor raises [AttributeError] from [__menubar__], which reads
    [self.labels]: the toplevel window exists by then and nothing has been
    rendered. *)
Theorem labels_of_another_type :
  forall (tight_layout : Plot.t -> option exn) (a : Plot.args) (d : ndarray),
    Plot.a_data a = Ndarray d ->
    (1 <= rank d)%nat ->
    Plot.a_labels a = POther ->
    fst (Plot.new tight_layout a) = inl AttributeError /\
    Plot.labels (snd (Plot.new tight_layout a)) = None /\
    Plot.created (snd (Plot.new tight_layout a)) = true /\
    Plot.draws (snd (Plot.new tight_layout a)) = 0%nat.
Proof.
  intros tl a d Hd Hr Hl.
  destruct (shape_at_0 d Hr) as [n Hn].
  rewrite init_unfold, Hd.
  rewrite (init_fmt_spec (Plot.a_fmt a) n) by exact Hn.
  rewrite (init_labels_spec (Plot.a_labels a) n) by exact Hn.
  rewrite Hl. cbn [stored_labels].
  set (w0 := configured a _).
  destruct (menubar_unlabelled (Plot.a_plotType a) w0 eq_refl Hr)
    as (He & Hq & Hc & Hdr).
  destruct (Plot.__menubar__ (Plot.a_plotType a) w0) as [[e|[]] w1];
    [|discriminate].
  cbn [fst snd] in *. injection He as ->.
  split; [reflexivity|]. split; [exact Hq|]. split; assumption.
Qed.

Lemma labels_of_another_type_witness :
  fst (Plot.new layout_ok
         (plot_args (Ndarray xy_data) Plot.TYPE_PLOT PNone POther))
  = inl AttributeError.
Proof.
  assert (Hl : (1 <= rank xy_data)%nat) by (vm_compute; lia).
  exact (proj1 (labels_of_another_type layout_ok
                  (plot_args (Ndarray xy_data) Plot.TYPE_PLOT PNone POther)
                  xy_data eq_refl Hl eq_refl)).
Defined.





(** ** The dialogs of the plot window *)

Section DialogActions.
Import Plot.
Variable tight_layout : t -> option exn.
Variable py_float : string -> option float.

(** The numeric-range dialog as [__setXLim__] and [__setYLim__] open it. *)
Lemma limit_init_two (parent : bool) (title : option string) (s1 s2 : string)
    (evs : list limitPrompt.event) :
  exists d0,
    limitPrompt.destroyed d0 = false /\
    limitPrompt.result d0 = None /\
    limitPrompt.__init__ py_float parent title [s1; s2] evs
    = match limitPrompt.wait_window py_float evs d0 with
      | Some d' => Some (inr tt, d')
      | None => None
      end.
Proof.
  exists (limitPrompt.set_vars s1 s2
            (match title with
             | Some s => limitPrompt.set_title s
             | None => fun x => x
             end (limitPrompt.mk parent "" "" None true None false false false []))).
  split; [destruct title; reflexivity|].
  split; [destruct title; reflexivity|].
  unfold limitPrompt.__init__.
  destruct title; reflexivity.
Qed.

Lemma limit_dialog_result (title : option string) (curr : string * string)
    (evs : list limitPrompt.event) (r : res unit) (p : limitPrompt.t) :
  limitPrompt.__init__ py_float true title [fst curr; snd curr] evs = Some (r, p) ->
  r = inr tt /\
  (limitPrompt.result p = None \/
   exists a b, limitPrompt.result p = Some (a, b) /\ PrimFloat.ltb a b = true).
Proof.
  intros H.
  destruct (limit_init_two true title (fst curr) (snd curr) evs)
    as (d0 & Ho & Hr & E).
  rewrite E in H.
  destruct (limitPrompt.wait_window py_float evs d0) as [d'|] eqn:W; [|discriminate].
  injection H as <- <-. split; [reflexivity|].
  destruct (limit_wait_result py_float evs d0 d' Ho Hr W)
    as [_ [[Hn _]|(a & b & H1 & H2 & _)]]; [now left|].
  right. exists a, b. auto.
Qed.

(** The text dialog as [__relabel__] opens it. *)
Lemma relabel_dialog_opens (old : string) (evs : list textPrompt.event) :
  exists d0,
    textPrompt.destroyed d0 = false /\
    textPrompt.result d0 = None /\
    textPrompt.getFontSize d0 = false /\
    relabel_dialog py_float old evs
    = match textPrompt.wait_window py_float evs d0 with
      | Some d' => Some (inr tt, d')
      | None => None
      end.
Proof.
  eexists. split; [|split; [|split]]; [| | |reflexivity]; reflexivity.
Qed.

Lemma text_wait_typed (texts : list string) (rest : list textPrompt.event) :
  forall d,
    textPrompt.destroyed d = false ->
    exists d',
      textPrompt.wait_window py_float
        (map textPrompt.TypeText texts ++ textPrompt.Cancel :: rest) d = Some d' /\
      textPrompt.result d' = textPrompt.result d.
Proof.
  induction texts as [|s texts IH]; intros d Ho.
  - cbn [map app]. rewrite text_wait_step by exact Ho.
    cbn [textPrompt.dispatch]. rewrite text_cancel_spec. cbn [snd].
    rewrite text_wait_destroyed by reflexivity.
    eexists. split; [reflexivity|].
    destruct (textPrompt.has_parent d); reflexivity.
  - cbn [map app]. rewrite text_wait_step by exact Ho.
    cbn [textPrompt.dispatch].
    destruct (IH (textPrompt.set_var s d) Ho) as (d' & -> & Hr).
    exists d'. split; [reflexivity|]. exact Hr.
Qed.

Lemma relabel_dialog_cancelled (old : string) (texts : list string)
    (rest : list textPrompt.event) :
  exists p,
    relabel_dialog py_float old
      (map textPrompt.TypeText texts ++ textPrompt.Cancel :: rest)
    = Some (inr tt, p) /\
    textPrompt.result p = None.
Proof.
  destruct (relabel_dialog_opens old
              (map textPrompt.TypeText texts ++ textPrompt.Cancel :: rest))
    as (d0 & Ho & Hr & _ & ->).
  destruct (text_wait_typed texts rest d0 Ho) as (d' & -> & Hres).
  exists d'. split; [reflexivity|]. now rewrite Hres.
Qed.

Lemma relabel_dialog_confirmed (old s : string) (rest : list textPrompt.event) :
  exists p,
    relabel_dialog py_float old (textPrompt.TypeText s :: textPrompt.OK :: rest)
    = Some (inr tt, p) /\
    textPrompt.result p = Some (s, None).
Proof.
  destruct (relabel_dialog_opens old
              (textPrompt.TypeText s :: textPrompt.OK :: rest))
    as (d0 & Ho & Hr & G & ->).
  rewrite !text_wait_step by exact Ho.
  cbn [textPrompt.dispatch].
  rewrite (text_ok_no_font py_float (textPrompt.set_var s d0) G). cbn [snd].
  destruct (text_closed_fields
              (textPrompt.set_result
                 (Some (textPrompt.var (textPrompt.set_var s d0), None))
                 (textPrompt.set_var s d0))) as (F1 & _ & F3 & _).
  rewrite text_wait_destroyed by exact F1.
  eexists. split; [reflexivity|]. exact F3.
Qed.

(** What a render that raises leaves of the counters. *)
Lemma plot_bookkeeping (w : t) :
  let r := __plot__ tight_layout w in
  (fst r = inr tt ->
   draws (snd r) = S (draws w) /\
   layouts (snd r) = S (layouts w) /\
   toolbar (snd r)
   = (if showToolbar w then Some true
      else match toolbar w with Some _ => Some false | None => None end) /\
   reported (snd r) = reported w) /\
  (forall e, fst r = inl e ->
     draws (snd r) = draws w /\
     layouts (snd r) = layouts w /\
     toolbar (snd r) = toolbar w /\
     reported (snd r) = reported w).
Proof.
  intros r. unfold r. rewrite plot_unfold, (paint_canon w).
  set (a := ax (snd (paint (canon w)))).
  destruct (fst (paint (canon w))) as [e|[]]; cbv beta iota.
  - split; [discriminate|]. intros e' _.
    split; [reflexivity|split; [reflexivity|split; reflexivity]].
  - destruct (tight_layout (set_ax a w)) as [e|].
    + split; [discriminate|]. intros e' _.
      split; [reflexivity|split; [reflexivity|split; reflexivity]].
    + split; [|discriminate]. intros _. cbn [snd]. unfold finish. cbv zeta.
      change (showToolbar (set_layouts _ (set_ax a w))) with (showToolbar w).
      change (toolbar (set_layouts _ (set_ax a w))) with (toolbar w).
      destruct (showToolbar w);
        [split; [reflexivity|split; [reflexivity|split; reflexivity]]|].
      destruct (toolbar w) eqn:Ht.
      * split; [reflexivity|split; [reflexivity|split; reflexivity]].
      * split; [reflexivity|split; [reflexivity|split; [exact Ht|reflexivity]]].
Qed.
End DialogActions.

(** X15.  The limits dialogs never raise.  When the dialog is closed
    without a result the window is as it was; otherwise the result is a
    pair (a, b) with a < b that is stored in [self.xlim] (or [self.ylim]),
    set on the axes without clearing them, and the canvas is redrawn once;
    the range then survives every later render that returns. *)
Theorem axis_limits_dialogs :
  forall (py_float : string -> option float) (curr : string * string)
         (evs : list limitPrompt.event) (w : Plot.t) (r : res unit)
         (w' : Plot.t),
    (Plot.__setXLim__ py_float curr evs w = Some (r, w') ->
     r = inr tt /\
     (w' = w \/
      exists a b,
        PrimFloat.ltb a b = true /\
        w' = Plot.set_draws (S (Plot.draws w))
               (Plot.set_ax (Axes.set_xlim (a, b) (Plot.ax w))
                  (Plot.set_xlim (Some (a, b)) w)) /\
        forall tight_layout,
          fst (Plot.__plot__ tight_layout w') = inr tt ->
          Axes.xlim (Plot.ax (snd (Plot.__plot__ tight_layout w')))
          = Some (a, b))) /\
    (Plot.__setYLim__ py_float curr evs w = Some (r, w') ->
     r = inr tt /\
     (w' = w \/
      exists a b,
        PrimFloat.ltb a b = true /\
        w' = Plot.set_draws (S (Plot.draws w))
               (Plot.set_ax (Axes.set_ylim (a, b) (Plot.ax w))
                  (Plot.set_ylim (Some (a, b)) w)) /\
        forall tight_layout,
          fst (Plot.__plot__ tight_layout w') = inr tt ->
          Axes.ylim (Plot.ax (snd (Plot.__plot__ tight_layout w')))
          = Some (a, b))).
Proof.
  intros py curr evs w r w'. split.
  - unfold Plot.__setXLim__. intros H.
    destruct (limitPrompt.__init__ py true (Some "x axis limits")
                [fst curr; snd curr] evs) as [[r0 p]|] eqn:E; [|discriminate].
    destruct (limit_dialog_result py _ curr evs r0 p E) as [-> Hres].
    destruct Hres as [Hn|(a & b & Hr & Hlt)].
    + rewrite Hn in H. injection H as <- <-. split; [reflexivity|now left].
    + rewrite Hr in H. injection H as <- <-. split; [reflexivity|].
      right. exists a, b. split; [exact Hlt|]. split; [reflexivity|].
      intros tl Hret.
      exact (f_equal Axes.xlim (plot_applies_settings tl _ Hret)).
  - unfold Plot.__setYLim__. intros H.
    destruct (limitPrompt.__init__ py true (Some "y axis limits")
                [fst curr; snd curr] evs) as [[r0 p]|] eqn:E; [|discriminate].
    destruct (limit_dialog_result py _ curr evs r0 p E) as [-> Hres].
    destruct Hres as [Hn|(a & b & Hr & Hlt)].
    + rewrite Hn in H. injection H as <- <-. split; [reflexivity|now left].
    + rewrite Hr in H. injection H as <- <-. split; [reflexivity|].
      right. exists a, b. split; [exact Hlt|]. split; [reflexivity|].
      intros tl Hret.
      exact (f_equal Axes.ylim (plot_applies_settings tl _ Hret)).
Qed.

Lemma axis_limits_dialogs_witness :
  let w := snd (Plot.new layout_ok (Plot.defaults (Ndarray xy_data))) in
  let evs := [limitPrompt.Type1 "0"; limitPrompt.Type2 "2.5"; limitPrompt.OK] in
  exists w',
    Plot.__setXLim__ Literal.parse ("1.0", "3.0") evs w = Some (inr tt, w') /\
    Plot.xlim w' = Some (0%float, 2.5%float).
Proof.
  intros w evs.
  destruct (Plot.__setXLim__ Literal.parse ("1.0", "3.0") evs w)
    as [[r w']|] eqn:E; [|vm_compute in E; discriminate].
  destruct (proj1 (axis_limits_dialogs Literal.parse ("1.0", "3.0") evs w r w') E)
    as [-> _].
  exists w'. split; [reflexivity|].
  vm_compute in E. injection E as <-. vm_compute. reflexivity.
Defined.

(** X16.  Closing the relabel dialog without confirming, after whatever
    was typed into it, changes nothing in the window and raises nothing,
    for labels in a list as in a tuple. *)
Theorem relabel_cancel_changes_nothing :
  forall (tight_layout : Plot.t -> option exn)
         (py_float : string -> option float) (i : nat) (w : Plot.t)
         (k : pykind) (l : list string) (old : string) (texts : list string)
         (rest : list textPrompt.event),
    Plot.labels w = Some (mk_pyseq k l) ->
    l !! i = Some old ->
    Plot.__relabel__ tight_layout py_float i
      (map textPrompt.TypeText texts ++ textPrompt.Cancel :: rest) w
    = Some (inr tt, w).
Proof.
  intros tl py i w k l old texts rest Hq Hl.
  destruct (relabel_dialog_cancelled py old texts rest) as (p & Hdlg & Hres).
  exact (relabel_cancelled tl py i _ w l k old p Hq Hl Hdlg Hres).
Qed.

Lemma relabel_cancel_changes_nothing_witness :
  let w := snd (Plot.new layout_ok (Plot.defaults (Ndarray two_series))) in
  Plot.__relabel__ layout_ok Literal.parse 1
    (map textPrompt.TypeText ["Shot A"] ++ textPrompt.Cancel :: []) w
  = Some (inr tt, w).
Proof.
  intros w.
  apply (relabel_cancel_changes_nothing layout_ok Literal.parse 1 w PyList
           ["Series 1"; "Series 2"] "Series 2" ["Shot A"] []).
  - vm_compute. reflexivity.
  - reflexivity.
Defined.

(** X17.  When a relabel is confirmed and the redraw raises, the exception
    leaves [__relabel__] before the menu is updated: the label in
    [self.labels] is the new one while the entry of the relabel menu still
    shows the old one. *)
Theorem relabel_redraw_raises :
  forall (tight_layout : Plot.t -> option exn)
         (py_float : string -> option float) (i : nat) (w : Plot.t)
         (l : list string) (old s : string) (rest : list textPrompt.event)
         (e : exn),
    Plot.labels w = Some (pylist l) ->
    l !! i = Some old ->
    fst (Plot.__plot__ tight_layout
           (Plot.set_labels (Some (pylist (<[i := s]> l))) w)) = inl e ->
    exists w',
      Plot.__relabel__ tight_layout py_float i
        (textPrompt.TypeText s :: textPrompt.OK :: rest) w
      = Some (inl e, w') /\
      Plot.labels w' = Some (pylist (<[i := s]> l)) /\
      Plot.relabelMenu w' = Plot.relabelMenu w.
Proof.
  intros tl py i w l old s rest e Hq Hl Hraise.
  destruct (relabel_dialog_confirmed py old s rest) as (p & Hdlg & Hres).
  unfold Plot.__relabel__.
  rewrite (labels_get_list l PyList i old w Hq Hl).
  fold (relabel_dialog py old (textPrompt.TypeText s :: textPrompt.OK :: rest)).
  rewrite Hdlg, Hres. cbn [fst].
  set (w1 := Plot.set_labels (Some (pylist (<[i := s]> l))) w) in *.
  assert (Hset : forall k : unit -> M Plot.t unit,
             bind (Plot.labels_set i s) k w = k tt w1).
  { intros k. unfold Plot.labels_set.
    rewrite bind_assoc, (bind_labels_attr (pylist l)) by exact Hq.
    unfold seq_set. cbn [kind items pylist].
    assert (Hi : (i <? length l)%nat = true).
    { apply Nat.ltb_lt. apply lookup_lt_is_Some. eauto. }
    rewrite Hi. reflexivity. }
  rewrite Hset.
  destruct (canon_fields _ _ (plot_canon tl w1)) as (_ & Hlab & _ & _ & _ & Hmenu).
  exists (snd (Plot.__plot__ tl w1)).
  split; [|split; [exact Hlab|exact Hmenu]].
  unfold bind at 1.
  destruct (Plot.__plot__ tl w1) as [[e'|[]] w2]; [|discriminate].
  cbn [fst] in Hraise. injection Hraise as ->. reflexivity.
Qed.

Lemma relabel_redraw_raises_witness :
  let w := snd (Plot.new layout_ok (Plot.defaults (Ndarray two_series))) in
  exists w',
    Plot.__relabel__ (layout_raises RuntimeError) Literal.parse 1
      [textPrompt.TypeText "Shot A"; textPrompt.OK] w
    = Some (inl RuntimeError, w') /\
    Plot.labels w' = Some (pylist ["Series 1"; "Shot A"]) /\
    Plot.relabelMenu w' = ["Series 1"; "Series 2"].
Proof.
  intros w.
  apply (relabel_redraw_raises (layout_raises RuntimeError) Literal.parse 1 w
           ["Series 1"; "Series 2"] "Series 2" "Shot A" [] RuntimeError).
  - vm_compute. reflexivity.
  - reflexivity.
  - vm_compute. reflexivity.
Defined.

(** X18.  The bookkeeping of the render step.  When it returns, the layout
    pass and the canvas redraw have each run once, and the toolbar exists
    when [showToolbar] is set and is destroyed otherwise, if there was one.
    When it raises, whether from the drawing step or from the layout pass,
    the canvas is not redrawn and the toolbar is not touched, so the window
    keeps showing its previous picture. *)
Theorem render_bookkeeping :
  forall (tight_layout : Plot.t -> option exn) (w : Plot.t),
    let r := Plot.__plot__ tight_layout w in
    (fst r = inr tt ->
     Plot.draws (snd r) = S (Plot.draws w) /\
     Plot.layouts (snd r) = S (Plot.layouts w) /\
     Plot.toolbar (snd r)
     = (if Plot.showToolbar w then Some true
        else match Plot.toolbar w with Some _ => Some false | None => None end) /\
     Plot.reported (snd r) = Plot.reported w) /\
    (forall e, fst r = inl e ->
       Plot.draws (snd r) = Plot.draws w /\
       Plot.layouts (snd r) = Plot.layouts w /\
       Plot.toolbar (snd r) = Plot.toolbar w /\
       Plot.reported (snd r) = Plot.reported w).
Proof. exact plot_bookkeeping. Qed.

Section HistogramOfSamples.
Import Plot.
Variable tight_layout : t -> option exn.

End HistogramOfSamples.



Lemma render_bookkeeping_witness :
  let w := snd (Plot.new layout_ok (Plot.defaults (Ndarray xy_data))) in
  fst (Plot.__plot__ layout_ok w) = inr tt /\
  Plot.draws (snd (Plot.__plot__ layout_ok w)) = S (Plot.draws w).
Proof.
  intros w.
  assert (H : fst (Plot.__plot__ layout_ok w) = inr tt)
    by (vm_compute; reflexivity).
  split; [exact H|].
  exact (proj1 (proj1 (render_bookkeeping layout_ok w) H)).
Defined.
